(** * PadeOpsIO: the budget/field data-access layer, embedded in Rocq

    A shallow embedding of [padeopsIO/budgetIO.py] (class [BudgetIO]) and
    [padeopsIO/turbineArray.py] (class [TurbineArray]), with the properties
    of the data-access layer proved over it.

    Conventions of the embedding.
    - A Python object is a record; a method is a function in the monad [M]
      of the world (file system, session object, emitted messages) with
      exceptions.  An exception aborts the call.
    - [float64] values are Rocq's primitive binary64 floats.
    - File names are ASCII strings; [re] and [glob] are modelled on strings
      for the patterns the code uses.
    - Diagnostics printed only under [verbose] are not recorded; [verbose]
      itself is kept where it steers control flow. *)

From Stdlib Require Import ZArith Floats Ascii String DecimalString.
From stdpp Require Import base tactics option list gmap strings sorting.

Local Open Scope Z_scope.
Local Open Scope string_scope.
Local Open Scope list_scope.

(** ** Python strings: formatting and parsing of integers *)

Module Py.

(** [str(n)] for a natural number. *)
Definition str_of_N (n : N) : string := NilZero.string_of_uint (N.to_uint n).

(** Left padding with ['0'] up to width [w]. *)
Fixpoint zeros (k : nat) : string :=
  match k with O => "" | S k' => String "0" (zeros k') end.

Definition zfill (w : nat) (s : string) : string :=
  zeros (w - String.length s) +:+ s.

(** ['{:0wd}'.format(z)]: sign first, then zeros up to the total width. *)
Definition format_d (w : nat) (z : Z) : string :=
  if (z <? 0)%Z then String "-" (zfill (w - 1) (str_of_N (Z.abs_N z)))
  else zfill w (str_of_N (Z.abs_N z)).

Definition is_digit (c : ascii) : bool :=
  let n := nat_of_ascii c in (48 <=? n)%nat && (n <=? 57)%nat.

(** [int(s)] on a non-empty string of ASCII digits, as [re]'s [\d+] yields. *)
Fixpoint int_digits (acc : N) (s : list ascii) : N :=
  match s with
  | [] => acc
  | c :: s' => int_digits (10 * acc + N.of_nat (nat_of_ascii c - 48))%N s'
  end.

Definition int_of (s : list ascii) : Z := Z.of_N (int_digits 0 s).

Definition chars (s : string) : list ascii := list_ascii_of_string s.

End Py.

(** ** The fragment of [re] the code uses

    Every pattern in [budgetIO.py] is a sequence of literal characters,
    [.], [.*], [\d+] and one capturing group [(\d+)].  Matching is
    backtracking and greedy, as in Python. *)

Module Re.

Inductive atom : Type :=
  | Lit (c : ascii)      (* a literal character *)
  | Dot                  (* [.]: any character but a newline *)
  | Digit.               (* [\d] *)

Inductive piece : Type :=
  | One (a : atom)       (* a *)
  | Star (a : atom)      (* a*, greedy *)
  | Plus (a : atom)      (* a+, greedy *)
  | Group (a : atom).    (* (a+), greedy, capturing *)

Definition regex := list piece.

Definition accepts (a : atom) (c : ascii) : bool :=
  match a with
  | Lit c' => if ascii_dec c' c then true else false
  | Dot => if ascii_dec c "010"%char then false else true
  | Digit => Py.is_digit c
  end.

(** [match_here r s]: [r] matches a prefix of [s]; the result is the text
    of the capturing groups, in order. *)
Fixpoint match_here (r : regex) : list ascii -> option (list (list ascii)) :=
  match r with
  | [] => fun _ => Some []
  | One a :: r' => fun s =>
      match s with
      | c :: s' => if accepts a c then match_here r' s' else None
      | [] => None
      end
  | Star a :: r' =>
      fix star (s : list ascii) : option (list (list ascii)) :=
        match s with
        | c :: s' =>
            if accepts a c then
              match star s' with
              | Some g => Some g
              | None => match_here r' s
              end
            else match_here r' s
        | [] => match_here r' []
        end
  | Plus a :: r' => fun s =>
      match s with
      | c :: s' =>
          if accepts a c then
            (fix star (s : list ascii) : option (list (list ascii)) :=
               match s with
               | c :: s' =>
                   if accepts a c then
                     match star s' with
                     | Some g => Some g
                     | None => match_here r' s
                     end
                   else match_here r' s
               | [] => match_here r' []
               end) s'
          else None
      | [] => None
      end
  | Group a :: r' => fun s =>
      match s with
      | c :: s' =>
          if accepts a c then
            (fix grp (acc s : list ascii) : option (list (list ascii)) :=
               let stop := (fun g => rev acc :: g) <$> match_here r' s in
               match s with
               | c :: s' =>
                   if accepts a c then
                     match grp (c :: acc) s' with
                     | Some g => Some g
                     | None => stop
                     end
                   else stop
               | [] => stop
               end) [c] s'
          else None
      | [] => None
      end
  end.

(** The first match of [re.findall(r, s)]: the leftmost position at which
    [r] matches. *)
Fixpoint search (r : regex) (s : list ascii) : option (list (list ascii)) :=
  match match_here r s with
  | Some g => Some g
  | None => match s with
            | [] => None
            | _ :: s' => search r s'
            end
  end.

(** [re.findall(r, s)[0]] for a pattern with one group, and the test
    [if re.findall(r, s)]. *)
Definition first_group (r : regex) (s : string) : option (list ascii) :=
  match search r (Py.chars s) with
  | Some (g :: _) => Some g
  | _ => None
  end.

Definition lits (s : string) : regex := (fun c => One (Lit c)) <$> Py.chars s.

End Re.

(** ** The fragment of NumPy the code uses *)

Module Np.

(** *** Three-dimensional [float64] arrays

    [cells a] is indexed [a[i][j][k]]; [dims a] is the array's shape. *)

Record array3 : Type := Array3 {
  dims : nat * nat * nat;
  cells : list (list (list float))
}.

Definition get3 (a : array3) (i j k : nat) : option float :=
  row ← cells a !! i; col ← row !! j; col !! k.

Definition tabulate {A} (n : nat) (f : nat -> A) : list A := f <$> seq 0 n.

(** [count] consecutive chunks of [n] elements each. *)
Fixpoint chunks {A} (n count : nat) (l : list A) : list (list A) :=
  match count with
  | O => []
  | S c => take n l :: chunks n c (drop n l)
  end.

(** [flat.reshape((nx, ny, nz), order='F')].  The stream is read in
    Fortran index order, the first index changing fastest: it is cut into
    [nz] planes of [ny] columns of [nx] elements (the row-major reshape to
    [(nz, ny, nx)]) and the axes are then reversed.  A stream of the wrong
    size raises [ValueError] ([None] here). *)
Definition reshape_F (nx ny nz : nat) (flat : list float) : option array3 :=
  if decide (length flat = (nx * ny * nz)%nat) then
    let planes := chunks nx ny <$> chunks (nx * ny) nz flat in
    Some (Array3 (nx, ny, nz)
            (tabulate nx (fun i => tabulate ny (fun j => tabulate nz (fun k =>
               nth i (nth j (nth k planes []) []) 0%float)))))
  else None.

(** The array of shape [(nx, ny, nz)] filled with one value. *)
Definition full (nx ny nz : nat) (c : float) : array3 :=
  Array3 (nx, ny, nz) (replicate nx (replicate ny (replicate nz c))).

(** *** Broadcasting a height profile against a 3-D array

    [u[np.newaxis, np.newaxis, :] - a] and [a - u[np.newaxis, np.newaxis, :]]:
    shapes [(1, 1, m)] and [(nx, ny, nz)] are compatible when [m = nz] or one
    of the two is [1]; otherwise NumPy raises [ValueError]. *)
Definition bcast_last (op : float -> float -> float)
    (u row : list float) : option (list float) :=
  if decide (length u = length row) then Some (zip_with op u row)
  else match u, row with
       | [u0], _ => Some (op u0 <$> row)
       | _, [r0] => Some ((fun x => op x r0) <$> u)
       | _, _ => None
       end.

Definition bcast_dim (m n : nat) : option nat :=
  if decide (m = n) then Some n
  else if decide (m = 1%nat) then Some n
  else if decide (n = 1%nat) then Some m
  else None.

Definition profile_op (op : float -> float -> float)
    (u : list float) (a : array3) : option array3 :=
  let '(nx, ny, nz) := dims a in
  nz' ← bcast_dim (length u) nz;
  cs ← mapM (mapM (bcast_last op u)) (cells a);
  Some (Array3 (nx, ny, nz') cs).

(** [u[newaxis, newaxis, :] - a] *)
Definition profile_minus (u : list float) (a : array3) : option array3 :=
  profile_op PrimFloat.sub u a.

(** [a - u[newaxis, newaxis, :]] *)
Definition minus_profile (a : array3) (u : list float) : option array3 :=
  profile_op (fun x y => PrimFloat.sub y x) u a.

(** *** Axis arithmetic: [xLine -= d] and [xLine += d] *)
Definition isub (l : list float) (d : float) : list float :=
  (fun x => PrimFloat.sub x d) <$> l.
Definition iadd (l : list float) (d : float) : list float :=
  (fun x => PrimFloat.add x d) <$> l.

(** *** [a.max()] and [a.min()]: [ValueError] on an empty array, and a NaN
    wins *)
Definition maximum (a b : float) : float :=
  if PrimFloat.is_nan a then a
  else if PrimFloat.is_nan b then b
  else if PrimFloat.ltb a b then b else a.

Definition minimum (a b : float) : float :=
  if PrimFloat.is_nan a then a
  else if PrimFloat.is_nan b then b
  else if PrimFloat.ltb b a then b else a.

Definition amax (l : list float) : option float :=
  match l with [] => None | x :: l' => Some (foldl maximum x l') end.

Definition amin (l : list float) : option float :=
  match l with [] => None | x :: l' => Some (foldl minimum x l') end.

(** *** Indexing: [a[xid, yid, zid]] with slices and integers

    [np.squeeze] only drops the axes of length one; an array keeps its
    three axes here, those of length one included. *)
Inductive index : Type :=
  | Full                   (* [slice(None)] *)
  | Range (lo hi : nat)    (* [slice(lo, hi)] *)
  | At (i : nat).          (* an integer *)

Definition pick {A} (ix : index) (l : list A) : option (list A) :=
  match ix with
  | Full => Some l
  | Range lo hi => Some (take (hi - lo) (drop lo l))
  | At i => (fun x => [x]) <$> l !! i
  end.

(** [np.reshape(a, (n1, n2, n3))], row-major; [ValueError] on another size. *)
Definition reshape_C (n : nat * nat * nat) (a : array3) : option array3 :=
  let '(n1, n2, n3) := n in
  let flat := mjoin (mjoin (cells a)) in
  if decide (length flat = (n1 * n2 * n3)%nat) then
    Some (Array3 n (chunks n3 n2 <$> chunks (n2 * n3) n1 flat))
  else None.

Definition crop (ix iy iz : index) (a : array3) : option array3 :=
  rows ← pick ix (cells a);
  rows ← mapM (pick iy) rows;
  rows ← mapM (mapM (pick iz)) rows;
  Some (Array3 (length rows, default 0%nat (length <$> head rows),
                default 0%nat (length <$> (head rows ≫= head))) rows).

(** [a.ndim > 0] for an axis indexed by [ix] *)
Definition is_slice (ix : index) : bool :=
  match ix with At _ => false | _ => true end.

(** *** [np.unique] on integers: the sorted distinct values *)
Definition unique (l : list Z) : list Z := merge_sort Z.le (remove_dups l).

(** *** [int64] arithmetic, [np.abs] and [np.argmin] *)
Definition wrap64 (z : Z) : Z := (z + 2 ^ 63) mod 2 ^ 64 - 2 ^ 63.
Definition sub64 (a b : Z) : Z := wrap64 (a - b).
Definition abs64 (a : Z) : Z := wrap64 (Z.abs a).

Fixpoint argmin_from (i best_i : nat) (best : Z) (l : list Z) : nat :=
  match l with
  | [] => best_i
  | x :: l' =>
      if (x <? best)%Z then argmin_from (S i) i x l'
      else argmin_from (S i) best_i best l'
  end.

(** The first index of the minimum; [ValueError] on an empty array. *)
Definition argmin (l : list Z) : option nat :=
  match l with
  | [] => None
  | x :: l' => Some (argmin_from 1 0 x l')
  end.

(** *** [np.linspace(start, stop, num)] with [endpoint=True]

    After NumPy's implementation: [arange(0, num) * step + start] with
    [step = (stop - start) / (num - 1)], the last element then overwritten
    with [stop] when [num > 1]. *)
Definition of_nat (n : nat) : float :=
  PrimFloat.of_uint63 (Uint63.of_Z (Z.of_nat n)).

(** [float(z)] of a Python integer. *)
Definition of_Z (z : Z) : float :=
  if (z <? 0)%Z then PrimFloat.opp (PrimFloat.of_uint63 (Uint63.of_Z (- z)))
  else PrimFloat.of_uint63 (Uint63.of_Z z).

Definition arange (num : nat) : list float := of_nat <$> seq 0 num.

Definition set_last (l : list float) (v : float) : list float :=
  <[pred (length l) := v]> l.

Definition linspace (start stop : float) (num : nat) : list float :=
  let div := (num - 1)%nat in
  let delta := (stop - start)%float in
  let y :=
    if decide (0 < div)%nat then
      let step := (delta / of_nat div)%float in
      if PrimFloat.eqb step 0%float
      then (fun v => (v / of_nat div * delta)%float) <$> arange num
      else (fun v => (v * step)%float) <$> arange num
    else (fun v => (v * delta)%float) <$> arange num in
  let y := (fun v => (v + start)%float) <$> y in
  if decide (1 < num)%nat then set_last y stop else y.

End Np.

(** ** Exceptions, values of a namelist, and the file system *)

Inductive exn : Type :=
  | AttributeError | IndexError | KeyError | ValueError | TypeError
  | FileNotFoundError | ZeroDivisionError | OSError | NameError
  | RecursionError.

Inductive result (A : Type) : Type :=
  | Ok (a : A)
  | Raise (e : exn).
Arguments Ok {A} a.
Arguments Raise {A} e.

(** A scalar stored in a namelist or in an object's attributes. *)
Inductive pyval : Type :=
  | PNone
  | PBool (b : bool)
  | PInt (z : Z)
  | PFloat (f : float)
  | PStr (s : string).

(** A file format of the archive backends. *)
Inductive format : Type := npz | mat.

#[global] Instance format_eq_dec : EqDecision format.
Proof. solve_decision. Defined.

Definition ext (f : format) : string :=
  match f with npz => "npz" | mat => "mat" end.

(** ** [os], [glob]: directories as sets of path names *)

Module Os.

Definition sep : string := "/".

Fixpoint strip_prefix (p s : list ascii) : option (list ascii) :=
  match p, s with
  | [], _ => Some s
  | a :: p', b :: s' => if ascii_dec a b then strip_prefix p' s' else None
  | _ :: _, [] => None
  end.

Fixpoint first_component (s : list ascii) : list ascii :=
  match s with
  | [] => []
  | c :: s' => if ascii_dec c "/"%char then [] else c :: first_component s'
  end.

(** The entry of directory [d] that the path [p] lies in or under. *)
Definition entry_of (d p : string) : option string :=
  match strip_prefix (Py.chars (d +:+ sep)) (Py.chars p) with
  | Some rest =>
      match first_component rest with
      | [] => None
      | n => Some (string_of_list_ascii n)
      end
  | None => None
  end.

(** [os.listdir(d)] over the paths [paths] of the file system; the order is
    the file system's. *)
Definition listdir_of (paths : list string) (d : string) : list string :=
  remove_dups (omap (entry_of d) paths).

(** [fnmatch] of a name against [prefix*suffix], the one shape of pattern
    that [glob.glob] receives here. *)
Definition fnmatch_star (prefix suffix name : string) : bool :=
  match strip_prefix (Py.chars prefix) (Py.chars name) with
  | Some rest =>
      match strip_prefix (rev (Py.chars suffix)) (rev rest) with
      | Some _ => true
      | None => false
      end
  | None => false
  end.

End Os.

(** ** Python's [list.sort]

    A stable sort that compares with [<] only ([__lt__]); with
    [reverse=True] the list is sorted as if every comparison were reversed,
    equal elements keeping their order. *)

Section ListSort.
Context {A : Type} (lt : A -> A -> bool).

Fixpoint sort_insert (x : A) (l : list A) : list A :=
  match l with
  | [] => [x]
  | y :: l' => if lt y x then y :: sort_insert x l' else x :: l
  end.

Definition stable_sort (l : list A) : list A := foldr sort_insert [] l.

Definition list_sort (reverse : bool) (l : list A) : list A :=
  if reverse then rev (stable_sort (rev l)) else stable_sort l.
End ListSort.

(** ** The collaborators that are not among the sources

    [nml_utils.parser], [io_utils.key_search_r], [budgetkey.get_key],
    [turbine.Turbine], [inflow.InflowParser] and [wake_utils.get_xids] are
    imported by the two modules but defined elsewhere; they are the
    parameters of the development. *)

Section PadeOpsIO.

(** A parsed namelist (the nested mapping returned by [nml_utils.parser]),
    and [parser] itself on the text of a file. *)
Variable nml : Type.
Variable parser : string -> nml.

(** [nml['actuator_disk']]: the actuator-disk block of a turbine namelist,
    [None] when the namelist has none ([KeyError]). *)
Variable actuator_disk : nml -> option (list (string * pyval)).

(** Modelled from the spec: the class [Turbine] of [padeopsIO.turbine],
    which is not among the sources.  A turbine is built from its namelist,
    its 1-based index and the name of its sort field; it exposes a position
    and a sort key, and turbines compare by their sort keys. *)
Variable sort_key : Type.
Variable key_lt : sort_key -> sort_key -> bool.
Variable turbine_field : nml -> string -> sort_key.
Variable turbine_pos : nml -> float * float * float.

Record Turbine : Type := mkTurbine {
  t_input_nml : nml;
  t_n : nat;
  t_sort_by : string
}.

Definition Turbine_key (t : Turbine) : sort_key :=
  turbine_field (t_input_nml t) (t_sort_by t).

(** [Turbine.__lt__] *)
Definition Turbine_lt (a b : Turbine) : bool :=
  key_lt (Turbine_key a) (Turbine_key b).

(** [Turbine.set_sort] *)
Definition Turbine_set_sort (sort_by : string) (t : Turbine) : Turbine :=
  mkTurbine (t_input_nml t) (t_n t) sort_by.

Definition Turbine_pos (t : Turbine) : float * float * float :=
  turbine_pos (t_input_nml t).

(** ** The objects of [turbineArray.TurbineArray] *)

Record TurbineArray : Type := mkTurbineArray {
  ta_verbose : bool;
  ta_sort_by : string;                      (* [_sort_by] *)
  ta_ADM_type : Z;
  ta_turb_dir : string;
  ta_num_turbines : nat;
  ta_array : list nml;                      (* deprecated in the source *)
  ta_turbines : list Turbine;
  ta_convenience : list (string * pyval)    (* set when [num_turbines == 1] *)
}.

(** The dictionary written by [todict]: the attributes, with every turbine
    replaced by its input namelist. *)
Record TurbineArrayDict : Type := mkTurbineArrayDict {
  td_verbose : bool;
  td_sort_by : string;
  td_ADM_type : Z;
  td_turb_dir : string;
  td_num_turbines : nat;
  td_array : list nml;
  td_turbines : list nml;
  td_convenience : list (string * pyval)
}.

(** What [__init__] leaves behind: an object built from namelists, or the
    attributes of a dictionary copied by [fromdict]. *)
Inductive TurbineArrayObj : Type :=
  | Built (ta : TurbineArray)
  | FromDict (verbose : bool) (sort : string) (ADM_type : Z) (d : TurbineArrayDict).

(** ** Files *)

(** The metadata record written beside an archive of budgets. *)
Record metadata : Type := mkMetadata {
  md_input_nml : nml;
  md_x : list float;
  md_y : list float;
  md_z : list float;
  md_origin : float * float * float;
  md_turbineArray : option TurbineArrayDict;
  md_turbine_series : list (string * list float)   (* [t<k>_<prop>] *)
}.

(** The kinds of files.  A container of budgets holds arrays by name, as
    [np.savez] stores them and [np.load] returns them; for [.mat] files
    this leaves out the reshaping of arrays of fewer than two dimensions
    that [savemat] and [loadmat] do. *)
Inductive file : Type :=
  | Doubles (data : list float)                    (* a raw dump of float64 *)
  | Text (text : string)                           (* a namelist, a table *)
  | Archive (fmt : format) (arrs : gmap string Np.array3)
  | Metadata (fmt : format) (m : metadata).

(** The file system: the files by path name. *)
Abbreviation filesystem := (gmap string file).

(** [os.listdir(d)].  The file system holds files only, so the directories
    that the methods name are taken to exist: one with no file under it is
    an empty directory, and its listing is the empty list. *)
Definition listdir (fs : filesystem) (d : string) : list string :=
  Os.listdir_of (map_to_list fs).*1 d.

(** [os.path.exists] *)
Definition path_exists (fs : filesystem) (p : string) : bool :=
  bool_decide (is_Some (fs !! p))
  || bool_decide (Exists (fun q => is_Some (Os.entry_of p q)) (map_to_list fs).*1).

(** [glob.glob(d + '/' + prefix + '*' + suffix)], for a directory name
    without wildcard characters. *)
Definition glob (fs : filesystem) (d pre suf : string) : list string :=
  (fun n => d +:+ "/" +:+ n) <$> filter (fun n => Os.fnmatch_star pre suf n = true) (listdir fs d).

(** [np.fromfile(path, dtype=float64)] *)
Definition fromfile (fs : filesystem) (path : string) : result (list float) :=
  match fs !! path with
  | Some (Doubles data) => Ok data
  | Some _ => Raise OSError
  | None => Raise FileNotFoundError
  end.

(** ** [turbineArray.TurbineArray]: the methods *)

(** The loop of [__init__]: one [Turbine] per namelist, numbered from 1,
    stopping at the first index [i >= num_turbines]. *)
Fixpoint build_turbines (i num : nat) (sort : string) (init_ls : list nml)
  : list Turbine :=
  match init_ls with
  | [] => []
  | turb_nml :: rest =>
      if decide (num <= i)%nat then []
      else mkTurbine turb_nml (i + 1) sort :: build_turbines (S i) num sort rest
  end.

(** [TurbineArray.sort] *)
Definition TurbineArray_sort (reverse : bool) (ta : TurbineArray) : TurbineArray :=
  mkTurbineArray (ta_verbose ta) (ta_sort_by ta) (ta_ADM_type ta)
    (ta_turb_dir ta) (ta_num_turbines ta) (ta_array ta)
    (list_sort Turbine_lt reverse (ta_turbines ta)) (ta_convenience ta).

(** [TurbineArray.set_sort] *)
Definition TurbineArray_set_sort (sort_by : string) (sort reverse : bool)
    (ta : TurbineArray) : TurbineArray :=
  let ta' :=
    mkTurbineArray (ta_verbose ta) sort_by (ta_ADM_type ta)
      (ta_turb_dir ta) (ta_num_turbines ta) (ta_array ta)
      (Turbine_set_sort sort_by <$> ta_turbines ta) (ta_convenience ta) in
  if sort then TurbineArray_sort reverse ta' else ta'.

(** [TurbineArray.todict] *)
Definition TurbineArray_todict (ta : TurbineArray) : TurbineArrayDict :=
  mkTurbineArrayDict (ta_verbose ta) (ta_sort_by ta) (ta_ADM_type ta)
    (ta_turb_dir ta) (ta_num_turbines ta) (ta_array ta)
    (t_input_nml <$> ta_turbines ta) (ta_convenience ta).

(** The namelists gleaned from a turbine directory: every entry of the
    sorted listing, parsed. *)
Definition read_turbine_files (fs : filesystem) (turb_dir : string)
  : result (list nml) :=
  let filenames := listdir fs turb_dir in
  let read filename :=
    match fs !! (turb_dir +:+ "/" +:+ filename) with
    | Some (Text text) => Ok (parser text)
    | _ => Raise OSError
    end in
  foldr (fun filename acc =>
           match read filename, acc with
           | Ok n, Ok l => Ok (n :: l)
           | Raise e, _ => Raise e
           | _, Raise e => Raise e
           end)
        (Ok []) (list_sort String.ltb false filenames).

(** [TurbineArray.__init__] *)
Definition TurbineArray_init (fs : filesystem)
    (turb_dir : option string) (num_turbines : option nat)
    (init_ls : option (list nml)) (init_dict : option TurbineArrayDict)
    (ADM_type : Z) (verbose : bool) (sort : string)
  : result TurbineArrayObj :=
  match init_dict with
  | Some d => Ok (FromDict verbose sort ADM_type d)
  | None =>
      let init_ls := default [] init_ls in
      let gleaned :=
        match turb_dir with
        | Some dir =>
            if decide (length init_ls = 0%nat) then
              match read_turbine_files fs dir with
              | Ok l => Ok (init_ls ++ l, dir)
              | Raise e => Raise e
              end
            else Ok (init_ls, dir)
        | None => Ok (init_ls, "")
        end in
      match gleaned with
      | Raise e => Raise e
      | Ok (init_ls, dir) =>
          let num := default (length init_ls) num_turbines in
          let ta :=
            TurbineArray_sort false
              (mkTurbineArray verbose sort ADM_type dir num
                 (take num init_ls)
                 (build_turbines 0 num sort init_ls) []) in
          if decide (num = 1%nat) then
            match ta_turbines ta with
            | [] => Raise IndexError
            | t :: _ =>
                match actuator_disk (t_input_nml t) with
                | Some kv =>
                    Ok (Built (mkTurbineArray verbose sort ADM_type dir num
                                 (ta_array ta) (ta_turbines ta) kv))
                | None => Raise KeyError
                end
            end
          else Ok (Built ta)
      end
  end.

(** ** The key table

    Modelled from the spec: [budgetkey.get_key()], which is not among the
    sources, is a static two-way table between term names and
    [(budget, term)] pairs.  [key] lists its entries in order; [key.inverse]
    maps a pair to the list of the names that carry it. *)
Variable key : list (string * (Z * Z)).

(** [key[name]] *)
Definition key_get (name : string) : option (Z * Z) :=
  snd <$> head (filter (fun e => e.1 = name) key).

(** [key.inverse[tup]], the empty list standing for [KeyError] *)
Definition key_inverse (tup : Z * Z) : list string :=
  fst <$> filter (fun e => e.2 = tup) key.

(** A requested term: a name, or a [(budget, term)] pair. *)
Inductive term : Type :=
  | Name (s : string)
  | Pair (b t : Z).

#[local] Instance term_eq_dec : EqDecision term.
Proof. solve_decision. Defined.

(** The argument [budget_terms]: a shortcut string or a list of terms. *)
Inductive terms_arg : Type :=
  | Shortcut (s : string)
  | Terms (l : list term).

(** ** Messages: [warnings.warn] and the unconditional [print]s *)

Inductive event : Type :=
  | WarnNoBudgetsAssociated (fmt : format)   (* write_npz, write_mat *)
  | WarnOverwriting                          (* "File already exists, overwriting... " *)
  | WarnExistingFiles                        (* "Existing files found. Failed to write; ..." *)
  | PrintSubstituted (requested closest : Z) (* "Requested budget tidx=... Using tidx=... instead." *)
  | WarnBadShortcut                          (* "keyword argument budget_terms must be ..." *)
  | WarnNoKeys                               (* "No keys being returned; none matched." *)
  | WarnMissing (terms : list string)        (* "... could not be found": the names of the set *)
  | WarnInvalid (terms : list term)          (* "... the following do not exist" *)
  | WarnWakeComputed                         (* "Wake terms already computed, returning." *)
  | WarnInflowOnline                         (* "Requested offline inflow, but namelist not associated." *)
  | WarnNoBudgetFiles                        (* existing_budgets *)
  | WarnNoTerms (budget : option (list Z)).  (* existing_terms *)

(** ** The session object [BudgetIO] *)

Record BudgetIO : Type := mkBudgetIO {
  dir_name : string;
  filename : string;
  verbose : bool;
  runid : Z;
  input_nml : nml;
  associate_padeops : bool;
  associate_npz : bool;
  associate_mat : bool;
  associate_nml : bool;
  associate_budgets : bool;
  associate_grid : bool;
  associate_turbines : bool;
  normalized_xyz : bool;
  turbineArray : option TurbineArray;
  (* the grid *)
  Lx : float; Ly : float; Lz : float;
  nx : nat; ny : nat; nz : nat;
  dx : option float; dy : option float; dz : option float;
  xLine : list float; yLine : list float; zLine : list float;
  origin : float * float * float;
  (* the budget cache *)
  budget : gmap string Np.array3;
  budget_tidx : option Z;
  budget_n : option Z;
  all_budget_tidx : list Z
}.

(** [self.filename_budgets] *)
Definition filename_budgets (s : BudgetIO) : string := filename s +:+ "_budgets".

(** Assignments to the attributes that the methods below change. *)
Definition set_cache (b : gmap string Np.array3) (t n : option Z)
    (s : BudgetIO) : BudgetIO :=
  mkBudgetIO (dir_name s) (filename s) (verbose s) (runid s) (input_nml s)
    (associate_padeops s) (associate_npz s) (associate_mat s) (associate_nml s)
    (associate_budgets s) (associate_grid s) (associate_turbines s)
    (normalized_xyz s) (turbineArray s)
    (Lx s) (Ly s) (Lz s) (nx s) (ny s) (nz s) (dx s) (dy s) (dz s)
    (xLine s) (yLine s) (zLine s) (origin s)
    b t n (all_budget_tidx s).

Definition set_budget (b : gmap string Np.array3) (s : BudgetIO) : BudgetIO :=
  set_cache b (budget_tidx s) (budget_n s) s.

Definition set_axes (x y z : list float) (o : float * float * float)
    (normalized : bool) (s : BudgetIO) : BudgetIO :=
  mkBudgetIO (dir_name s) (filename s) (verbose s) (runid s) (input_nml s)
    (associate_padeops s) (associate_npz s) (associate_mat s) (associate_nml s)
    (associate_budgets s) (associate_grid s) (associate_turbines s)
    normalized (turbineArray s)
    (Lx s) (Ly s) (Lz s) (nx s) (ny s) (nz s) (dx s) (dy s) (dz s)
    x y z o
    (budget s) (budget_tidx s) (budget_n s) (all_budget_tidx s).

Definition set_origin (o : float * float * float) (s : BudgetIO) : BudgetIO :=
  set_axes (xLine s) (yLine s) (zLine s) o (normalized_xyz s) s.

Definition set_grid (L : float * float * float) (n : nat * nat * nat)
    (d : option float * option float * option float)
    (x y z : list float) (s : BudgetIO) : BudgetIO :=
  mkBudgetIO (dir_name s) (filename s) (verbose s) (runid s) (input_nml s)
    (associate_padeops s) (associate_npz s) (associate_mat s) (associate_nml s)
    (associate_budgets s) (associate_grid s) (associate_turbines s)
    (normalized_xyz s) (turbineArray s)
    L.1.1 L.1.2 L.2 n.1.1 n.1.2 n.2 d.1.1 d.1.2 d.2
    x y z (origin s)
    (budget s) (budget_tidx s) (budget_n s) (all_budget_tidx s).

Definition set_associate_grid (b : bool) (s : BudgetIO) : BudgetIO :=
  mkBudgetIO (dir_name s) (filename s) (verbose s) (runid s) (input_nml s)
    (associate_padeops s) (associate_npz s) (associate_mat s) (associate_nml s)
    (associate_budgets s) b (associate_turbines s)
    (normalized_xyz s) (turbineArray s)
    (Lx s) (Ly s) (Lz s) (nx s) (ny s) (nz s) (dx s) (dy s) (dz s)
    (xLine s) (yLine s) (zLine s) (origin s)
    (budget s) (budget_tidx s) (budget_n s) (all_budget_tidx s).

Definition set_turbineArray (ta : option TurbineArray) (s : BudgetIO) : BudgetIO :=
  mkBudgetIO (dir_name s) (filename s) (verbose s) (runid s) (input_nml s)
    (associate_padeops s) (associate_npz s) (associate_mat s) (associate_nml s)
    (associate_budgets s) (associate_grid s) (associate_turbines s)
    (normalized_xyz s) ta
    (Lx s) (Ly s) (Lz s) (nx s) (ny s) (nz s) (dx s) (dy s) (dz s)
    (xLine s) (yLine s) (zLine s) (origin s)
    (budget s) (budget_tidx s) (budget_n s) (all_budget_tidx s).

(** ** The world and the monad of the methods *)

Record world : Type := mkWorld {
  fs : filesystem;        (* the files on disk *)
  self : BudgetIO;        (* the session object *)
  out : list event        (* the messages emitted so far, oldest first *)
}.

Definition M (A : Type) : Type := world -> result (A * world).

Definition ret {A} (a : A) : M A := fun w => Ok (a, w).

Definition bind {A B} (m : M A) (f : A -> M B) : M B :=
  fun w => match m w with
           | Ok (a, w') => f a w'
           | Raise e => Raise e
           end.

Definition raise {A} (e : exn) : M A := fun _ => Raise e.

Notation "x <- m ;; k" := (bind m (fun x => k))
  (at level 100, m at next level, right associativity, only parsing).
Notation "m ;;; k" := (bind m (fun _ => k))
  (at level 100, right associativity, only parsing).

Definition get_self : M BudgetIO := fun w => Ok (self w, w).
Definition get_fs : M filesystem := fun w => Ok (fs w, w).
Definition modify (f : BudgetIO -> BudgetIO) : M unit :=
  fun w => Ok (tt, mkWorld (fs w) (f (self w)) (out w)).
Definition write_file (path : string) (f : file) : M unit :=
  fun w => Ok (tt, mkWorld (<[path := f]> (fs w)) (self w) (out w)).
Definition emit (e : event) : M unit :=
  fun w => Ok (tt, mkWorld (fs w) (self w) (out w ++ [e])).
Definition lift {A} (r : result A) : M A :=
  fun w => match r with Ok a => Ok (a, w) | Raise e => Raise e end.
Definition from_option {A} (e : exn) (o : option A) : M A :=
  match o with Some a => ret a | None => raise e end.

(** A [for] loop over a list, threading the world. *)
Fixpoint for_each {A} (l : list A) (body : A -> M unit) : M unit :=
  match l with
  | [] => ret tt
  | x :: l' => body x ;;; for_each l' body
  end.

(** A list comprehension whose element expression may raise. *)
Fixpoint map_M {A B} (f : A -> M B) (l : list A) : M (list B) :=
  match l with
  | [] => ret []
  | x :: l' => y <- f x ;; ys <- map_M f l' ;; ret (y :: ys)
  end.

(** ** [BudgetIO]: the grid *)

(** [io_utils.key_search_r(nml, name)]: the value found under [name] in the
    nested namelist ([PNone] when there is none). *)
Variable key_search_r : nml -> string -> pyval.

(** An argument [normalize_origin] of [_load_grid]: falsy, a string such as
    ['turb'], or a point. *)
Inductive norm_arg : Type :=
  | NormOff
  | NormStr (s : string)
  | NormPoint (p : float * float * float).

(** [BudgetIO.normalize_origin] *)
Definition normalize_origin (xyz : option (float * float * float))
    (s : BudgetIO) : BudgetIO :=
  match xyz with
  | Some p =>
      set_axes
        (Np.isub (xLine s) (p.1.1 - (origin s).1.1)%float)
        (Np.isub (yLine s) (p.1.2 - (origin s).1.2)%float)
        (Np.isub (zLine s) (p.2 - (origin s).2)%float)
        p true s
  | None =>
      set_axes
        (Np.iadd (xLine s) (origin s).1.1)
        (Np.iadd (yLine s) (origin s).1.2)
        (Np.iadd (zLine s) (origin s).2)
        (0%float, 0%float, 0%float) false s
  end.

(** One axis given explicitly: the line, its extent, its spacing (none on
    a single point) and its count. *)
Definition axis_of_line (xi : list float)
  : result (list float * float * option float * nat) :=
  match Np.amax xi, Np.amin xi with
  | Some hi, Some lo =>
      match xi with
      | x0 :: x1 :: _ => Ok (xi, (hi - lo)%float, Some (x1 - x0)%float, length xi)
      | _ => Ok (xi, (hi - lo)%float, None, 1%nat)
      end
  | _, _ => Raise ValueError
  end.

(** A domain length and a cell count read from the namelist. *)
Definition as_float (v : pyval) : result float :=
  match v with
  | PFloat f => Ok f
  | PInt z => Ok (Np.of_Z z)
  | _ => Raise TypeError
  end.

Definition as_count (v : pyval) : result nat :=
  match v with
  | PInt z => if (z <? 0)%Z then Raise ValueError
              else if (z =? 0)%Z then Raise ZeroDivisionError
              else Ok (Z.to_nat z)
  | _ => Raise TypeError
  end.

(** [BudgetIO._load_grid] *)
Definition _load_grid (x y z : option (list float))
    (origin0 : float * float * float) (normalize : norm_arg) : M unit :=
  s <- get_self ;;
  if associate_grid s && verbose s then ret tt
  else
    (match x, y, z with
     | Some x, Some y, Some z =>
         ax <- lift (axis_of_line x) ;;
         ay <- lift (axis_of_line y) ;;
         az <- lift (axis_of_line z) ;;
         modify (set_grid (ax.1.1.2, ay.1.1.2, az.1.1.2) (ax.2, ay.2, az.2)
                   (ax.1.2, ay.1.2, az.1.2) ax.1.1.1 ay.1.1.1 az.1.1.1)
     | _, _, _ =>
         nx <- lift (as_count (key_search_r (input_nml s) "nx")) ;;
         ny <- lift (as_count (key_search_r (input_nml s) "ny")) ;;
         nz <- lift (as_count (key_search_r (input_nml s) "nz")) ;;
         Lx <- lift (as_float (key_search_r (input_nml s) "lx")) ;;
         Ly <- lift (as_float (key_search_r (input_nml s) "ly")) ;;
         Lz <- lift (as_float (key_search_r (input_nml s) "lz")) ;;
         let dx := (Lx / Np.of_nat nx)%float in
         let dy := (Ly / Np.of_nat ny)%float in
         let dz := (Lz / Np.of_nat nz)%float in
         modify (set_grid (Lx, Ly, Lz) (nx, ny, nz) (Some dx, Some dy, Some dz)
                   (Np.linspace 0 (Lx - dx) nx)
                   (Np.linspace 0 (Ly - dy) ny)
                   (* staggered in z *)
                   (Np.linspace (dz / 2) (Lz - dz / 2) nz))
     end) ;;;
    modify (set_origin origin0) ;;;
    modify (set_associate_grid true) ;;;
    match normalize with
    | NormOff => ret tt
    | NormPoint p => modify (normalize_origin (Some p))
    | NormStr str =>
        s <- get_self ;;
        if bool_decide (str = "turb" \/ str = "turbine") && associate_turbines s then
          match turbineArray s with
          | Some ta =>
              let ta := TurbineArray_set_sort "xloc" true false ta in
              modify (set_turbineArray (Some ta)) ;;;
              match ta_turbines ta with
              | t :: _ => modify (normalize_origin (Some (Turbine_pos t)))
              | [] => raise IndexError
              end
          | None => raise AttributeError
          end
        else raise TypeError   (* a string is not a point *)
    end.

(** ** [BudgetIO]: what the run directory holds *)

(** The search patterns, each after [.format(runid)]. *)
Definition run_prefix (runid : Z) : Re.regex :=
  Re.lits ("Run" +:+ Py.format_d 2 runid).

(** ['Run{:02d}.*_t(\d+).*.out'] *)
Definition pat_tidx (runid : Z) : Re.regex :=
  run_prefix runid ++ [Re.Star Re.Dot] ++ Re.lits "_t"
  ++ [Re.Group Re.Digit; Re.Star Re.Dot; Re.One Re.Dot] ++ Re.lits "out".

(** ['Run{:02d}.*budget.*_t(\d+).*'] *)
Definition pat_budget_tidx (runid : Z) : Re.regex :=
  run_prefix runid ++ [Re.Star Re.Dot] ++ Re.lits "budget" ++ [Re.Star Re.Dot]
  ++ Re.lits "_t" ++ [Re.Group Re.Digit; Re.Star Re.Dot].

(** ['Run{:02d}.*_n(\d+).*'] *)
Definition pat_n (runid : Z) : Re.regex :=
  run_prefix runid ++ [Re.Star Re.Dot] ++ Re.lits "_n"
  ++ [Re.Group Re.Digit; Re.Star Re.Dot].

(** ['Run{:02d}.*_budget(\d+).*'] *)
Definition pat_budget (runid : Z) : Re.regex :=
  run_prefix runid ++ [Re.Star Re.Dot] ++ Re.lits "_budget"
  ++ [Re.Group Re.Digit; Re.Star Re.Dot].

(** ['Run{:02d}_budget{:01d}_term(\d+).*'] *)
Definition pat_term (runid b : Z) : Re.regex :=
  run_prefix runid ++ Re.lits ("_budget" +:+ Py.format_d 1 b +:+ "_term")
  ++ [Re.Group Re.Digit; Re.Star Re.Dot].

(** ['.*_t\d+_n(\d+)'] *)
Definition pat_fname_n : Re.regex :=
  [Re.Star Re.Dot] ++ Re.lits "_t" ++ [Re.Plus Re.Digit] ++ Re.lits "_n"
  ++ [Re.Group Re.Digit].

(** [[int(re.findall(p, name)[0]) for name in filenames if re.findall(p, name)]] *)
Definition captured (p : Re.regex) (filenames : list string) : list Z :=
  omap (fun name => Py.int_of <$> Re.first_group p name) filenames.

(** [unique_tidx(return_last=True, search_str)]; [None] is Python's [None],
    returned off the raw backend. *)
Definition unique_tidx_last (search : Z -> Re.regex) : M (option Z) :=
  s <- get_self ;; fs <- get_fs ;;
  if negb (associate_padeops s) then ret None
  else
    let t_list := captured (search (runid s)) (listdir fs (dir_name s)) in
    match last (merge_sort Z.le t_list) with
    | None => raise FileNotFoundError
    | Some t => ret (Some t)
    end.

(** [unique_tidx(return_last=False, search_str)] *)
Definition unique_tidx_all (search : Z -> Re.regex) : M (option (list Z)) :=
  s <- get_self ;; fs <- get_fs ;;
  if negb (associate_padeops s) then ret None
  else
    let t_list := captured (search (runid s)) (listdir fs (dir_name s)) in
    if decide (length t_list = 0%nat) then raise FileNotFoundError
    else ret (Some (Np.unique t_list)).

(** [unique_budget_tidx(return_last=True)] *)
Definition unique_budget_tidx : M (option Z) := unique_tidx_last pat_budget_tidx.

(** [unique_budget_tidx(return_last=False)] *)
Definition unique_budget_tidx_all : M (option (list Z)) :=
  unique_tidx_all pat_budget_tidx.

(** [last_budget_n] *)
Definition last_budget_n : M (option Z) := unique_tidx_last pat_n.

(** The names stored in the session's archive of budgets: [npz.files], or
    the keys of [loadmat] that do not start with an underscore. *)
Definition starts_with_underscore (name : string) : bool :=
  match name with
  | String c _ => if ascii_dec c "_"%char then true else false
  | EmptyString => false
  end.

Definition load_archive (fmt : format) : M (gmap string Np.array3) :=
  s <- get_self ;; fs <- get_fs ;;
  match fs !! (dir_name s +:+ Os.sep +:+ filename_budgets s +:+ "." +:+ ext fmt) with
  | Some (Archive fmt' arrs) =>
      if decide (fmt' = fmt) then ret arrs else raise OSError
  | Some _ => raise OSError
  | None => raise FileNotFoundError
  end.

Definition archive_names (fmt : format) : M (list string) :=
  arrs <- load_archive fmt ;;
  match fmt with
  | npz => ret (map_to_list arrs).*1
  | mat => ret (filter (fun k => starts_with_underscore k = false) (map_to_list arrs).*1)
  end.

(** The names held by an archive session; [NameError] when the session is
    bound to no backend at all. *)
Definition archive_terms_budgets : M (list string) :=
  s <- get_self ;;
  t1 <- (if associate_npz s then l <- archive_names npz ;; ret (Some l)
         else ret None) ;;
  t2 <- (if associate_mat s then l <- archive_names mat ;; ret (Some l)
         else ret t1) ;;
  from_option NameError t2.

(** [BudgetIO.existing_budgets] *)
Definition existing_budgets : M (list Z) :=
  s <- get_self ;; fs <- get_fs ;;
  let filenames := listdir fs (dir_name s) in
  budget_list <-
    (if associate_padeops s then
       ret (captured (pat_budget (runid s)) filenames)
     else
       t_list <- archive_terms_budgets ;;
       map_M (fun t => from_option KeyError (fst <$> key_get t)) t_list) ;;
  (if decide (length budget_list = 0%nat) then emit WarnNoBudgetFiles else ret tt) ;;;
  let budget_list :=
    if bool_decide (0 ∈ budget_list) then budget_list ++ [5] else budget_list in
  ret (Np.unique budget_list).

(** [key.inverse[tup][0]] *)
Definition inverse_name (tup : Z * Z) : M string :=
  from_option KeyError (head (key_inverse tup)).

(** [list(set(terms))]: the distinct elements of [terms] in the order in
    which the set yields them.  Python does not fix that order (it follows
    the hash table), so it is a parameter; where a property depends on it,
    it is only taken to list the distinct elements of [terms]. *)
Variable set_iter : list Z -> list Z.

(** [BudgetIO.existing_terms]; [budget] is [None], or the list of the
    requested budgets (a single integer being wrapped into a list).  The
    raw backend returns names; an archive returns all its names when
    [budget] is [None] and pairs otherwise. *)
Definition existing_terms (budget_arg : option (list Z)) (include_wakes : bool)
  : M (list term) :=
  budget_list <- (match budget_arg with
                  | None => existing_budgets
                  | Some l => ret l
                  end) ;;
  s <- get_self ;; fs <- get_fs ;;
  let finish (t_list : list term) : M (list term) :=
    (if decide (length t_list = 0%nat) then emit (WarnNoTerms budget_arg) else ret tt) ;;;
    ret t_list in
  if associate_padeops s then
    let filenames := listdir fs (dir_name s) in
    let tup_list :=
      mjoin ((fun b =>
        let terms := captured (pat_term (runid s) b) filenames in
        ((fun t => (b, t)) <$> set_iter terms)
        ++ (if include_wakes && bool_decide (b = 5) then
              let terms0 := captured (pat_term (runid s) 0) filenames in
              (fun t => (b, t)) <$> filter (fun t => t ∈ terms0) [1; 2; 3]
            else [])) <$> budget_list) in
    names <- map_M inverse_name tup_list ;;
    finish (Name <$> names)
  else
    all_terms <-
      (if associate_npz s then archive_names npz
       else if associate_mat s then archive_names mat
       else raise AttributeError) ;;
    match budget_arg with
    | None => ret (Name <$> all_terms)
    | Some _ =>
        tup_list <- map_M (fun t => from_option KeyError (key_get t)) all_terms ;;
        finish (mjoin ((fun b =>
                  (fun tup => Pair tup.1 tup.2) <$> filter (fun tup => tup.1 = b) tup_list)
                  <$> budget_list))
    end.

(** ** [BudgetIO]: resolving the requested terms *)

Definition default_terms : list string :=
  ["ubar"; "vbar"; "wbar";
   "tau11"; "tau12"; "tau13"; "tau22"; "tau23"; "tau33";
   "pbar"].

Definition RANS_terms : list string :=
  ["ubar"; "vbar"; "wbar";
   "pbar"; "Tbar";
   "uu"; "uv"; "uw"; "vv"; "vw"; "ww";
   "dpdx"; "dpdy"; "dpdz";
   "tau11"; "tau12"; "tau13"; "tau22"; "tau23"; "tau33"].

(** [t in BudgetIO.key] and [t in BudgetIO.key.inverse] *)
Definition in_key (t : term) : bool :=
  match t with
  | Name n => bool_decide (is_Some (key_get n))
  | Pair _ _ => false
  end.

Definition in_inverse (t : term) : bool :=
  match t with
  | Name _ => false
  | Pair b t => bool_decide (key_inverse (b, t) ≠ [])
  end.

(** [BudgetIO.key[t]] for a term used as a key *)
Definition key_of_term (t : term) : M (string * (Z * Z)) :=
  match t with
  | Name n => tup <- from_option KeyError (key_get n) ;; ret (n, tup)
  | Pair _ _ => raise KeyError
  end.

Definition pairs_of (l : list term) : list (Z * Z) :=
  omap (fun t => match t with Pair b t => Some (b, t) | Name _ => None end) l.

Definition names_of (l : list term) : list string :=
  omap (fun t => match t with Name n => Some n | Pair _ _ => None end) l.

(** What [_parse_budget_terms] computes before it warns: the selected
    table, the missing names and the invalid terms. *)
Record parsed : Type := mkParsed {
  key_subset : gmap string (Z * Z);
  missing_terms : list term;
  invalid_terms : list term
}.

Definition partition_terms (budget_terms existing_keys : list term)
    (existing_tup : list (Z * Z)) : M parsed :=
  let valid_keys := filter (fun t => t ∈ existing_keys) budget_terms in
  let missing_keys :=
    filter (fun t => (t ∉ existing_keys) /\ in_key t = true) budget_terms in
  let invalid :=
    filter (fun t => in_key t = false /\ in_inverse t = false) budget_terms in
  let valid_tup := filter (fun tup => tup ∈ existing_tup) (pairs_of budget_terms) in
  let missing_tup :=
    filter (fun tup => (tup ∉ existing_tup) /\ key_inverse tup ≠ [])
           (pairs_of budget_terms) in
  valid_names <- map_M inverse_name valid_tup ;;
  missing_names <- map_M inverse_name missing_tup ;;
  let valid_terms := remove_dups (valid_keys ++ (Name <$> valid_names)) in
  let missing := remove_dups (missing_keys ++ (Name <$> missing_names)) in
  entries <- map_M key_of_term valid_terms ;;
  ret (mkParsed (list_to_map entries) missing invalid).

(** [BudgetIO._parse_budget_terms] *)
Definition _parse_budget_terms (budget_terms : terms_arg) (include_wakes : bool)
  : M (gmap string (Z * Z)) :=
  s <- get_self ;;
  expanded <-
    (match budget_terms with
     | Terms l => ret (Some l)
     | Shortcut sc =>
         if decide (sc = "default") then ret (Some (Name <$> default_terms))
         else if decide (sc = "current") then
           ret (Some (Name <$> (map_to_list (budget s)).*1))
         else if decide (sc = "all") then
           l <- existing_terms None include_wakes ;; ret (Some l)
         else if decide (sc = "RANS") then ret (Some (Name <$> RANS_terms))
         else ret None
     end) ;;
  match expanded with
  | None => (emit WarnBadShortcut ;;; ret ∅)
  | Some budget_terms =>
      existing_keys <- existing_terms None include_wakes ;;
      existing_tup <- map_M (fun t => kv <- key_of_term t ;; ret kv.2) existing_keys ;;
      p <- partition_terms budget_terms existing_keys existing_tup ;;
      (if decide (size (key_subset p) = 0%nat) then emit WarnNoKeys else ret tt) ;;;
      (if decide (length (missing_terms p) = 0%nat) then ret tt
       else emit (WarnMissing (names_of (missing_terms p)))) ;;;
      (if decide (length (invalid_terms p) = 0%nat) then ret tt
       else emit (WarnInvalid (invalid_terms p))) ;;;
      ret (key_subset p)
  end.

(** ** [BudgetIO]: the budget cache *)

(** [BudgetIO.clear_budgets] *)
Definition clear_budgets : M unit :=
  s <- get_self ;;
  if negb (associate_budgets s) then ret tt
  else
    modify (set_budget ∅) ;;;
    t <- unique_budget_tidx ;;
    modify (fun s => set_cache (budget s) t (budget_n s) s).

(** [tidx_arr[np.argmin(np.abs(tidx_arr - tidx))]] *)
Definition closest_tidx (tidx_arr : list Z) (tidx : Z) : option Z :=
  i ← Np.argmin ((fun a => Np.abs64 (Np.sub64 a tidx)) <$> tidx_arr);
  tidx_arr !! i.

(** The time index the raw backend loads from. *)
Definition resolve_tidx (tidx : option Z) : M (option Z) :=
  s <- get_self ;;
  match tidx with
  | None => ret (budget_tidx s)
  | Some t =>
      if bool_decide (t ∈ all_budget_tidx s) then ret (Some t)
      else
        closest <- from_option ValueError (closest_tidx (all_budget_tidx s) t) ;;
        emit (PrintSubstituted t closest) ;;;
        ret (Some closest)
  end.

(** The name pattern of a budget file, split at its wildcard:
    ['Run{:02d}_budget{:01d}_term{:02d}_t{:06d}_*.s3D']. *)
Definition budget_file_prefix (runid b t tidx : Z) : string :=
  "Run" +:+ Py.format_d 2 runid +:+ "_budget" +:+ Py.format_d 1 b
  +:+ "_term" +:+ Py.format_d 2 t +:+ "_t" +:+ Py.format_d 6 tidx +:+ "_".

(** One turn of the loop of [_read_budgets_padeops]. *)
Definition load_term (tidx : option Z) (k : string) : M unit :=
  s <- get_self ;; fs <- get_fs ;;
  bt <- from_option KeyError (key_get k) ;;
  t <- from_option TypeError tidx ;;
  u_fname <- from_option IndexError
    (head (glob fs (dir_name s) (budget_file_prefix (runid s) bt.1 bt.2 t) ".s3D")) ;;
  n <- from_option IndexError (Py.int_of <$> Re.first_group pat_fname_n u_fname) ;;
  modify (fun s => set_cache (budget s) (Some t) (Some n) s) ;;;
  temp <- lift (fromfile fs u_fname) ;;
  s <- get_self ;;
  arr <- from_option ValueError (Np.reshape_F (nx s) (ny s) (nz s) temp) ;;
  modify (fun s => set_budget (<[k := arr]> (budget s)) s).

(** [BudgetIO._read_budgets_padeops] *)
Definition _read_budgets_padeops (key_subset : gmap string (Z * Z))
    (tidx : option Z) : M unit :=
  tidx <- resolve_tidx tidx ;;
  for_each (map_to_list key_subset).*1 (load_term tidx).

(** [BudgetIO._read_budgets_npz] and [BudgetIO._read_budgets_mat] *)
Definition _read_budgets_archive (fmt : format)
    (key_subset : gmap string (Z * Z)) : M unit :=
  for_each (map_to_list key_subset).*1 (fun k =>
    arrs <- load_archive fmt ;;
    arr <- from_option KeyError (arrs !! k) ;;
    modify (fun s => set_budget (<[k := arr]> (budget s)) s)).

Definition _read_budgets_npz := _read_budgets_archive npz.
Definition _read_budgets_mat := _read_budgets_archive mat.

(** ** [BudgetIO]: the wake deficit *)

(** Modelled from the spec: the inflow collaborator [inflow.InflowParser],
    which is not among the sources.  It yields the two height profiles,
    either from the namelist and the z axis (offline) or from the session.
    [inflow_budgets] is handed the session object itself; it is taken to
    consult it only, so what it may load into the cache on the way is not
    part of the model, and the properties of [calc_wake] are stated for
    the profiles it yields. *)
Variable inflow_offline : nml -> list float -> result (list float * list float).
Variable inflow_budgets : filesystem -> BudgetIO -> result (list float * list float).

(** [np.array([u, v])] and [np.array([u, v, w])]: the rows have one length. *)
Definition stack_rows (rows : list (list float)) : M unit :=
  match rows with
  | [] => ret tt
  | r :: rest =>
      if bool_decide (Forall (fun r' => length r' = length r) rest) then ret tt
      else raise ValueError
  end.

(** [BudgetIO._get_inflow] *)
Definition _get_inflow (offline wInflow : bool)
  : M (list float * list float * option (list float)) :=
  s <- get_self ;; fs <- get_fs ;;
  uv <-
    (if offline then
       if associate_nml s then lift (inflow_offline (input_nml s) (zLine s))
       else (emit WarnInflowOnline ;;; lift (inflow_budgets fs s))
     else lift (inflow_budgets fs s)) ;;
  if wInflow then
    let w := replicate (length (zLine s)) 0%float in
    stack_rows [uv.1; uv.2; w] ;;; ret (uv.1, uv.2, Some w)
  else
    stack_rows [uv.1; uv.2] ;;; ret (uv.1, uv.2, None).

Definition wake_names : list string := ["uwake"; "vwake"; "wwake"].

(** [self.budget[k]], [KeyError] when the term is not cached *)
Definition cached (k : string) : M Np.array3 :=
  s <- get_self ;; from_option KeyError (budget s !! k).

Definition store (k : string) (a : Np.array3) : M unit :=
  modify (fun s => set_budget (<[k := a]> (budget s)) s).

(** [BudgetIO.calc_wake], over the [read_budgets] it calls back. *)
Definition calc_wake_with
    (read_budgets : terms_arg -> bool -> option Z -> M unit)
    (offline wInflow overwrite : bool) : M unit :=
  let target_terms := ["uwake"; "vwake"] ++ (if wInflow then ["wwake"] else []) in
  let req_terms := ["ubar"; "vbar"] ++ (if wInflow then ["wbar"] else []) in
  s <- get_self ;;
  if forallb (fun t => bool_decide (is_Some (budget s !! t))) target_terms
     && negb overwrite
  then emit WarnWakeComputed
  else
    (if forallb (fun t => bool_decide (is_Some (budget s !! t))) req_terms then ret tt
     else read_budgets (Terms (Name <$> req_terms)) false None) ;;;
    uvw <- _get_inflow offline wInflow ;;
    (match uvw.2 with
     | Some w =>
         wbar <- cached "wbar" ;;
         a <- from_option ValueError (Np.minus_profile wbar w) ;;
         store "wwake" a
     | None => ret tt
     end) ;;;
    ubar <- cached "ubar" ;;
    a <- from_option ValueError (Np.profile_minus uvw.1.1 ubar) ;;
    store "uwake" a ;;;
    vbar <- cached "vbar" ;;
    a <- from_option ValueError (Np.profile_minus uvw.1.2 vbar) ;;
    store "vwake" a.

(** [any(t in ['uwake', 'vwake', 'wwake'] for t in budget_terms)]; the
    elements of a shortcut string are its characters. *)
Definition asks_wake (budget_terms : terms_arg) : bool :=
  match budget_terms with
  | Shortcut _ => false
  | Terms l => existsb (fun t => match t with
                                 | Name n => bool_decide (n ∈ wake_names)
                                 | Pair _ _ => false
                                 end) l
  end.

(** [BudgetIO.read_budgets].  It calls [calc_wake], which calls
    [read_budgets] back; [fuel] bounds the depth of that recursion. *)
Fixpoint read_budgets_fuel (fuel : nat) (budget_terms : terms_arg)
    (overwrite : bool) (tidx : option Z) : M unit :=
  match fuel with
  | O => raise RecursionError
  | S fuel' =>
      s <- get_self ;;
      if negb (associate_budgets s) then raise AttributeError
      else
        (if asks_wake budget_terms
         then calc_wake_with (read_budgets_fuel fuel') false false false
         else ret tt) ;;;
        key_subset <- _parse_budget_terms budget_terms false ;;
        s <- get_self ;;
        key_subset <-
          (if bool_decide (budget_tidx s = tidx) then
             if negb overwrite then
               ret (filter (fun kv => budget s !! kv.1 = None) key_subset)
             else clear_budgets ;;; ret key_subset
           else
             match tidx with
             | Some _ => clear_budgets ;;; ret key_subset
             | None => ret key_subset
             end) ;;
        s <- get_self ;;
        if associate_padeops s then _read_budgets_padeops key_subset tidx
        else if associate_npz s then _read_budgets_npz key_subset
        else if associate_mat s then _read_budgets_mat key_subset
        else raise AttributeError
  end.

(** The recursion is two calls deep: [calc_wake] asks for the mean
    velocities only. *)
Definition read_budgets : terms_arg -> bool -> option Z -> M unit :=
  read_budgets_fuel 2.

(** [BudgetIO.calc_wake] *)
Definition calc_wake : bool -> bool -> bool -> M unit :=
  calc_wake_with (read_budgets_fuel 1).

(** ** [BudgetIO]: slicing *)

(** A limit of [slice]: a single coordinate or an inclusive range. *)
Inductive lim : Type :=
  | LimAt (x : float)
  | LimRange (lo hi : float).

(** [wake_utils.get_xids(x=, y=, z=, x_ax=, y_ax=, z_ax=, return_none=True,
    return_slice=True)], which is not among the sources: the indices of the
    limits along the three axes. *)
Variable get_xids_util :
  option lim -> option lim -> option lim ->
  list float -> list float -> list float ->
  result (Np.index * Np.index * Np.index).

(** [BudgetIO.get_xids] on the session's own axes *)
Definition get_xids (xlim ylim zlim : option lim)
  : M (Np.index * Np.index * Np.index) :=
  s <- get_self ;;
  if negb (associate_grid s) then raise AttributeError
  else lift (get_xids_util xlim ylim zlim (xLine s) (yLine s) (zLine s)).

(** The dictionary returned by [slice]. *)
Record slices : Type := mkSlices {
  sl_keys : list string;
  sl_fields : gmap string Np.array3;
  sl_x : list float;
  sl_y : list float;
  sl_z : list float;
  sl_extent : list float
}.

(** The [min, max] of a sliced axis, nothing for an axis cut at an integer. *)
Definition axis_extent (ix : Np.index) (l : list float) : option (list float) :=
  if Np.is_slice ix then
    lo ← Np.amin l; hi ← Np.amax l; Some [lo; hi]
  else Some [].

(** [BudgetIO.slice(budget_terms=, tidx=, xlim=, ylim=, zlim=, overwrite=)],
    the call made by the writers: [field], [field_terms], [sl] and [keys]
    are [None] and [round_extent] is [False]; the branches that slice
    fields ([read_fields]) or an earlier slice are not part of the model.
    A slice is kept with its three axes: [np.squeeze] changes it only when
    an axis has length one. *)
Definition slice (budget_terms : terms_arg) (tidx : option Z)
    (xlim ylim zlim : option lim) (overwrite : bool) : M slices :=
  ids <- get_xids xlim ylim zlim ;;
  let '(xid, yid, zid) := ids in
  keys <- _parse_budget_terms budget_terms false ;;
  let keys := (map_to_list keys).*1 in
  read_budgets (Terms (Name <$> keys)) overwrite tidx ;;;
  s <- get_self ;;
  let dims := (length (xLine s), length (yLine s), length (zLine s)) in
  fields <- map_M (fun k =>
      a <- from_option KeyError (budget s !! k) ;;
      a <- from_option ValueError (Np.reshape_C dims a) ;;
      a <- from_option IndexError (Np.crop xid yid zid a) ;;
      ret (k, a)) keys ;;
  x <- from_option IndexError (Np.pick xid (xLine s)) ;;
  y <- from_option IndexError (Np.pick yid (yLine s)) ;;
  z <- from_option IndexError (Np.pick zid (zLine s)) ;;
  ex <- from_option ValueError (axis_extent xid x) ;;
  ey <- from_option ValueError (axis_extent yid y) ;;
  ez <- from_option ValueError (axis_extent zid z) ;;
  ret (mkSlices keys (list_to_map fields) x y z (ex ++ ey ++ ez)).

(** ** [BudgetIO]: writing archives *)

(** [read_turb_property(tidx='all', prop_str=prop, steady=False, turb=k)]:
    the series of one turbine, read from the run directory or from the
    metadata of an archive. *)
Variable read_turb_property :
  filesystem -> BudgetIO -> string -> nat -> result (list float).

(** [os.path.join(a, b)] *)
Definition path_join (a b : string) : string :=
  match b with
  | String "/" _ => b
  | _ =>
      match rev (Py.chars a) with
      | [] => b
      | c :: _ => if ascii_dec c "/"%char then a +:+ b else a +:+ "/" +:+ b
      end
  end.

(** The series of the turbines [1 .. num], a missing one ([KeyError])
    being skipped. *)
Definition turbine_series (num : nat) : M (list (string * list float)) :=
  s <- get_self ;; fs <- get_fs ;;
  l <- map_M (fun kp : nat * string =>
         match read_turb_property fs s kp.2 (kp.1 + 1) with
         | Ok v => ret [("t" +:+ Py.format_d 0 (Z.of_nat (kp.1 + 1)) +:+ "_" +:+ kp.2, v)]
         | Raise KeyError => ret []
         | Raise e => raise e
         end)
       (k ← seq 0 num; (fun prop => (k, prop)) <$> ["power"; "uvel"; "vvel"]) ;;
  ret (mjoin l).

(** [BudgetIO.write_metadata] *)
Definition write_metadata (write_dir fname : string) (src : format)
    (x y z : list float) : M unit :=
  s <- get_self ;;
  turbines <-
    (if associate_turbines s then
       ta <- from_option AttributeError (turbineArray s) ;;
       series <- turbine_series (ta_num_turbines ta) ;;
       ret (Some (TurbineArray_todict ta), series)
     else ret (None, [])) ;;
  let save_dict :=
    mkMetadata (input_nml s) x y z (origin s) turbines.1 turbines.2 in
  let filepath_meta := path_join write_dir (fname +:+ "_metadata." +:+ ext src) in
  write_file filepath_meta (Metadata src save_dict).

(** The end of both writers, past the test of the destination. *)
Definition save_budgets (fmt : format) (write_dir filename filepath : string)
    (keys : list string) (sl : slices) : M unit :=
  save_arrs <- map_M (fun k =>
      a <- from_option KeyError (sl_fields sl !! k) ;; ret (k, a)) keys ;;
  write_file filepath (Archive fmt (list_to_map save_arrs)) ;;;
  write_metadata write_dir filename fmt (sl_x sl) (sl_y sl) (sl_z sl).

(** [BudgetIO.write_npz] *)
Definition write_npz (write_dir : option string) (budget_terms : terms_arg)
    (filename_arg : option string) (overwrite : bool)
    (xlim ylim zlim : option lim) : M unit :=
  s <- get_self ;;
  if negb (associate_budgets s) then emit (WarnNoBudgetsAssociated npz)
  else
    let write_dir := default (dir_name s) write_dir in
    let current := match budget_terms with
                   | Shortcut sc => bool_decide (sc = "current")
                   | Terms _ => false
                   end in
    key_subset <-
      (if current then ret (Terms (Name <$> (map_to_list (budget s)).*1))
       else ks <- _parse_budget_terms budget_terms false ;;
            ret (Terms (Name <$> (map_to_list ks).*1))) ;;
    sl <- slice key_subset None xlim ylim zlim false ;;
    s <- get_self ;; fs <- get_fs ;;
    (* [budget.keys()] is a view: it shows the cache as it is now *)
    let keys := if current then (map_to_list (budget s)).*1
                else match key_subset with Terms l => names_of l | _ => [] end in
    let filename := default (filename s) filename_arg in
    let filepath := write_dir +:+ Os.sep +:+ filename +:+ "_budgets.npz" in
    if negb (path_exists fs filepath) then
      save_budgets npz write_dir filename filepath keys sl
    else if overwrite then
      (emit WarnOverwriting ;;;
       save_budgets npz write_dir filename filepath keys sl)
    else emit WarnExistingFiles.

(** [BudgetIO.write_mat] *)
Definition write_mat (write_dir : option string) (budget_terms : terms_arg)
    (filename_arg : option string) (overwrite : bool)
    (xlim ylim zlim : option lim) : M unit :=
  s <- get_self ;;
  if negb (associate_budgets s) then emit (WarnNoBudgetsAssociated mat)
  else
    let write_dir := default (dir_name s) write_dir in
    ks <- _parse_budget_terms budget_terms false ;;
    let keys := (map_to_list ks).*1 in
    sl <- slice (Terms (Name <$> keys)) None xlim ylim zlim false ;;
    s <- get_self ;; fs <- get_fs ;;
    let filename := default (filename s) filename_arg in
    let filepath := write_dir +:+ Os.sep +:+ filename +:+ "_budgets.mat" in
    if negb (path_exists fs filepath) then
      save_budgets mat write_dir filename filepath keys sl
    else if overwrite then
      (emit WarnOverwriting ;;;
       save_budgets mat write_dir filename filepath keys sl)
    else emit WarnExistingFiles.

(** * Properties *)

(** ** Sorting *)

Section ListSortFacts.
Context {A : Type} (lt : A -> A -> bool).

Lemma sort_insert_perm (x : A) (l : list A) : sort_insert lt x l ≡ₚ x :: l.
Proof.
  induction l as [|y l IH]; simpl; [done|].
  destruct (lt y x); [|done].
  rewrite IH. apply Permutation_swap.
Qed.

Lemma stable_sort_perm (l : list A) : stable_sort lt l ≡ₚ l.
Proof.
  induction l as [|x l IH]; simpl; [done|].
  rewrite sort_insert_perm. by rewrite IH.
Qed.

Lemma list_sort_perm (reverse : bool) (l : list A) : list_sort lt reverse l ≡ₚ l.
Proof.
  destruct reverse; simpl; [|apply stable_sort_perm].
  rewrite <- Permutation_rev, stable_sort_perm. symmetry. apply Permutation_rev.
Qed.

(** [a] may stand before [b]: [b < a] does not hold. *)
Definition not_after (a b : A) : Prop := lt b a = false.

Hypothesis lt_asym : forall a b, lt a b = true -> lt b a = false.
Hypothesis le_trans : forall a b c, not_after a b -> not_after b c -> not_after a c.

Lemma sort_insert_sorted (x : A) (l : list A) :
  StronglySorted not_after l -> StronglySorted not_after (sort_insert lt x l).
Proof.
  induction 1 as [|y l Hs IH Hall]; simpl.
  - repeat constructor.
  - destruct (lt y x) eqn:E.
    + constructor; [done|].
      rewrite sort_insert_perm. constructor; [|done].
      by apply lt_asym.
    + constructor; [by constructor|].
      constructor; [done|].
      eapply Forall_impl; [exact Hall|]. intros z Hz. by eapply le_trans.
Qed.

Lemma stable_sort_sorted (l : list A) : StronglySorted not_after (stable_sort lt l).
Proof.
  induction l as [|x l IH]; simpl; [constructor|by apply sort_insert_sorted].
Qed.
End ListSortFacts.

(** ** [TurbineArray] *)

Lemma build_turbines_length (i num : nat) (sort : string) (l : list nml) :
  length (build_turbines i num sort l) = ((num - i) `min` length l)%nat.
Proof.
  revert i. induction l as [|x l IH]; intros i; simpl; [lia|].
  case_decide; simpl; [lia|]. rewrite IH. lia.
Qed.

Lemma build_turbines_sort_by (i num : nat) (sort : string) (l : list nml) :
  Forall (fun t => t_sort_by t = sort) (build_turbines i num sort l).
Proof.
  revert i. induction l as [|x l IH]; intros i; simpl; [constructor|].
  case_decide; constructor; [done|apply IH].
Qed.

(** C10: a [TurbineArray] built from [m] namelists holds [min(k, m)]
    turbines when [num_turbines=k] is given and [m] otherwise, each sorting
    by the configured field, and the sequence is in ascending order of the
    sort keys as soon as the constructor returns. *)
Theorem TurbineArray_init_turbines
    (fs : filesystem) (turb_dir : option string) (num_turbines : option nat)
    (init_ls : list nml) (ADM_type : Z) (verbose : bool) (sort : string)
    (ta : TurbineArray) :
  (forall a b, key_lt a b = true -> key_lt b a = false) ->
  (forall a b c, key_lt b a = false -> key_lt c b = false -> key_lt c a = false) ->
  turb_dir = None \/ init_ls <> [] ->
  TurbineArray_init fs turb_dir num_turbines (Some init_ls) None
    ADM_type verbose sort = Ok (Built ta) ->
  length (ta_turbines ta)
    = match num_turbines with
      | Some k => (k `min` length init_ls)%nat
      | None => length init_ls
      end
  /\ Forall (fun t => t_sort_by t = sort) (ta_turbines ta)
  /\ StronglySorted (fun a b => key_lt (Turbine_key b) (Turbine_key a) = false)
       (ta_turbines ta).
Proof.
  intros Hasym Htrans Hsrc Hinit.
  set (num := default (length init_ls) num_turbines).
  set (built := build_turbines 0 num sort init_ls).
  assert (Hts : ta_turbines ta = stable_sort Turbine_lt built).
  { unfold TurbineArray_init in Hinit. simpl in Hinit.
    assert (Hg : (match turb_dir with
                  | Some dir =>
                      if decide (length init_ls = 0%nat) then
                        match read_turbine_files fs dir with
                        | Ok l => Ok (init_ls ++ l, dir)
                        | Raise e => Raise e
                        end
                      else Ok (init_ls, dir)
                  | None => Ok (init_ls, "")
                  end) = Ok (init_ls, default "" turb_dir)).
    { destruct turb_dir as [dir|]; [|done].
      destruct Hsrc as [?|Hne]; [done|].
      case_decide as Hl; [|done]. destruct init_ls; [done|discriminate Hl]. }
    rewrite Hg in Hinit. fold num in Hinit. fold built in Hinit.
    unfold TurbineArray_sort, list_sort in Hinit. simpl in Hinit. clear Hg.
    destruct (decide (num = 1%nat)).
    - destruct (stable_sort Turbine_lt built) eqn:E; [discriminate Hinit|].
      destruct (actuator_disk _); [|discriminate Hinit].
      injection Hinit as <-. simpl. done.
    - injection Hinit as <-. done. }
  rewrite Hts. split_and!.
  - rewrite (Permutation_length (stable_sort_perm _ _)).
    unfold built. rewrite build_turbines_length. unfold num.
    destruct num_turbines; simpl; lia.
  - rewrite (stable_sort_perm _ _). apply build_turbines_sort_by.
  - apply (stable_sort_sorted Turbine_lt); unfold not_after, Turbine_lt.
    + intros a b. apply Hasym.
    + intros a b c. apply Htrans.
Qed.

(** ** The monad: inversion of a successful run *)

Lemma bind_Ok {A B} (m : M A) (f : A -> M B) (w : world) (r : B * world) :
  bind m f w = Ok r <-> exists a w1, m w = Ok (a, w1) /\ f a w1 = Ok r.
Proof.
  unfold bind. split.
  - destruct (m w) as [[a w1]|e]; [eauto|done].
  - intros (a & w1 & -> & ?). done.
Qed.

Lemma from_option_Ok {A} (e : exn) (o : option A) (w : world) (r : A * world) :
  from_option e o w = Ok r <-> o = Some r.1 /\ r.2 = w.
Proof.
  destruct o, r; unfold from_option, ret, raise; simpl; split.
  - by intros [= -> ->].
  - by intros [[= ->] ->].
  - done.
  - by intros [? _].
Qed.

Lemma lift_Ok {A} (x : result A) (w : world) (r : A * world) :
  lift x w = Ok r <-> x = Ok r.1 /\ r.2 = w.
Proof.
  destruct x, r; unfold lift; simpl; split.
  - by intros [= -> ->].
  - by intros [[= ->] ->].
  - done.
  - by intros [? _].
Qed.

(** Splits a hypothesis [H : (x <- m ;; k) w = Ok r] along its binds. *)
Ltac inv_bind H :=
  let a := fresh "a" in
  let w1 := fresh "w" in
  let H1 := fresh "Hm" in
  apply bind_Ok in H as (a & w1 & H1 & H);
  first
    [ apply from_option_Ok in H1 as [H1 ?]; simpl in H1
    | apply lift_Ok in H1 as [H1 ?]; simpl in H1
    | unfold get_self, get_fs, modify, emit, write_file, ret in H1;
      injection H1 as ? ?
    | idtac ];
  simplify_eq/=.

(** ** NumPy: the Fortran-order reshape *)

Lemma chunks_lookup {A} (n c : nat) (l : list A) (j : nat) :
  (j < c)%nat -> Np.chunks n c l !! j = Some (take n (drop (j * n) l)).
Proof.
  revert l j. induction c as [|c IH]; intros l j Hj; [lia|].
  destruct j as [|j]; simpl; [done|].
  rewrite IH by lia. by rewrite drop_drop.
Qed.

Lemma chunks_length {A} (n c : nat) (l : list A) : length (Np.chunks n c l) = c.
Proof. revert l. induction c; intros; simpl; [done|by f_equal]. Qed.

Lemma tabulate_lookup {A} (n : nat) (f : nat -> A) (i : nat) :
  (i < n)%nat -> Np.tabulate n f !! i = Some (f i).
Proof.
  intros Hi. unfold Np.tabulate. rewrite list_lookup_fmap.
  by rewrite lookup_seq_lt.
Qed.

(** The element [i, j, k] of the reshaped array is the element
    [i + nx*j + nx*ny*k] of the stream. *)
Lemma reshape_F_index (nx ny nz : nat) (flat : list float) (a : Np.array3)
    (i j k : nat) :
  Np.reshape_F nx ny nz flat = Some a ->
  (i < nx)%nat -> (j < ny)%nat -> (k < nz)%nat ->
  Np.get3 a i j k = flat !! (i + nx * j + nx * ny * k)%nat
  /\ is_Some (flat !! (i + nx * j + nx * ny * k)%nat).
Proof.
  unfold Np.reshape_F. case_decide as Hlen; [|done]. intros [= <-] Hi Hj Hk.
  assert (Hij : (i + nx * j < nx * ny)%nat).
  { assert (nx * (j + 1) <= nx * ny)%nat by (apply Nat.mul_le_mono_l; lia). lia. }
  assert (Hin : (i + nx * j + nx * ny * k < length flat)%nat).
  { assert (nx * ny * (k + 1) <= nx * ny * nz)%nat by (apply Nat.mul_le_mono_l; lia).
    lia. }
  split; [|by apply lookup_lt_is_Some].
  unfold Np.get3; simpl.
  rewrite tabulate_lookup by done; simpl.
  rewrite tabulate_lookup by done; simpl.
  rewrite tabulate_lookup by done. 
  rewrite !nth_lookup, list_lookup_fmap, chunks_lookup by done; simpl.
  rewrite chunks_lookup by done; simpl.
  rewrite lookup_take.
  rewrite lookup_drop, lookup_take.
  rewrite lookup_drop.
  replace (k * (nx * ny) + (j * nx + i))%nat with (i + nx * j + nx * ny * k)%nat by lia.
  rewrite !decide_True by lia.
  destruct (lookup_lt_is_Some_2 flat _ Hin) as [x ->]. done.
Qed.

(** ** The raw backend: loading budget terms *)

(** What one turn of the loading loop does when it succeeds. *)
Lemma load_term_Ok (t : option Z) (k : string) (w w' : world) :
  load_term t k w = Ok (tt, w') ->
  exists bt tv path n flat arr,
    key_get k = Some bt /\ t = Some tv
    /\ head (glob (fs w) (dir_name (self w))
               (budget_file_prefix (runid (self w)) bt.1 bt.2 tv) ".s3D") = Some path
    /\ Py.int_of <$> Re.first_group pat_fname_n path = Some n
    /\ fs w !! path = Some (Doubles flat)
    /\ Np.reshape_F (nx (self w)) (ny (self w)) (nz (self w)) flat = Some arr
    /\ w' = mkWorld (fs w)
               (set_cache (<[k := arr]> (budget (self w))) (Some tv) (Some n) (self w))
               (out w).
Proof.
  unfold load_term. intros H.
  do 10 inv_bind H. unfold modify in H. simplify_eq/=.
  unfold fromfile in Hm2. destruct (fs w !! a1) as [[]|] eqn:Hf; simplify_eq.
  eexists _, _, _, _, _, _. split_and!; try done.
Qed.

(** A budget file is a file of the run directory whose name fits the
    pattern of its term and time index. *)
Definition is_budget_file (w : world) (k : string) (tidx : Z) (path : string) : Prop :=
  exists bt, key_get k = Some bt
    /\ path ∈ glob (fs w) (dir_name (self w))
               (budget_file_prefix (runid (self w)) bt.1 bt.2 tidx) ".s3D".

(** The element order of a cached term: column-major over the stream of
    its file. *)
Definition fortran_order_of (w : world) (flat : list float) (arr : Np.array3) : Prop :=
  length flat = (nx (self w) * ny (self w) * nz (self w))%nat
  /\ Np.dims arr = (nx (self w), ny (self w), nz (self w))
  /\ forall i j k, (i < nx (self w))%nat -> (j < ny (self w))%nat -> (k < nz (self w))%nat ->
       exists v, Np.get3 arr i j k = Some v
         /\ flat !! (i + nx (self w) * j + nx (self w) * ny (self w) * k)%nat = Some v.

Lemma reshape_F_fortran_order (w : world) (flat : list float) (arr : Np.array3) :
  Np.reshape_F (nx (self w)) (ny (self w)) (nz (self w)) flat = Some arr ->
  fortran_order_of w flat arr.
Proof.
  intros Hr. split_and!.
  - unfold Np.reshape_F in Hr. by case_decide.
  - unfold Np.reshape_F in Hr. case_decide; [|done]. by simplify_eq.
  - intros i j k Hi Hj Hk.
    destruct (reshape_F_index _ _ _ _ _ i j k Hr Hi Hj Hk) as [Heq [v Hv]].
    exists v. by rewrite Heq.
Qed.

(** The loop over the keys, from a world [w0] of which [w] keeps the files
    and the grid. *)
Lemma load_terms_Ok (t : option Z) (keys : list string) (w w' : world) :
  NoDup keys ->
  for_each keys (load_term t) w = Ok (tt, w') ->
  fs w' = fs w /\ out w' = out w
  /\ (forall k, k ∉ keys -> budget (self w') !! k = budget (self w) !! k)
  /\ (keys <> [] -> budget_tidx (self w') = t)
  /\ (keys = [] -> w' = w)
  /\ forall k, k ∈ keys ->
       exists tv path flat arr,
         t = Some tv /\ is_budget_file w k tv path
         /\ fs w !! path = Some (Doubles flat)
         /\ budget (self w') !! k = Some arr
         /\ fortran_order_of w flat arr.
Proof.
  revert w. induction keys as [|k keys IH]; intros w Hnd H; simpl in H.
  - unfold ret in H. simplify_eq. split_and!; try done. intros k Hk. by apply elem_of_nil in Hk.
  - apply NoDup_cons in Hnd as [Hk Hnd].
    inv_bind H. destruct a.
    apply load_term_Ok in Hm as (bt & tv & path & n & flat & arr & Hkey & -> & Hglob & Hn & Hfile & Hr & ->).
    apply IH in H as (Hfs & Hout & Hother & Htidx & Hnil & Hloaded); [|done].
    simpl in *. split_and!; try done.
    + intros k' Hk'. apply not_elem_of_cons in Hk' as [Hne Hk'].
      rewrite Hother by done. by rewrite lookup_insert_ne.
    + intros _. destruct keys as [|k2 keys]; [by rewrite Hnil|].
      by apply Htidx.
    + intros k' Hk'. apply elem_of_cons in Hk' as [->|Hk'].
      * exists tv, path, flat, arr. split_and!; try done.
        -- exists bt. split; [done|]. by apply head_Some_elem_of.
        -- rewrite Hother by done. by rewrite lookup_insert_eq.
        -- by apply reshape_F_fortran_order.
      * destruct (Hloaded k' Hk') as (tv' & path' & flat' & arr' & ? & [bt' [? ?]] & ? & ? & ?).
        exists tv', path', flat', arr'. split_and!; try done.
        by exists bt'.
Qed.

(** C1: every budget term loaded by the raw backend is cached as the
    column-major reshape of the stream of its file: the loaded term comes
    from a file [path] of the run directory named after the term and the
    time index, the stream [flat] of that file has [nx*ny*nz] values, and
    the cached array holds at [[i, j, k]] the value [flat[i + nx*j + nx*ny*k]]. *)
Theorem read_budgets_padeops_fortran_order
    (key_subset : gmap string (Z * Z)) (tidx : option Z) (w w' : world) (k : string) :
  _read_budgets_padeops key_subset tidx w = Ok (tt, w') ->
  is_Some (key_subset !! k) ->
  exists tv path flat arr,
    is_budget_file w k tv path
    /\ fs w !! path = Some (Doubles flat)
    /\ budget (self w') !! k = Some arr
    /\ length flat = (nx (self w) * ny (self w) * nz (self w))%nat
    /\ Np.dims arr = (nx (self w), ny (self w), nz (self w))
    /\ forall i j l, (i < nx (self w))%nat -> (j < ny (self w))%nat -> (l < nz (self w))%nat ->
         exists v, Np.get3 arr i j l = Some v
           /\ flat !! (i + nx (self w) * j + nx (self w) * ny (self w) * l)%nat = Some v.
Proof.
  unfold _read_budgets_padeops. intros H [bt Hk].
  apply bind_Ok in H as (t & w1 & Hres & H).
  assert (Hw1 : fs w1 = fs w /\ self w1 = self w).
  { unfold resolve_tidx in Hres. inv_bind Hres.
    destruct tidx as [tv|]; [|by unfold ret in Hres; simplify_eq].
    case_bool_decide; [by unfold ret in Hres; simplify_eq|].
    do 2 inv_bind Hres. by unfold ret in Hres; simplify_eq. }
  destruct Hw1 as [Hfs Hself].
  apply load_terms_Ok in H as (_ & _ & _ & _ & _ & Hloaded);
    [|apply NoDup_fst_map_to_list].
  destruct (Hloaded k) as (tv & path & flat & arr & -> & [bt' [Hkey Hglob]] & Hfile & Hb & Hlen & Hdims & Hidx).
  { apply list_elem_of_fmap. exists (k, bt). split; [done|]. by apply elem_of_map_to_list. }
  rewrite Hfs, Hself in *.
  exists tv, path, flat, arr. split_and!; try done.
  by exists bt'.
Qed.

(** ** The raw backend: the nearest available time index *)












(** ** Frames: what a method leaves untouched *)

(** [m] relates the world it starts in to the world it returns in. *)
Definition preserves {A} (R : relation world) (m : M A) : Prop :=
  forall w a w', m w = Ok (a, w') -> R w w'.

(** The method reads only: the files and the session are unchanged (it may
    emit messages). *)
Definition read_only : relation world :=
  fun w w' => fs w' = fs w /\ self w' = self w.

(** The method changes at most the budget cache of the session. *)
Definition cache_only : relation world :=
  fun w w' => fs w' = fs w
    /\ exists b t n, self w' = set_cache b t n (self w).

#[local] Instance read_only_preorder : PreOrder read_only.
Proof.
  split; [by intros w|].
  intros w1 w2 w3 [? ?] [? ?]. split; congruence.
Qed.

Lemma set_cache_id (s : BudgetIO) :
  set_cache (budget s) (budget_tidx s) (budget_n s) s = s.
Proof. by destruct s. Qed.

#[local] Instance cache_only_preorder : PreOrder cache_only.
Proof.
  split.
  - intros w. split; [done|]. eexists _, _, _. symmetry. apply set_cache_id.
  - intros w1 w2 w3 [? (b & t & n & H12)] [? (b' & t' & n' & H23)].
    split; [congruence|]. exists b', t', n'. by rewrite H23, H12.
Qed.

Lemma read_only_cache_only (w w' : world) : read_only w w' -> cache_only w w'.
Proof.
  intros [? Hs]. split; [done|]. eexists _, _, _. rewrite Hs. symmetry. apply set_cache_id.
Qed.

Section Preserves.
Context (R : relation world) `{!PreOrder R}.

Lemma preserves_ret {A} (a : A) : preserves R (ret a).
Proof. intros w a' w' [= _ <-]. reflexivity. Qed.

Lemma preserves_raise {A} (e : exn) : preserves R (@raise A e).
Proof. by intros w a w'. Qed.

Lemma preserves_bind {A B} (m : M A) (f : A -> M B) :
  preserves R m -> (forall a, preserves R (f a)) -> preserves R (bind m f).
Proof.
  intros Hm Hf w b w' (a & w1 & H1 & H2)%bind_Ok.
  etrans; [by eapply Hm|by eapply Hf].
Qed.

Lemma preserves_get_self : preserves R get_self.
Proof. intros w a w' [= _ <-]. reflexivity. Qed.

Lemma preserves_get_fs : preserves R get_fs.
Proof. intros w a w' [= _ <-]. reflexivity. Qed.

Lemma preserves_from_option {A} (e : exn) (o : option A) :
  preserves R (from_option e o).
Proof. intros w a w' [_ <-]%from_option_Ok. reflexivity. Qed.

Lemma preserves_lift {A} (r : result A) : preserves R (lift r).
Proof. intros w a w' [_ <-]%lift_Ok. reflexivity. Qed.

Lemma preserves_for_each {A} (l : list A) (body : A -> M unit) :
  (forall x, preserves R (body x)) -> preserves R (for_each l body).
Proof.
  intros Hb. induction l as [|x l IH]; simpl.
  - apply preserves_ret.
  - apply preserves_bind; [apply Hb|by intros _].
Qed.

Lemma preserves_map_M {A B} (f : A -> M B) (l : list A) :
  (forall x, preserves R (f x)) -> preserves R (map_M f l).
Proof.
  intros Hf. induction l as [|x l IH]; simpl.
  - apply preserves_ret.
  - apply preserves_bind; [apply Hf|intros y].
    apply preserves_bind; [apply IH|intros ys]. apply preserves_ret.
Qed.
End Preserves.

Lemma preserves_weaken {A} (m : M A) : preserves read_only m -> preserves cache_only m.
Proof. intros H w a w' Hm. by eapply read_only_cache_only, H. Qed.

Lemma emit_read_only (e : event) : preserves read_only (emit e).
Proof. by intros w a w' [= _ <-]. Qed.

Lemma modify_cache_only (f : BudgetIO -> BudgetIO) :
  (forall s, exists b t n, f s = set_cache b t n s) -> preserves cache_only (modify f).
Proof. intros Hf w a w' [= _ <-]. split; [done|]. apply Hf. Qed.

Ltac head_of t :=
  match t with
  | ?f _ => head_of f
  | _ => t
  end.

(** Decomposes a goal [preserves R m] along the structure of [m]. *)
Ltac frame_step :=
  first
    [ assumption
    | apply preserves_ret | apply preserves_raise
    | apply preserves_get_self | apply preserves_get_fs
    | apply preserves_from_option | apply preserves_lift
    | apply emit_read_only
    | apply preserves_weaken; apply emit_read_only
    | apply preserves_bind
    | apply preserves_for_each
    | apply preserves_map_M
    | progress cbv zeta
    | match goal with
      | |- PreOrder _ => apply _
      | |- forall _, preserves _ _ => intros ?
      | |- preserves _ (if ?b then _ else _) => destruct b
      | |- preserves _ (match ?x with _ => _ end) => destruct x
      | |- preserves _ (let '(_, _) := ?x in _) => destruct x
      | |- preserves _ ?m => let h := head_of m in progress unfold h
      end ].

Ltac frame := repeat frame_step.

Lemma unique_tidx_last_ro (search : Z -> Re.regex) :
  preserves read_only (unique_tidx_last search).
Proof. unfold unique_tidx_last. frame. Qed.

Lemma load_archive_ro (fmt : format) : preserves read_only (load_archive fmt).
Proof. unfold load_archive. frame. Qed.

Lemma archive_names_ro (fmt : format) : preserves read_only (archive_names fmt).
Proof. unfold archive_names. frame; apply load_archive_ro. Qed.

Lemma existing_budgets_ro : preserves read_only existing_budgets.
Proof.
  unfold existing_budgets, archive_terms_budgets. frame; apply archive_names_ro.
Qed.

Lemma existing_terms_ro (budget_arg : option (list Z)) (include_wakes : bool) :
  preserves read_only (existing_terms budget_arg include_wakes).
Proof.
  unfold existing_terms, inverse_name.
  frame.
Qed.

Lemma partition_terms_ro (l e : list term) (t : list (Z * Z)) :
  preserves read_only (partition_terms l e t).
Proof. unfold partition_terms, inverse_name, key_of_term. frame. Qed.

Lemma _parse_budget_terms_ro (budget_terms : terms_arg) (include_wakes : bool) :
  preserves read_only (_parse_budget_terms budget_terms include_wakes).
Proof.
  unfold _parse_budget_terms, key_of_term.
  frame.
Qed.

Lemma modify_cache (f : BudgetIO -> BudgetIO) :
  (forall s, exists b t n, f s = set_cache b t n s) -> preserves cache_only (modify f).
Proof. apply modify_cache_only. Qed.

(** Extends [frame] to the methods that write the budget cache. *)
Ltac frame_cache :=
  repeat first
    [ apply modify_cache; intros ?; unfold set_budget; by eexists _, _, _
    | frame_step
    | apply preserves_weaken; frame_step ].

Lemma clear_budgets_cache : preserves cache_only clear_budgets.
Proof. unfold clear_budgets, unique_budget_tidx. frame_cache. Qed.

Lemma _read_budgets_padeops_cache (ks : gmap string (Z * Z)) (tidx : option Z) :
  preserves cache_only (_read_budgets_padeops ks tidx).
Proof. unfold _read_budgets_padeops, resolve_tidx, load_term. frame_cache. Qed.

Lemma _read_budgets_archive_cache (fmt : format) (ks : gmap string (Z * Z)) :
  preserves cache_only (_read_budgets_archive fmt ks).
Proof. unfold _read_budgets_archive. frame_cache. Qed.

Lemma _get_inflow_ro (offline wInflow : bool) :
  preserves read_only (_get_inflow offline wInflow).
Proof. unfold _get_inflow, stack_rows. frame. Qed.

Lemma calc_wake_with_cache
    (rb : terms_arg -> bool -> option Z -> M unit) (offline wInflow overwrite : bool) :
  (forall a b c, preserves cache_only (rb a b c)) ->
  preserves cache_only (calc_wake_with rb offline wInflow overwrite).
Proof.
  intros Hrb. unfold calc_wake_with, cached, store.
  frame_cache; try apply Hrb.
Qed.

Lemma read_budgets_fuel_cache (fuel : nat) (budget_terms : terms_arg)
    (overwrite : bool) (tidx : option Z) :
  preserves cache_only (read_budgets_fuel fuel budget_terms overwrite tidx).
Proof.
  revert budget_terms overwrite tidx.
  induction fuel as [|fuel IH]; intros budget_terms overwrite tidx; simpl.
  - apply preserves_raise.
  - pose proof (calc_wake_with_cache (read_budgets_fuel fuel) false false false IH).
    pose proof clear_budgets_cache.
    pose proof (preserves_weaken _ (_parse_budget_terms_ro budget_terms false)).
    unfold _read_budgets_npz, _read_budgets_mat.
    repeat first
      [ assumption
      | apply _read_budgets_padeops_cache
      | apply _read_budgets_archive_cache
      | apply preserves_ret | apply preserves_raise | apply preserves_get_self
      | apply preserves_bind
      | match goal with
        | |- PreOrder _ => apply _
        | |- forall _, preserves _ _ => intros ?
        | |- preserves _ (if ?b then _ else _) => destruct b
        | |- preserves _ (match ?x with _ => _ end) => destruct x
        end ].
Qed.

Lemma preserves_for_each_in {A} (R : relation world) `{!PreOrder R}
    (l : list A) (body : A -> M unit) :
  (forall x, x ∈ l -> preserves R (body x)) -> preserves R (for_each l body).
Proof.
  induction l as [|x l IH]; intros Hb; simpl.
  - by apply preserves_ret.
  - apply preserves_bind; [done|apply Hb; by left|intros _].
    apply IH. intros y Hy. apply Hb. by right.
Qed.

Lemma preserves_and {A} (R1 R2 : relation world) (m : M A) :
  preserves R1 m -> preserves R2 m -> preserves (fun w w' => R1 w w' /\ R2 w w') m.
Proof. intros H1 H2 w a w' Hm. split; [by eapply H1|by eapply H2]. Qed.

(** ** The budget cache and its time index *)

(** Only the terms in [K] may change in the cache. *)
Definition only_terms (K : list string) : relation world :=
  fun w w' => forall k, k ∉ K -> budget (self w') !! k = budget (self w) !! k.

#[local] Instance only_terms_preorder (K : list string) : PreOrder (only_terms K).
Proof.
  split; [by intros w k|].
  intros w1 w2 w3 H12 H23 k Hk. by rewrite H23, H12.
Qed.

(** The cache stays at the time index [t] once it is there. *)
Definition stays_at (t : option Z) : relation world :=
  fun w w' => budget_tidx (self w) = t -> budget_tidx (self w') = t.

#[local] Instance stays_at_preorder (t : option Z) : PreOrder (stays_at t).
Proof.
  split; [intros w H; exact H|].
  intros w1 w2 w3 H12 H23 H. by apply H23, H12.
Qed.

Lemma read_only_stays_at {A} (t : option Z) (m : M A) :
  preserves read_only m -> preserves (stays_at t) m.
Proof. intros H w a w' Hm Ht. destruct (H w a w' Hm) as [_ Hs]. by rewrite Hs. Qed.

Lemma store_Ok (k : string) (a : Np.array3) (w w' : world) :
  store k a w = Ok (tt, w') ->
  w' = mkWorld (fs w) (set_budget (<[k := a]> (budget (self w))) (self w)) (out w).
Proof. by intros [= <-]. Qed.

Lemma load_term_only_terms (K : list string) (t : option Z) (k : string) :
  k ∈ K -> preserves (only_terms K) (load_term t k).
Proof.
  intros Hk w [] w' H k' Hk'.
  apply load_term_Ok in H as (bt & tv & path & n & flat & arr & _ & _ & _ & _ & _ & _ & ->).
  simpl. apply lookup_insert_ne. by intros ->.
Qed.

Lemma load_term_stays_at (t : option Z) (k : string) :
  preserves (stays_at t) (load_term t k).
Proof.
  intros w [] w' H _.
  by apply load_term_Ok in H as (bt & tv & path & n & flat & arr & _ & -> & _ & _ & _ & _ & ->).
Qed.

Lemma archive_load_Ok (fmt : format) (k : string) (w w' : world) :
  (arrs <- load_archive fmt ;;
   arr <- from_option KeyError (arrs !! k) ;;
   modify (fun s => set_budget (<[k := arr]> (budget s)) s)) w = Ok (tt, w') ->
  exists arr, w' = mkWorld (fs w) (set_budget (<[k := arr]> (budget (self w))) (self w)) (out w).
Proof.
  intros H. apply bind_Ok in H as (arrs & w1 & Hl & H).
  destruct (load_archive_ro fmt _ _ _ Hl) as [Hfs Hself].
  assert (out w1 = out w) as Hout.
  { unfold load_archive in Hl. do 2 inv_bind Hl.
    repeat case_match; unfold ret, raise in Hl; by simplify_eq. }
  inv_bind H. unfold modify in H. simplify_eq. exists a.
  destruct w1; simpl in *. by subst.
Qed.

Lemma _read_budgets_padeops_only_terms (ks : gmap string (Z * Z)) (tidx : option Z) :
  preserves (only_terms (map_to_list ks).*1) (_read_budgets_padeops ks tidx).
Proof.
  unfold _read_budgets_padeops. apply preserves_bind; [apply _| |intros t].
  - intros w a w' H k _. unfold resolve_tidx in H. inv_bind H.
    destruct tidx; [|by unfold ret in H; simplify_eq].
    case_bool_decide; [by unfold ret in H; simplify_eq|].
    do 2 inv_bind H. by unfold ret in H; simplify_eq.
  - apply preserves_for_each_in; [apply _|]. intros k Hk. by apply load_term_only_terms.
Qed.

Lemma _read_budgets_archive_only_terms (fmt : format) (ks : gmap string (Z * Z)) :
  preserves (only_terms (map_to_list ks).*1) (_read_budgets_archive fmt ks).
Proof.
  unfold _read_budgets_archive. apply preserves_for_each_in; [apply _|].
  intros k Hk w [] w' H k' Hk'.
  apply archive_load_Ok in H as [arr ->]. simpl.
  apply lookup_insert_ne. by intros ->.
Qed.

Lemma _read_budgets_archive_stays_at (t : option Z) (fmt : format) (ks : gmap string (Z * Z)) :
  preserves (stays_at t) (_read_budgets_archive fmt ks).
Proof.
  unfold _read_budgets_archive. apply preserves_for_each; [apply _|].
  intros k w [] w' H Ht. apply archive_load_Ok in H as [arr ->]. exact Ht.
Qed.

(** A load without a time index continues at the index of the cache. *)
Lemma _read_budgets_padeops_None_stays_at (t : option Z) (ks : gmap string (Z * Z)) :
  preserves (stays_at t) (_read_budgets_padeops ks None).
Proof.
  intros w [] w' H Ht. unfold _read_budgets_padeops in H.
  apply bind_Ok in H as (t' & w1 & Hres & H).
  unfold resolve_tidx in Hres. inv_bind Hres. unfold ret in Hres. simplify_eq.
  assert (Hp : preserves (stays_at (budget_tidx (self w1)))
                 (for_each (map_to_list ks).*1 (load_term (budget_tidx (self w1))))).
  { apply preserves_for_each; [apply _|]. intros k. apply load_term_stays_at. }
  by apply (Hp _ _ _ H).
Qed.

Lemma calc_wake_with_stays_at (t : option Z)
    (rb : terms_arg -> bool -> option Z -> M unit) (offline wInflow overwrite : bool) :
  (forall a, preserves (stays_at t) (rb a false None)) ->
  preserves (stays_at t) (calc_wake_with rb offline wInflow overwrite).
Proof.
  intros Hrb. unfold calc_wake_with.
  pose proof (read_only_stays_at t _ (_get_inflow_ro offline wInflow)).
  assert (forall k, preserves (stays_at t) (cached k)).
  { intros k. apply read_only_stays_at. unfold cached. frame. }
  assert (forall k a, preserves (stays_at t) (store k a)).
  { intros k a w [] w' ->%store_Ok Ht. exact Ht. }
  assert (forall e, preserves (stays_at t) (emit e)).
  { intros e. apply read_only_stays_at, emit_read_only. }
  repeat first
    [ done
    | apply preserves_ret | apply preserves_raise | apply preserves_get_self
    | apply preserves_from_option
    | apply preserves_bind
    | progress cbv zeta
    | match goal with
      | |- PreOrder _ => apply _
      | |- forall _, preserves _ _ => intros ?
      | |- preserves _ (if ?b then _ else _) => destruct b
      | |- preserves _ (match ?x with _ => _ end) => destruct x
      end ].
Qed.

Lemma read_budgets_fuel_None_stays_at (t : option Z) (fuel : nat) (budget_terms : terms_arg) :
  preserves (stays_at t) (read_budgets_fuel fuel budget_terms false None).
Proof.
  revert budget_terms. induction fuel as [|fuel IH]; intros budget_terms; simpl.
  - by apply preserves_raise.
  - pose proof (calc_wake_with_stays_at t (read_budgets_fuel fuel) false false false IH).
    pose proof (read_only_stays_at t _ (_parse_budget_terms_ro budget_terms false)).
    unfold _read_budgets_npz, _read_budgets_mat.
    repeat first
      [ assumption
      | apply _read_budgets_padeops_None_stays_at
      | apply _read_budgets_archive_stays_at
      | apply preserves_ret | apply preserves_raise | apply preserves_get_self
      | apply preserves_bind
      | match goal with
        | |- PreOrder _ => apply _
        | |- forall _, preserves _ _ => intros ?
        | |- preserves _ (if ?b then _ else _) => destruct b
        | |- preserves _ (match ?x with _ => _ end) => destruct x
        end ].
Qed.

Lemma bind_get_self {B} (f : BudgetIO -> M B) (w : world) :
  bind get_self f w = f (self w) w.
Proof. done. Qed.

Lemma bind_get_fs {B} (f : filesystem -> M B) (w : world) :
  bind get_fs f w = f (fs w) w.
Proof. done. Qed.

(** The last step of [read_budgets]: the load by the session's backend. *)
Definition backend_load (ks : gmap string (Z * Z)) (tidx : option Z) : M unit :=
  s <- get_self ;;
  if associate_padeops s then _read_budgets_padeops ks tidx
  else if associate_npz s then _read_budgets_npz ks
  else if associate_mat s then _read_budgets_mat ks
  else raise AttributeError.

Lemma clear_budgets_Ok (w w' : world) :
  associate_budgets (self w) = true ->
  clear_budgets w = Ok (tt, w') ->
  cache_only w w' /\ budget (self w') = ∅.
Proof.
  intros Ha H. split; [by eapply clear_budgets_cache|].
  unfold clear_budgets in H. rewrite bind_get_self, Ha in H. simpl in H.
  apply bind_Ok in H as ([] & w0 & Hm & H). unfold modify in Hm.
  apply bind_Ok in H as (t & w1 & Ht & H).
  destruct (unique_tidx_last_ro _ _ _ _ Ht) as [_ Hs].
  unfold modify in H. simplify_eq/=. by rewrite Hs.
Qed.

Lemma backend_load_only_terms (ks : gmap string (Z * Z)) (tidx : option Z) :
  preserves (only_terms (map_to_list ks).*1) (backend_load ks tidx).
Proof.
  unfold backend_load, _read_budgets_npz, _read_budgets_mat.
  apply preserves_bind; [apply _|apply preserves_get_self; apply _|intros s].
  repeat case_match;
    first [ apply _read_budgets_padeops_only_terms
          | apply _read_budgets_archive_only_terms
          | apply preserves_raise ].
Qed.

Lemma read_budgets_fuel_S (fuel : nat) (budget_terms : terms_arg)
    (overwrite : bool) (tidx : option Z) :
  read_budgets_fuel (S fuel) budget_terms overwrite tidx =
  (s <- get_self ;;
   if negb (associate_budgets s) then raise AttributeError
   else
     (if asks_wake budget_terms
      then calc_wake_with (read_budgets_fuel fuel) false false false
      else ret tt) ;;;
     key_subset <- _parse_budget_terms budget_terms false ;;
     s <- get_self ;;
     key_subset <-
       (if bool_decide (budget_tidx s = tidx) then
          if negb overwrite then
            ret (filter (fun kv => budget s !! kv.1 = None) key_subset)
          else clear_budgets ;;; ret key_subset
        else
          match tidx with
          | Some _ => clear_budgets ;;; ret key_subset
          | None => ret key_subset
          end) ;;
     backend_load key_subset tidx).
Proof. done. Qed.

Lemma resolve_tidx_Some (t : Z) (w w1 : world) (r : option Z) :
  resolve_tidx (Some t) w = Ok (r, w1) ->
  exists tv, r = Some tv /\ fs w1 = fs w /\ self w1 = self w.
Proof.
  unfold resolve_tidx. rewrite bind_get_self.
  case_bool_decide.
  - intros [= <- <-]. eauto.
  - intros Hr. apply bind_Ok in Hr as (c & w0 & [_ Hw]%from_option_Ok & Hr). simpl in Hw.
    apply bind_Ok in Hr as ([] & w2 & Hem & Hr). unfold emit in Hem. unfold ret in Hr.
    simplify_eq/=. eauto.
Qed.

Lemma is_budget_file_cache_only (w w' : world) (k : string) (tv : Z) (path : string) :
  cache_only w w' -> is_budget_file w' k tv path -> is_budget_file w k tv path.
Proof.
  intros [Hfs (b & t & n & Hs)] (bt & Hk & Hg). exists bt. split; [done|].
  by rewrite Hfs, Hs in Hg.
Qed.

Lemma fortran_order_of_cache_only (w w' : world) (flat : list float) (arr : Np.array3) :
  cache_only w w' -> fortran_order_of w' flat arr -> fortran_order_of w flat arr.
Proof.
  intros [Hfs (b & t & n & Hs)]. unfold fortran_order_of. by rewrite Hs.
Qed.

(** C2: a [read_budgets] at an explicit time index other than the cache's
    empties the cache before it loads: the load by the backend starts from
    a session whose cache is empty, so afterwards every cached term is one
    of the terms selected by this call, and on the raw backend all of them
    come from budget files of one time index. *)
Theorem read_budgets_single_tidx
    (budget_terms : terms_arg) (overwrite : bool) (t : Z) (w w' : world) :
  read_budgets budget_terms overwrite (Some t) w = Ok (tt, w') ->
  budget_tidx (self w) <> Some t ->
  exists ks w0,
    cache_only w w0 /\ budget (self w0) = ∅
    /\ backend_load ks (Some t) w0 = Ok (tt, w')
    /\ (forall k, is_Some (budget (self w') !! k) -> is_Some (ks !! k))
    /\ (associate_padeops (self w) = true ->
        exists tv, forall k arr, budget (self w') !! k = Some arr ->
          exists path flat,
            is_budget_file w k tv path
            /\ fs w !! path = Some (Doubles flat)
            /\ fortran_order_of w flat arr).
Proof.
  unfold read_budgets. rewrite read_budgets_fuel_S. intros H Hne.
  rewrite bind_get_self in H.
  destruct (associate_budgets (self w)) eqn:Hassoc; [|done].
  cbv beta iota delta [negb] in H.
  apply bind_Ok in H as ([] & w1 & Hwake & H).
  apply bind_Ok in H as (ks0 & w2 & Hparse & H).
  rewrite bind_get_self in H.
  assert (Hc1 : cache_only w w1).
  { destruct (asks_wake budget_terms).
    - eapply calc_wake_with_cache; [|done]. intros. apply read_budgets_fuel_cache.
    - unfold ret in Hwake. simplify_eq. reflexivity. }
  assert (Ht1 : budget_tidx (self w1) = budget_tidx (self w)).
  { destruct (asks_wake budget_terms).
    - eapply (calc_wake_with_stays_at (budget_tidx (self w))); [|done..].
      intros. apply read_budgets_fuel_None_stays_at.
    - unfold ret in Hwake. by simplify_eq. }
  destruct (_parse_budget_terms_ro _ _ _ _ _ Hparse) as [Hfs2 Hself2].
  rewrite Hself2, Ht1 in H.
  rewrite bool_decide_false in H by done.
  apply bind_Ok in H as (ks & w3 & Hclear & H).
  apply bind_Ok in Hclear as ([] & w4 & Hclear & Hret).
  unfold ret in Hret. simplify_eq.
  assert (Hc2 : cache_only w w2).
  { etrans; [done|]. apply read_only_cache_only. by split. }
  apply clear_budgets_Ok in Hclear as [Hc3 Hempty].
  2:{ destruct Hc2 as [_ (b & t' & n & ->)]. done. }
  assert (Hc : cache_only w w3) by (by etrans).

  exists ks, w3. split_and!; try done.
  - intros k [arr Hk].
    destruct (decide (k ∈ (map_to_list ks).*1)) as [Hin|Hnin].
    + apply list_elem_of_fmap in Hin as ([k' bt] & -> & Hin).
      apply elem_of_map_to_list in Hin. by exists bt.
    + pose proof (backend_load_only_terms ks (Some t) _ _ _ H k Hnin) as Hsame.
      rewrite Hempty, lookup_empty in Hsame. congruence.
  - intros Hpade.
    assert (Hpade3 : associate_padeops (self w3) = true).
    { destruct Hc as [_ (b & t' & n & ->)]. done. }
    unfold backend_load in H. rewrite bind_get_self, Hpade3 in H.
    unfold _read_budgets_padeops in H.
    apply bind_Ok in H as (r & w4 & Hres & H).
    apply resolve_tidx_Some in Hres as (tv & -> & Hfs4 & Hself4).
    assert (Hc4 : cache_only w w4).
    { etrans; [exact Hc|]. apply read_only_cache_only. by split. }
    apply load_terms_Ok in H as (_ & _ & Hother & _ & _ & Hloaded);
      [|apply NoDup_fst_map_to_list].
    exists tv. intros k arr Hk.
    destruct (decide (k ∈ (map_to_list ks).*1)) as [Hin|Hnin].
    + destruct (Hloaded k Hin) as (tv' & path & flat & arr' & [= <-] & Hfile & Hpath & Hb & Hord).
      exists path, flat. rewrite Hk in Hb. simplify_eq. split_and!.
      * by eapply is_budget_file_cache_only.
      * destruct Hc4 as [<- _]. done.
      * by eapply fortran_order_of_cache_only.
    + rewrite (Hother k Hnin), Hself4, Hempty, lookup_empty in Hk. done.
Qed.

(** ** Discovery of the budgets *)

Lemma le_sorted_NoDup_lt (l : list Z) :
  StronglySorted Z.le l -> NoDup l -> StronglySorted Z.lt l.
Proof.
  induction 1 as [|x l Hs IH Hall]; intros Hnd; [constructor|].
  apply NoDup_cons in Hnd as [Hx Hnd]. constructor; [by apply IH|].
  rewrite Forall_forall in Hall |- *. intros y Hy.
  specialize (Hall y Hy). assert (x <> y) by (by intros ->). lia.
Qed.

(** [np.unique]: the distinct values, in strictly ascending order. *)
Lemma unique_spec (l : list Z) :
  StronglySorted Z.lt (Np.unique l) /\ forall x, x ∈ Np.unique l <-> x ∈ l.
Proof.
  unfold Np.unique. split.
  - apply le_sorted_NoDup_lt.
    + apply StronglySorted_merge_sort; apply _.
    + rewrite merge_sort_Permutation. apply NoDup_remove_dups.
  - intros x. rewrite merge_sort_Permutation. apply elem_of_remove_dups.
Qed.



Lemma map_M_from_option_Ok {A B} (e : exn) (f : A -> option B)
    (l : list A) (w w' : world) (r : list B) :
  map_M (fun x => from_option e (f x)) l w = Ok (r, w') ->
  w' = w /\ Forall2 (fun x y => f x = Some y) l r.
Proof.
  revert r. induction l as [|x l IH]; intros r H; simpl in H.
  - unfold ret in H. simplify_eq. by split.
  - apply bind_Ok in H as (y & w1 & [Hy Hw]%from_option_Ok & H). simpl in *. subst w1.
    apply bind_Ok in H as (ys & w2 & Hys & H). unfold ret in H. simplify_eq.
    apply IH in Hys as [-> Hys]. split; [done|]. by constructor.
Qed.




(** ** Resolution of requested names *)

Lemma filter_Name (P : term -> Prop) `{!forall t, Decision (P t)} (l : list string) :
  filter P (Name <$> l) = Name <$> filter (fun n => P (Name n)) l.
Proof.
  induction l as [|n l IH]; [done|].
  rewrite fmap_cons, !filter_cons.
  destruct (decide (P (Name n))); rewrite ?fmap_cons, IH; done.
Qed.

Lemma remove_dups_Name (l : list string) :
  remove_dups (Name <$> l) = Name <$> remove_dups l.
Proof.
  induction l as [|n l IH]; [done|].
  rewrite fmap_cons. cbn [remove_dups].
  destruct (decide_rel elem_of (Name n) (Name <$> l)) as [Hin|Hnin];
    destruct (decide_rel elem_of n l) as [Hin'|Hnin']; rewrite ?fmap_cons, ?IH; try done.
  - apply list_elem_of_fmap in Hin as (n' & Heq & ?). by simplify_eq.
  - exfalso. apply Hnin. apply list_elem_of_fmap. eauto.
Qed.

Lemma names_of_Name (l : list string) : names_of (Name <$> l) = l.
Proof. induction l; simpl; [done|by f_equal]. Qed.

Lemma pairs_of_Name (l : list string) : pairs_of (Name <$> l) = [].
Proof. by induction l. Qed.

Lemma key_of_term_registered (t : term) :
  in_key t = true ->
  exists n bt, t = Name n /\ key_get n = Some bt
    /\ forall w, key_of_term t w = Ok ((n, bt), w).
Proof.
  destruct t as [n|b t]; simpl; [|done].
  intros [bt Hbt]%bool_decide_eq_true. exists n, bt. split_and!; try done.
  intros w. unfold bind, from_option. by rewrite Hbt.
Qed.

Lemma map_M_pure {A B} (f : A -> M B) (g : A -> B) (l : list A) (w : world) :
  (forall x, x ∈ l -> f x w = Ok (g x, w)) ->
  map_M f l w = Ok (g <$> l, w).
Proof.
  induction l as [|x l IH]; intros Hf; simpl; [done|].
  unfold bind. rewrite Hf by (by left). fold (@bind (list B) (list B)).
  unfold bind. rewrite IH; [done|]. intros y Hy. apply Hf. by right.
Qed.

(** The table entry of a registered name; [("", (0, 0))] stands for the
    [KeyError] of an unregistered term and is never used. *)
Definition entry_of_term (t : term) : string * (Z * Z) :=
  match t with
  | Name n => (n, default (0, 0) (key_get n))
  | Pair _ _ => ("", (0, 0))
  end.

Lemma key_of_term_entry (t : term) (w : world) :
  in_key t = true -> key_of_term t w = Ok (entry_of_term t, w).
Proof.
  intros (n & bt & -> & Hbt & Hk)%key_of_term_registered.
  rewrite Hk. simpl. by rewrite Hbt.
Qed.

Lemma entries_fst (l : list string) : (entry_of_term <$> (Name <$> l)).*1 = l.
Proof. induction l as [|n l IH]; [done|]. rewrite !fmap_cons, IH. done. Qed.

(** C8: for a list of requested names, [_parse_budget_terms] returns the
    table of exactly the names that are registered and exist on the
    backend, each with its pair of the key table; the registered names
    that do not exist are reported as missing and the unregistered ones as
    invalid, both left out; every requested name is in exactly one of the
    three classes; and the call returns for every list, once the terms
    found on the backend are known and registered.  (A budget file whose
    pair the key table does not hold makes [existing_terms], and with it
    every call, raise [KeyError].) *)
Theorem parse_budget_terms_partition
    (names : list string) (include_wakes : bool) (w w1 : world)
    (existing : list term) :
  existing_terms None include_wakes w = Ok (existing, w1) ->
  Forall (fun t => in_key t = true) existing ->
  let missing := filter (fun n => (Name n ∉ existing) /\ is_Some (key_get n)) names in
  let invalid := filter (fun n => key_get n = None) names in
  exists ks w',
    _parse_budget_terms (Terms (Name <$> names)) include_wakes w = Ok (ks, w')
    /\ fs w' = fs w /\ self w' = self w
    /\ (forall n, is_Some (ks !! n)
          <-> n ∈ names /\ is_Some (key_get n) /\ Name n ∈ existing)
    /\ (forall n bt, ks !! n = Some bt -> key_get n = Some bt)
    /\ out w' = out w1
         ++ (if decide (size ks = 0%nat) then [WarnNoKeys] else [])
         ++ (if decide (missing = []) then [] else [WarnMissing (remove_dups missing)])
         ++ (if decide (invalid = []) then [] else [WarnInvalid (Name <$> invalid)])
    /\ (forall n, n ∈ names ->
          (is_Some (ks !! n) /\ (n ∉ missing) /\ (n ∉ invalid))
          \/ (ks !! n = None /\ (n ∈ missing) /\ (n ∉ invalid))
          \/ (ks !! n = None /\ (n ∉ missing) /\ (n ∈ invalid))).
Proof.
  intros Hex Hreg missing invalid.
  destruct (existing_terms_ro _ _ _ _ _ Hex) as [Hfs1 Hself1].
  rewrite Forall_forall in Hreg.
  set (valid := remove_dups (filter (fun n => Name n ∈ existing) names)).
  set (ks := list_to_map (entry_of_term <$> (Name <$> valid)) : gmap string (Z * Z)).
  assert (Hlook : forall n bt, ks !! n = Some bt
            <-> n ∈ names /\ Name n ∈ existing /\ key_get n = Some bt).
  { intros n bt. unfold ks. rewrite <- elem_of_list_to_map.
    - rewrite <- list_fmap_compose, list_elem_of_fmap. unfold valid. split.
      + intros (n' & [= -> ->] & [Hn' Hin]%elem_of_remove_dups%list_elem_of_filter).
        split_and!; try done.
        destruct (key_of_term_registered _ (Hreg _ Hn')) as (? & bt & [= <-] & -> & _).
        done.
      + intros (Hin & Hn & Hbt). exists n. simpl. rewrite Hbt. split; [done|].
        apply elem_of_remove_dups, list_elem_of_filter. done.
    - rewrite entries_fst. apply NoDup_remove_dups. }
  set (warn := (if decide (size ks = 0%nat) then [WarnNoKeys] else [])
         ++ (if decide (missing = []) then [] else [WarnMissing (remove_dups missing)])
         ++ (if decide (invalid = []) then [] else [WarnInvalid (Name <$> invalid)])).
  exists ks, (mkWorld (fs w1) (self w1) (out w1 ++ warn)).
  split_and!; try done.
  - unfold _parse_budget_terms. rewrite bind_get_self.
    unfold bind at 1. unfold ret at 1. unfold bind at 1. rewrite Hex.
    unfold bind at 1.
    rewrite (map_M_pure _ (fun t => (entry_of_term t).2)).
    2:{ intros t Ht. unfold bind. by rewrite key_of_term_entry by auto. }
    unfold bind at 1. unfold partition_terms.
    rewrite pairs_of_Name, !filter_nil. simpl map_M at 1 2.
    unfold bind at 1. unfold ret at 1. unfold bind at 1. unfold ret at 1.
    rewrite !app_nil_r. rewrite !filter_Name, !remove_dups_Name. fold valid.
    unfold bind at 1.
    rewrite (map_M_pure _ entry_of_term).
    2:{ intros t (n & -> & [Hn _]%elem_of_remove_dups%list_elem_of_filter)%list_elem_of_fmap.
        apply key_of_term_entry. auto. }
    unfold ret at 1. cbn [key_subset missing_terms invalid_terms]. fold ks.
    rewrite !names_of_Name, !length_fmap.
    assert (Hmiss : filter (fun n => (Name n ∉ existing) /\ in_key (Name n) = true) names
                    = missing).
    { apply list_filter_iff. intros n. simpl. by rewrite bool_decide_eq_true. }
    assert (Hinv : filter (fun n => in_key (Name n) = false /\ in_inverse (Name n) = false) names
                   = invalid).
    { apply list_filter_iff. intros n. simpl. rewrite bool_decide_eq_false.
      rewrite <- eq_None_not_Some. naive_solver. }
    rewrite Hmiss, Hinv.
    unfold warn, bind, emit, ret.
    assert (Hrd : forall l : list string, length (remove_dups l) = 0%nat <-> l = []).
    { intros l. split; [|by intros ->].
      intros Hl%nil_length_inv. destruct l as [|x l]; [done|].
      assert (x ∈ remove_dups (x :: l)) as Hx by (apply elem_of_remove_dups; left).
      rewrite Hl in Hx. by apply elem_of_nil in Hx. }
    destruct (decide (size ks = 0%nat)); simpl;
      destruct (decide (length (remove_dups missing) = 0%nat)) as [Hm|Hm]; simpl;
      destruct (decide (missing = [])) as [Hm'|Hm']; try (by apply Hrd in Hm); try (by apply Hrd in Hm');
      destruct (decide (length invalid = 0%nat)) as [Hi|Hi]; simpl;
      destruct (decide (invalid = [])) as [Hi'|Hi']; try (by apply nil_length_inv in Hi);
        try (by subst invalid; rewrite Hi' in Hi);
      rewrite ?app_nil_r, <- ?app_assoc; try done.
    all: by destruct w1.
  - intros n. split.
    + intros [bt (? & ? & Hbt)%Hlook]. by rewrite Hbt.
    + intros (Hin & [bt Hbt] & Hex'). exists bt. by apply Hlook.
  - intros n bt Hn. by apply Hlook in Hn as (_ & _ & ?).
  - intros n Hn. unfold missing, invalid.
    destruct (key_get n) as [bt|] eqn:Hk.
    + destruct (decide (Name n ∈ existing)) as [Hin|Hnin].
      * left. split_and!.
        -- exists bt. by apply Hlook.
        -- rewrite list_elem_of_filter. naive_solver.
        -- rewrite list_elem_of_filter. naive_solver.
      * right; left. split_and!.
        -- apply eq_None_not_Some. intros [bt' (_ & ? & _)%Hlook]. done.
        -- rewrite list_elem_of_filter. rewrite Hk. eauto.
        -- rewrite list_elem_of_filter. rewrite Hk. naive_solver.
    + right; right. split_and!.
      * apply eq_None_not_Some. intros [bt' (_ & _ & ?)%Hlook]. congruence.
      * rewrite list_elem_of_filter. rewrite Hk. intros [[_ []] _]. done.
      * rewrite list_elem_of_filter. by rewrite Hk.
Qed.

Lemma key_inverse_registered (tup : Z * Z) (n : string) :
  n ∈ key_inverse tup -> is_Some (key_get n).
Proof.
  unfold key_inverse, key_get.
  intros ([n' tup'] & -> & [_ Hin]%list_elem_of_filter)%list_elem_of_fmap.
  simpl. destruct (filter (fun e => e.1 = n') key) as [|e l] eqn:Hf.
  2:{ simpl. by eexists. }
  assert ((n', tup') ∈ filter (fun e : string * (Z * Z) => e.1 = n') key) as Hx
    by (by apply list_elem_of_filter).
  rewrite Hf in Hx. by apply elem_of_nil in Hx.
Qed.

(** On the raw backend every term found is registered: its name is read
    off the key table. *)
Lemma existing_terms_padeops_registered
    (budget_arg : option (list Z)) (include_wakes : bool)
    (w w1 : world) (existing : list term) :
  associate_padeops (self w) = true ->
  existing_terms budget_arg include_wakes w = Ok (existing, w1) ->
  Forall (fun t => in_key t = true) existing.
Proof.
  intros Hp H. unfold existing_terms in H.
  apply bind_Ok in H as (bl & w2 & Hbl & H).
  assert (Hs2 : self w2 = self w).
  { destruct budget_arg; [by unfold ret in Hbl; simplify_eq|].
    by destruct (existing_budgets_ro _ _ _ Hbl). }
  rewrite bind_get_self, bind_get_fs, Hs2, Hp in H.
  apply bind_Ok in H as (names & w3 & Hnames & H).
  apply map_M_from_option_Ok in Hnames as [-> Hnames].
  apply bind_Ok in H as ([] & w4 & _ & H). unfold ret in H. simplify_eq.
  apply Forall_fmap, Forall_forall. intros n Hn. simpl.
  apply bool_decide_eq_true.
  apply list_elem_of_lookup in Hn as [i Hi].
  destruct (Forall2_lookup_r _ _ _ _ _ Hnames Hi) as (tup & _ & Hhead).
  apply (key_inverse_registered tup). by apply head_Some_elem_of.
Qed.

(** ** Binary64 arithmetic *)

Lemma Prim2SF_zero : Prim2SF 0%float = S754_zero false.
Proof. reflexivity. Qed.

(** [x - 0.0] is [x], bit for bit. *)
Lemma float_sub_zero (x : float) : (x - 0)%float = x.
Proof.
  apply Prim2SF_inj. rewrite FloatAxioms.sub_spec, Prim2SF_zero.
  by destruct (Prim2SF x) as [[]|[]| |[] m e].
Qed.

(** A float that is neither a NaN nor an infinity. *)
Lemma is_finite_spec (x : float) :
  PrimFloat.is_finite x = true ->
  (exists s, Prim2SF x = S754_zero s) \/ (exists s m e, Prim2SF x = S754_finite s m e).
Proof.
  unfold PrimFloat.is_finite, PrimFloat.is_nan, PrimFloat.is_infinity.
  rewrite !FloatAxioms.eqb_spec, FloatAxioms.abs_spec.
  change (Prim2SF infinity) with (S754_infinity false).
  destruct (Prim2SF x) as [s|s| |s m e]; [by eauto|by destruct s|done|by eauto 10].
Qed.

(** [p - p] is [+0.0] for a finite [p]. *)
Lemma float_sub_diag (p : float) :
  PrimFloat.is_finite p = true -> (p - p)%float = 0%float.
Proof.
  intros Hp. apply Prim2SF_inj. rewrite FloatAxioms.sub_spec, Prim2SF_zero.
  destruct (is_finite_spec p Hp) as [[s ->]|(s & m & e & ->)].
  - by destruct s.
  - unfold SF64sub, SFsub. rewrite Z.min_id.
    generalize (cond_Zopp s (Z.pos (shl_align m e e).1)). intros z.
    by rewrite Z.sub_diag.
Qed.

(** [0.0 * step + start] is [start] for a finite [step], unless [start] is
    a zero of the other sign. *)
Lemma float_zero_mul_add (step start : float) :
  PrimFloat.is_finite step = true ->
  start = 0%float \/ (0 <? start)%float = true ->
  (0 * step + start)%float = start.
Proof.
  intros Hs Hstart. apply Prim2SF_inj.
  rewrite FloatAxioms.add_spec, FloatAxioms.mul_spec, Prim2SF_zero.
  assert (Hz : exists s, SF64mul (S754_zero false) (Prim2SF step) = S754_zero s).
  { destruct (is_finite_spec step Hs) as [[s ->]|(s & m & e & ->)]; simpl; eauto. }
  destruct Hz as [s ->].
  destruct Hstart as [->|Hpos].
  - rewrite Prim2SF_zero. by destruct s.
  - rewrite FloatAxioms.ltb_spec, Prim2SF_zero in Hpos.
    destruct (Prim2SF start) as [s'|s'| |s' m e]; done.
Qed.

Lemma of_nat_zero : Np.of_nat 0 = 0%float.
Proof. reflexivity. Qed.

(** ** The grid built from extents and counts *)

(** The step of [np.linspace(start, stop, num)]. *)
Definition linspace_step (start stop : float) (num : nat) : float :=
  ((stop - start) / Np.of_nat (num - 1))%float.

(** An axis that [np.linspace] samples without overflow: at least one
    point; with two points or more, a step that is finite and not zero;
    with a single point, an interval reduced to that point. *)
Definition regular_axis (start stop : float) (num : nat) : Prop :=
  (1 <= num)%nat
  /\ if decide (1 < num)%nat then
       PrimFloat.is_finite (linspace_step start stop num) = true
       /\ PrimFloat.eqb (linspace_step start stop num) 0 = false
     else stop = start /\ PrimFloat.is_finite (stop - start) = true.

Lemma arange_cons (num : nat) :
  Np.arange (S num) = 0%float :: (Np.of_nat <$> seq 1 num).
Proof. done. Qed.

Lemma last_set_last (l : list float) (v : float) :
  l <> [] -> last (Np.set_last l v) = Some v.
Proof.
  intros Hl. unfold Np.set_last. rewrite last_lookup, length_insert.
  apply list_lookup_insert_eq. destruct l; [done|simpl; lia].
Qed.

Lemma head_set_last (l : list float) (v : float) :
  (2 <= length l)%nat -> head (Np.set_last l v) = head l.
Proof.
  intros Hl. unfold Np.set_last. rewrite !head_lookup.
  apply list_lookup_insert_ne. lia.
Qed.

(** The ends of a sampled axis: its first element is [start], its last
    element is [stop]. *)
Lemma linspace_ends (start stop : float) (num : nat) :
  regular_axis start stop num ->
  start = 0%float \/ (0 <? start)%float = true ->
  length (Np.linspace start stop num) = num
  /\ head (Np.linspace start stop num) = Some start
  /\ last (Np.linspace start stop num) = Some stop.
Proof.
  intros [Hnum Hreg] Hstart. unfold Np.linspace.
  destruct num as [|num]; [lia|]. clear Hnum.
  destruct (decide (1 < S num)%nat) as [Hgt|Hle].
  - destruct Hreg as [Hfin Hnz]. unfold linspace_step in Hfin, Hnz.
    rewrite decide_True by lia. rewrite Hnz.
    set (step := ((stop - start) / Np.of_nat (S num - 1))%float) in *.
    set (y := (fun v => (v + start)%float) <$> ((fun v => (v * step)%float) <$> Np.arange (S num))).
    assert (Hlen : length y = S num).
    { unfold y, Np.arange. by rewrite !length_fmap, length_seq. }
    split_and!.
    + unfold Np.set_last. by rewrite length_insert.
    + rewrite head_set_last by lia. unfold y. rewrite arange_cons. simpl.
      f_equal. by apply float_zero_mul_add.
    + apply last_set_last. intros Hy. by rewrite Hy in Hlen.
  - destruct Hreg as [-> Hfin]. assert (num = 0%nat) as -> by lia.
    rewrite decide_False by lia. simpl.
    rewrite float_zero_mul_add by done. done.
Qed.

(** C7: the grid built from the extents and the counts of the namelist has
    spacings [L/n]; its x and y axes start at 0 and end at [L - d]; its z
    axis starts at [dz/2] and ends at [Lz - dz/2]. *)
Theorem load_grid_staggering
    (origin0 : float * float * float) (w w' : world) :
  _load_grid None None None origin0 NormOff w = Ok (tt, w') ->
  associate_grid (self w) && verbose (self w) = false ->
  let s := self w' in
  let ddx := (Lx s / Np.of_nat (nx s))%float in
  let ddy := (Ly s / Np.of_nat (ny s))%float in
  let ddz := (Lz s / Np.of_nat (nz s))%float in
  regular_axis 0 (Lx s - ddx) (nx s) ->
  regular_axis 0 (Ly s - ddy) (ny s) ->
  regular_axis (ddz / 2) (Lz s - ddz / 2) (nz s) ->
  (0 <? ddz / 2)%float = true ->
  dx s = Some ddx /\ dy s = Some ddy /\ dz s = Some ddz
  /\ length (xLine s) = nx s /\ length (yLine s) = ny s /\ length (zLine s) = nz s
  /\ head (xLine s) = Some 0%float /\ last (xLine s) = Some (Lx s - ddx)%float
  /\ head (yLine s) = Some 0%float /\ last (yLine s) = Some (Ly s - ddy)%float
  /\ head (zLine s) = Some (ddz / 2)%float
  /\ last (zLine s) = Some (Lz s - ddz / 2)%float.
Proof.
  intros H Hguard. unfold _load_grid in H.
  rewrite bind_get_self, Hguard in H.
  apply bind_Ok in H as ([] & w1 & Hgrid & H).
  do 6 (let x := fresh "v" in let wx := fresh "w" in
        let Hx := fresh "Hv" in let Hw := fresh "Hw" in
        apply bind_Ok in Hgrid as (x & wx & Hx & Hgrid);
        apply lift_Ok in Hx as [Hx Hw]; simpl in Hx, Hw; subst wx).
  unfold modify in Hgrid. simplify_eq.
  apply bind_Ok in H as ([] & w2 & Ho & H). unfold modify in Ho. simplify_eq.
  apply bind_Ok in H as ([] & w3 & Ha & H). unfold modify in Ha. unfold ret in H.
  simplify_eq. simpl.
  intros Hx Hy Hz Hpos.
  destruct (linspace_ends _ _ _ Hx) as (? & ? & ?); [by left|].
  destruct (linspace_ends _ _ _ Hy) as (? & ? & ?); [by left|].
  destruct (linspace_ends _ _ _ Hz) as (? & ? & ?); [by right|].
  split_and!; done.
Qed.

(** ** Re-centering the grid *)

Lemma isub_zero (l : list float) : Np.isub l 0 = l.
Proof.
  unfold Np.isub. induction l as [|x l IH]; [done|].
  rewrite fmap_cons, IH. by rewrite float_sub_zero.
Qed.

Definition finite_point (p : float * float * float) : Prop :=
  PrimFloat.is_finite p.1.1 = true
  /\ PrimFloat.is_finite p.1.2 = true
  /\ PrimFloat.is_finite p.2 = true.

(** A coordinate shifted by [d] and shifted back. *)
Definition there_and_back (d x : float) : float := (x - d + d)%float.

(** C6, as the code has it: re-centering twice on a finite point [p]
    leaves the session as the first re-centering left it; and from the
    origin [(0, 0, 0)], re-centering on [p] and then resetting gives the
    origin [(0, 0, 0)], clears the flag, and leaves every coordinate [x] as
    [(x - p) + p] in double arithmetic. *)
Theorem normalize_origin_twice_and_reset
    (p : float * float * float) (s : BudgetIO) :
  finite_point p ->
  normalize_origin (Some p) (normalize_origin (Some p) s)
    = normalize_origin (Some p) s
  /\ (origin s = (0, 0, 0)%float ->
      let s' := normalize_origin None (normalize_origin (Some p) s) in
      origin s' = (0, 0, 0)%float
      /\ normalized_xyz s' = false
      /\ xLine s' = there_and_back p.1.1 <$> xLine s
      /\ yLine s' = there_and_back p.1.2 <$> yLine s
      /\ zLine s' = there_and_back p.2 <$> zLine s).
Proof.
  intros (Hx & Hy & Hz). split.
  - unfold normalize_origin at 1. cbn [origin xLine yLine zLine normalize_origin set_axes].
    rewrite !float_sub_diag, !isub_zero by done.
    destruct p as [[px py] pz]. by destruct s.
  - intros Ho. destruct s; simpl in *. subst. simpl.
    rewrite !float_sub_zero. unfold Np.iadd, Np.isub.
    rewrite <- !list_fmap_compose. done.
Qed.

(** ** The wake deficit *)

Lemma zip_with_replicate_r {A B C} (f : A -> B -> C) (l : list A) (c : B) :
  zip_with f l (replicate (length l) c) = (fun x => f x c) <$> l.
Proof. induction l as [|x l IH]; [done|]. simpl. by rewrite IH. Qed.

Lemma mapM_replicate {A B} (f : A -> option B) (n : nat) (x : A) (y : B) :
  f x = Some y -> mapM f (replicate n x) = Some (replicate n y).
Proof.
  intros Hf. induction n as [|n IH]; [done|].
  simpl. rewrite Hf. simpl. by rewrite IH.
Qed.

(** A profile minus a constant field: the profile, less the constant, over
    every column. *)
Lemma profile_minus_full (u : list float) (nx ny : nat) (c : float) :
  Np.profile_minus u (Np.full nx ny (length u) c)
  = Some (Np.Array3 (nx, ny, length u)
            (replicate nx (replicate ny ((fun x => (x - c)%float) <$> u)))).
Proof.
  unfold Np.profile_minus, Np.profile_op, Np.full. simpl.
  unfold Np.bcast_dim. rewrite decide_True by done. simpl.
  rewrite (mapM_replicate _ _ _ (replicate ny ((fun x => (x - c)%float) <$> u))); [done|].
  apply mapM_replicate. unfold Np.bcast_last.
  rewrite decide_True by (by rewrite length_replicate).
  by rewrite zip_with_replicate_r.
Qed.

Lemma get3_replicate (nx ny : nat) (row : list float) (dims : nat * nat * nat)
    (i j k : nat) :
  (i < nx)%nat -> (j < ny)%nat ->
  Np.get3 (Np.Array3 dims (replicate nx (replicate ny row))) i j k = row !! k.
Proof.
  intros Hi Hj. unfold Np.get3. simpl.
  rewrite lookup_replicate_2 by done. simpl.
  by rewrite lookup_replicate_2 by done.
Qed.

Lemma bind_run {A B} (m : M A) (f : A -> M B) (w w1 : world) (a : A) :
  m w = Ok (a, w1) -> bind m f w = f a w1.
Proof. intros H. unfold bind. by rewrite H. Qed.

Lemma cached_run (k : string) (a : Np.array3) (w : world) :
  budget (self w) !! k = Some a -> cached k w = Ok (a, w).
Proof. intros H. unfold cached. rewrite bind_get_self. unfold from_option. by rewrite H. Qed.

Lemma store_run (k : string) (a : Np.array3) (w : world) :
  store k a w
  = Ok (tt, mkWorld (fs w) (set_budget (<[k := a]> (budget (self w))) (self w)) (out w)).
Proof. done. Qed.

(** C5: with the mean fields [ubar] and [vbar] cached as constant arrays
    [C] and [D] and an inflow that evaluates to the height profiles [Iu]
    and [Iv], [calc_wake] caches [uwake[i, j, k] = Iu[k] - C] and
    [vwake[i, j, k] = Iv[k] - D]; and with every target wake term cached
    ([wwake] among them when [wInflow] is set), a call without [overwrite]
    returns with the session and the files as they were, a warning apart. *)
Theorem calc_wake_deficit
    (offline wInflow overwrite : bool) (C D : float) (Iu Iv : list float)
    (n1 n2 : nat) (w w1 : world) :
  (budget (self w) !! "ubar" = Some (Np.full n1 n2 (length Iu) C) ->
   budget (self w) !! "vbar" = Some (Np.full n1 n2 (length Iu) D) ->
   _get_inflow offline false w = Ok ((Iu, Iv, None), w1) ->
   budget (self w) !! "uwake" = None \/ budget (self w) !! "vwake" = None
     \/ overwrite = true ->
   exists w' uwake vwake,
     calc_wake offline false overwrite w = Ok (tt, w')
     /\ budget (self w') !! "uwake" = Some uwake
     /\ budget (self w') !! "vwake" = Some vwake
     /\ budget (self w') !! "ubar" = budget (self w) !! "ubar"
     /\ budget (self w') !! "vbar" = budget (self w) !! "vbar"
     /\ forall i j k, (i < n1)%nat -> (j < n2)%nat -> (k < length Iu)%nat ->
          exists iu iv, Iu !! k = Some iu /\ Iv !! k = Some iv
            /\ Np.get3 uwake i j k = Some (iu - C)%float
            /\ Np.get3 vwake i j k = Some (iv - D)%float)
  /\ (is_Some (budget (self w) !! "uwake") ->
      is_Some (budget (self w) !! "vwake") ->
      (wInflow = true -> is_Some (budget (self w) !! "wwake")) ->
      calc_wake offline wInflow false w
        = Ok (tt, mkWorld (fs w) (self w) (out w ++ [WarnWakeComputed]))).
Proof.
  split.
  - intros Hu Hv Hin Hfresh.
    destruct (_get_inflow_ro _ _ _ _ _ Hin) as [Hfs1 Hself1].
    assert (Hlen : length Iv = length Iu).
    { unfold _get_inflow in Hin. rewrite bind_get_self, bind_get_fs in Hin.
      apply bind_Ok in Hin as (uv & w2 & _ & Hin). simpl in Hin.
      apply bind_Ok in Hin as ([] & w3 & Hst & Hin). unfold ret in Hin.
      unfold stack_rows in Hst. case_bool_decide as Hall; [|done].
      simplify_eq. by inversion Hall. }
    unfold calc_wake, calc_wake_with. rewrite bind_get_self. cbn [forallb app].
    assert (Hc : bool_decide (is_Some (budget (self w) !! "uwake"))
                 && (bool_decide (is_Some (budget (self w) !! "vwake")) && true)
                 && negb overwrite = false).
    { destruct Hfresh as [Hn|[Hn| ->]]; rewrite ?Hn; simpl;
        rewrite ?bool_decide_false by (by intros [? ?]); simpl;
        rewrite ?andb_false_r; done. }
    rewrite Hc, Hu, Hv.
    rewrite !bool_decide_true by done. cbn [andb].
    rewrite (bind_run (ret tt) _ w w tt) by done.
    rewrite (bind_run _ _ _ _ _ Hin). cbn [fst snd].
    rewrite (bind_run (ret tt) _ w1 w1 tt) by done.
    assert (Hu1 : budget (self w1) !! "ubar" = Some (Np.full n1 n2 (length Iu) C))
      by (by rewrite Hself1).
    rewrite (bind_run _ _ _ _ _ (cached_run _ _ _ Hu1)).
    rewrite profile_minus_full.
    rewrite (bind_run (from_option _ (Some _)) _ w1 w1 _) by done.
    rewrite (bind_run _ _ _ _ _ (store_run _ _ _)).
    set (uw := Np.Array3 (n1, n2, length Iu)
                 (replicate n1 (replicate n2 ((fun x => (x - C)%float) <$> Iu)))).
    set (w2 := mkWorld (fs w1) (set_budget (<["uwake" := uw]> (budget (self w1))) (self w1)) (out w1)).
    assert (Hv2 : budget (self w2) !! "vbar" = Some (Np.full n1 n2 (length Iv) D)).
    { unfold w2. cbn [self budget set_budget set_cache].
      rewrite lookup_insert_ne by done. by rewrite Hself1, Hlen. }
    rewrite (bind_run _ _ _ _ _ (cached_run _ _ _ Hv2)).
    rewrite profile_minus_full.
    rewrite (bind_run (from_option _ (Some _)) _ w2 w2 _) by done.
    rewrite store_run.
    eexists _, _, _. split; [done|].
    unfold w2. cbn [self budget set_budget set_cache]. rewrite Hself1.
    rewrite lookup_insert_eq, lookup_insert_ne, lookup_insert_eq by done.
    rewrite !lookup_insert_ne by done.
    split_and!; try done.
    intros i j k Hi Hj Hk.
    destruct (lookup_lt_is_Some_2 Iu k Hk) as [iu Hiu].
    destruct (lookup_lt_is_Some_2 Iv k) as [iv Hiv]; [lia|].
    exists iu, iv. unfold uw.
    rewrite !get3_replicate, !list_lookup_fmap, Hiu, Hiv by done.
    done.
  - intros Hu Hv Hw. unfold calc_wake, calc_wake_with. rewrite bind_get_self.
    destruct wInflow; cbn [forallb app];
      rewrite !bool_decide_true by auto; done.
Qed.


(** ** Writing archives *)

Lemma get_xids_ro (xlim ylim zlim : option lim) :
  preserves read_only (get_xids xlim ylim zlim).
Proof. unfold get_xids. frame. Qed.

Lemma slice_cache (budget_terms : terms_arg) (tidx : option Z)
    (xlim ylim zlim : option lim) (overwrite : bool) :
  preserves cache_only (slice budget_terms tidx xlim ylim zlim overwrite).
Proof.
  pose proof (preserves_weaken _ (get_xids_ro xlim ylim zlim)).
  pose proof (preserves_weaken _ (_parse_budget_terms_ro budget_terms false)).
  unfold slice.
  repeat first
    [ assumption
    | apply read_budgets_fuel_cache
    | frame_step ].
Qed.

(** The writer of a format. *)
Definition writer (fmt : format) :=
  match fmt with npz => write_npz | mat => write_mat end.

(** The two files of a write: the budgets container and the metadata
    record. *)
Definition destination (fmt : format) (write_dir filename_arg : option string)
    (s : BudgetIO) : string :=
  default (dir_name s) write_dir +:+ Os.sep +:+ default (filename s) filename_arg
    +:+ "_budgets." +:+ ext fmt.

Definition destination_meta (fmt : format) (write_dir filename_arg : option string)
    (s : BudgetIO) : string :=
  path_join (default (dir_name s) write_dir)
    (default (filename s) filename_arg +:+ "_metadata." +:+ ext fmt).

(** The head of both writers, up to the test of the destination: the keys
    to save and the slices they are taken from. *)
Definition selection (fmt : format) (budget_terms : terms_arg)
    (xlim ylim zlim : option lim) : M (list string * slices) :=
  match fmt with
  | npz =>
      s <- get_self ;;
      let current := match budget_terms with
                     | Shortcut sc => bool_decide (sc = "current")
                     | Terms _ => false
                     end in
      key_subset <-
        (if current then ret (Terms (Name <$> (map_to_list (budget s)).*1))
         else ks <- _parse_budget_terms budget_terms false ;;
              ret (Terms (Name <$> (map_to_list ks).*1))) ;;
      sl <- slice key_subset None xlim ylim zlim false ;;
      s <- get_self ;;
      ret (if current then (map_to_list (budget s)).*1
           else match key_subset with Terms l => names_of l | _ => [] end, sl)
  | mat =>
      ks <- _parse_budget_terms budget_terms false ;;
      let keys := (map_to_list ks).*1 in
      sl <- slice (Terms (Name <$> keys)) None xlim ylim zlim false ;;
      ret (keys, sl)
  end.

(** The tail of both writers: the test of the destination and the two
    files. *)
Definition finish (fmt : format) (write_dir : string) (filename_arg : option string)
    (overwrite : bool) (ksl : list string * slices) : M unit :=
  s <- get_self ;; fs <- get_fs ;;
  let filename := default (filename s) filename_arg in
  let filepath := write_dir +:+ Os.sep +:+ filename +:+ "_budgets." +:+ ext fmt in
  if negb (path_exists fs filepath) then
    save_budgets fmt write_dir filename filepath ksl.1 ksl.2
  else if overwrite then
    (emit WarnOverwriting ;;;
     save_budgets fmt write_dir filename filepath ksl.1 ksl.2)
  else emit WarnExistingFiles.

Lemma writer_selection (fmt : format) (write_dir : option string)
    (budget_terms : terms_arg) (filename_arg : option string) (overwrite : bool)
    (xlim ylim zlim : option lim) (w : world) :
  associate_budgets (self w) = true ->
  writer fmt write_dir budget_terms filename_arg overwrite xlim ylim zlim w
  = bind (selection fmt budget_terms xlim ylim zlim)
      (finish fmt (default (dir_name (self w)) write_dir) filename_arg overwrite) w.
Proof.
  intros Hb. destruct fmt; unfold writer, write_npz, write_mat, selection, finish.
  - rewrite bind_get_self, Hb. cbn [negb]. unfold bind, get_self, get_fs, ret.
    cbn [ext String.app]. cbv zeta.
    destruct budget_terms as [sc|l].
    + destruct (bool_decide (sc = "current")).
      * destruct (slice _ _ _ _ _ _ _) as [[sl w1]|]; done.
      * destruct (_parse_budget_terms _ _ _) as [[ks w0]|]; [|done].
        destruct (slice _ _ _ _ _ _ _) as [[sl w1]|]; done.
    + destruct (_parse_budget_terms _ _ _) as [[ks w0]|]; [|done].
      destruct (slice _ _ _ _ _ _ _) as [[sl w1]|]; done.
  - rewrite bind_get_self, Hb. cbn [negb]. unfold bind, get_self, get_fs, ret.
    cbn [ext String.app]. cbv zeta.
    destruct (_parse_budget_terms _ _ _) as [[ks w0]|]; [|done].
    destruct (slice _ _ _ _ _ _ _) as [[sl w1]|]; done.
Qed.

Lemma selection_cache (fmt : format) (budget_terms : terms_arg)
    (xlim ylim zlim : option lim) :
  preserves cache_only (selection fmt budget_terms xlim ylim zlim).
Proof.
  pose proof (preserves_weaken _ (_parse_budget_terms_ro budget_terms false)).
  unfold selection.
  repeat first
    [ assumption
    | apply slice_cache
    | frame_step ].
Qed.

Lemma save_arrs_Ok (sl : slices) (keys : list string) (w w' : world)
    (r : list (string * Np.array3)) :
  map_M (fun k => a <- from_option KeyError (sl_fields sl !! k) ;; ret (k, a)) keys w
    = Ok (r, w') ->
  w' = w
  /\ Forall (fun k => is_Some (sl_fields sl !! k)) keys
  /\ forall k, (list_to_map r : gmap string Np.array3) !! k
       = if bool_decide (k ∈ keys) then sl_fields sl !! k else None.
Proof.
  revert r. induction keys as [|k0 keys IH]; intros r H; simpl in H.
  - unfold ret in H. simplify_eq. split_and!; [done|constructor|].
    intros k. rewrite bool_decide_false by set_solver. done.
  - apply bind_Ok in H as ([k1 a] & w1 & Hk & H).
    apply bind_Ok in Hk as (a' & w2 & [Ha Hw]%from_option_Ok & Hk).
    unfold ret in Hk. simpl in *. simplify_eq.
    apply bind_Ok in H as (ys & w2 & Hys & H). unfold ret in H. simplify_eq.
    apply IH in Hys as (-> & Hall & Hlk). split_and!; [done|by constructor|].
    intros k. simpl. destruct (decide (k = k1)) as [->|Hne].
    + rewrite lookup_insert_eq, bool_decide_true by set_solver. done.
    + rewrite lookup_insert_ne, Hlk by done.
      rewrite (bool_decide_ext (k ∈ k1 :: keys) (k ∈ keys)) by set_solver. done.
Qed.

Lemma turbine_series_ro (num : nat) : preserves read_only (turbine_series num).
Proof. unfold turbine_series. frame. Qed.

Lemma write_metadata_Ok (write_dir fname : string) (src : format)
    (x y z : list float) (w w' : world) :
  write_metadata write_dir fname src x y z w = Ok (tt, w') ->
  exists md,
    fs w' = <[path_join write_dir (fname +:+ "_metadata." +:+ ext src) := Metadata src md]> (fs w)
    /\ self w' = self w
    /\ md_input_nml md = input_nml (self w)
    /\ md_x md = x /\ md_y md = y /\ md_z md = z
    /\ md_origin md = origin (self w).
Proof.
  unfold write_metadata. rewrite bind_get_self. intros H.
  apply bind_Ok in H as ([ta series] & w1 & Ht & H).
  assert (Hro : read_only w w1).
  { match type of Ht with ?m w = _ => assert (Hp : preserves read_only m) end.
    { pose proof turbine_series_ro. frame. }
    by eapply Hp. }
  destruct Hro as [Hfs Hself].
  unfold write_file in H. simplify_eq. simpl.
  eexists. rewrite Hfs, Hself. split_and!; done.
Qed.

Lemma save_budgets_Ok (fmt : format) (write_dir filename filepath : string)
    (keys : list string) (sl : slices) (w w' : world) :
  save_budgets fmt write_dir filename filepath keys sl w = Ok (tt, w') ->
  exists arrs md,
    fs w' = <[path_join write_dir (filename +:+ "_metadata." +:+ ext fmt) := Metadata fmt md]>
              (<[filepath := Archive fmt arrs]> (fs w))
    /\ self w' = self w
    /\ Forall (fun k => is_Some (sl_fields sl !! k)) keys
    /\ (forall k, arrs !! k = if bool_decide (k ∈ keys) then sl_fields sl !! k else None)
    /\ md_input_nml md = input_nml (self w)
    /\ md_x md = sl_x sl /\ md_y md = sl_y sl /\ md_z md = sl_z sl
    /\ md_origin md = origin (self w).
Proof.
  unfold save_budgets. intros H.
  apply bind_Ok in H as (r & w1 & (-> & Hall & Hlk)%save_arrs_Ok & H).
  apply bind_Ok in H as ([] & w2 & Hw & H). unfold write_file in Hw. simplify_eq.
  apply write_metadata_Ok in H as (md & Hfs & Hself & Hmd). simpl in *.
  exists (list_to_map r), md. split_and!; try done; tauto.
Qed.

Lemma cache_only_fields (w w1 : world) :
  cache_only w w1 ->
  fs w1 = fs w /\ dir_name (self w1) = dir_name (self w)
  /\ filename (self w1) = filename (self w)
  /\ input_nml (self w1) = input_nml (self w)
  /\ origin (self w1) = origin (self w).
Proof. intros [Hfs (b & t & n & ->)]. by destruct (self w). Qed.

(** C4: a writer called on a session without associated budgets writes
    nothing; on a session with budgets, once the arrays are selected, a
    destination that exists is left alone together with every other file
    unless [overwrite] is passed, and the call returns with a warning; and
    when the call returns for a destination that does not exist, or with
    [overwrite], the files are those before the call with the budgets
    container and the metadata record added, the container holding the
    slice of every selected key. *)
Theorem write_whole_or_nothing
    (fmt : format) (write_dir : option string) (budget_terms : terms_arg)
    (filename_arg : option string) (overwrite : bool)
    (xlim ylim zlim : option lim) (w : world) :
  let dest := destination fmt write_dir filename_arg (self w) in
  let meta := destination_meta fmt write_dir filename_arg (self w) in
  let write :=
    writer fmt write_dir budget_terms filename_arg overwrite xlim ylim zlim in
  (associate_budgets (self w) = false ->
     write w = Ok (tt, mkWorld (fs w) (self w)
                         (out w ++ [WarnNoBudgetsAssociated fmt])))
  /\ (forall keys sl w1,
        associate_budgets (self w) = true ->
        selection fmt budget_terms xlim ylim zlim w = Ok ((keys, sl), w1) ->
        path_exists (fs w) dest = true -> overwrite = false ->
        write w = Ok (tt, mkWorld (fs w) (self w1)
                            (out w1 ++ [WarnExistingFiles])))
  /\ (forall w',
        associate_budgets (self w) = true ->
        path_exists (fs w) dest = false \/ overwrite = true ->
        write w = Ok (tt, w') ->
        exists keys sl w1 arrs md,
          selection fmt budget_terms xlim ylim zlim w = Ok ((keys, sl), w1)
          /\ fs w' = <[meta := Metadata fmt md]> (<[dest := Archive fmt arrs]> (fs w))
          /\ Forall (fun k => is_Some (sl_fields sl !! k)) keys
          /\ (forall k, arrs !! k
                = if bool_decide (k ∈ keys) then sl_fields sl !! k else None)
          /\ md_input_nml md = input_nml (self w)
          /\ md_x md = sl_x sl /\ md_y md = sl_y sl /\ md_z md = sl_z sl
          /\ md_origin md = origin (self w)).
Proof.
  intros dest meta write. split_and!.
  - intros Hb. unfold write, writer.
    destruct fmt; unfold write_npz, write_mat; rewrite bind_get_self, Hb; done.
  - intros keys sl w1 Hb Hsel Hex ->. unfold write.
    rewrite writer_selection by done. rewrite (bind_run _ _ _ _ _ Hsel).
    apply selection_cache, cache_only_fields in Hsel as (Hfs & Hd & Hf & _).
    unfold finish. rewrite bind_get_self, bind_get_fs. cbv zeta.
    rewrite Hfs, Hf. fold (destination fmt write_dir filename_arg (self w)).
    fold dest. rewrite Hex. cbn [negb]. unfold emit. by rewrite Hfs.
  - intros w' Hb Hgo Hw. unfold write in Hw.
    rewrite writer_selection in Hw by done.
    apply bind_Ok in Hw as ([keys sl] & w1 & Hsel & Hw).
    exists keys, sl, w1.
    pose proof Hsel as Hc.
    apply selection_cache, cache_only_fields in Hc as (Hfs & Hd & Hf & Hn & Ho).
    unfold finish in Hw. rewrite bind_get_self, bind_get_fs in Hw. cbv zeta in Hw.
    rewrite Hfs, Hf in Hw. fold (destination fmt write_dir filename_arg (self w)) in Hw.
    fold dest in Hw.
    assert (Hsave : exists w2, fs w2 = fs w /\ self w2 = self w1
              /\ save_budgets fmt (default (dir_name (self w)) write_dir)
                   (default (filename (self w)) filename_arg) dest keys sl w2
                 = Ok (tt, w')).
    { destruct (path_exists (fs w) dest) eqn:Hex; cbn [negb] in Hw.
      - destruct Hgo as [?| ->]; [done|].
        apply bind_Ok in Hw as ([] & w2 & Hemit & Hw). unfold emit in Hemit.
        simplify_eq. eexists. split_and!; [| |exact Hw]; done.
      - exists w1. done. }
    destruct Hsave as (w2 & Hfs2 & Hself2 & Hsave).
    apply save_budgets_Ok in Hsave as (arrs & md & Hfs' & _ & Hall & Hlk & Hmd).
    exists arrs, md. rewrite Hself2, Hn, Ho, Hfs2 in *.
    split_and!; try done; tauto.
Qed.

(** * Further properties of the two modules *)

(** ** [TurbineArray]: sorting again *)

Lemma StronglySorted_rev {A} (R : relation A) (l : list A) :
  StronglySorted R l -> StronglySorted (flip R) (rev l).
Proof.
  induction 1 as [|x l Hs IH Hall]; simpl; [constructor|].
  apply StronglySorted_app_2; [|done|repeat constructor].
  intros x1 x2 H1 H2. apply list_elem_of_singleton in H2 as ->.
  rewrite <- (Permutation_rev l) in H1. unfold flip. rewrite Forall_forall in Hall. by apply Hall.
Qed.

(** X1: [set_sort] gives every turbine the new sort field and keeps the
    turbines, the deprecated [array] and the count; with [sort] the
    sequence comes out in ascending order of the new keys, in descending
    order with [reverse], and without [sort] the order is the one before. *)
Theorem TurbineArray_set_sort_sorted
    (sort_by : string) (sort reverse : bool) (ta : TurbineArray) :
  (forall a b, key_lt a b = true -> key_lt b a = false) ->
  (forall a b c, key_lt b a = false -> key_lt c b = false -> key_lt c a = false) ->
  let ta' := TurbineArray_set_sort sort_by sort reverse ta in
  ta_sort_by ta' = sort_by
  /\ ta_array ta' = ta_array ta
  /\ ta_num_turbines ta' = ta_num_turbines ta
  /\ Forall (fun t => t_sort_by t = sort_by) (ta_turbines ta')
  /\ ta_turbines ta' ≡ₚ Turbine_set_sort sort_by <$> ta_turbines ta
  /\ (if sort then
        StronglySorted
          (fun a b => if reverse
                      then key_lt (Turbine_key a) (Turbine_key b) = false
                      else key_lt (Turbine_key b) (Turbine_key a) = false)
          (ta_turbines ta')
      else ta_turbines ta' = Turbine_set_sort sort_by <$> ta_turbines ta).
Proof.
  intros Hasym Htrans ta'.
  assert (Hall : Forall (fun t => t_sort_by t = sort_by)
                   (Turbine_set_sort sort_by <$> ta_turbines ta)).
  { apply Forall_fmap, Forall_forall. done. }
  assert (Hsorted : forall l, StronglySorted (not_after Turbine_lt) (stable_sort Turbine_lt l)).
  { intros l. apply (stable_sort_sorted Turbine_lt); unfold not_after, Turbine_lt.
    - intros a b. apply Hasym.
    - intros a b c. apply Htrans. }
  unfold ta', TurbineArray_set_sort, TurbineArray_sort.
  destruct sort; cbn [ta_sort_by ta_array ta_num_turbines ta_turbines].
  - split_and!; try done.
    + by rewrite list_sort_perm.
    + apply list_sort_perm.
    + unfold list_sort. destruct reverse.
      * apply (StronglySorted_rev _ _ (Hsorted _)).
      * apply Hsorted.
  - split_and!; done.
Qed.

(** ** [TurbineArray]: the turbines of a directory *)

Lemma build_turbines_nml (i num : nat) (sort : string) (l : list nml) :
  t_input_nml <$> build_turbines i num sort l = take (num - i) l.
Proof.
  revert i. induction l as [|x l IH]; intros i; simpl.
  - by rewrite take_nil.
  - case_decide as Hle.
    + by replace (num - i)%nat with 0%nat by lia.
    + destruct (num - i)%nat as [|n] eqn:E; [lia|]. simpl. rewrite IH.
      by replace (num - S i)%nat with n by lia.
Qed.

Lemma read_turbine_files_Ok (fs : filesystem) (dir : string) (l : list nml) :
  read_turbine_files fs dir = Ok l ->
  exists texts,
    Forall2 (fun n t => fs !! (dir +:+ "/" +:+ n) = Some (Text t))
      (list_sort String.ltb false (listdir fs dir)) texts
    /\ l = parser <$> texts.
Proof.
  unfold read_turbine_files.
  revert l. generalize (list_sort String.ltb false (listdir fs dir)).
  intros names. induction names as [|n names IH]; intros l H; simpl in H.
  - exists []. split; [constructor|]. by simplify_eq.
  - destruct (fs !! (dir +:+ "/" +:+ n)) as [[]|] eqn:En; try done;
      try (destruct (foldr _ _ names); done).
    destruct (foldr _ _ names) as [l'|] eqn:Ef; [|done].
    simplify_eq. destruct (IH _ eq_refl) as (texts & Hall & ->).
    exists (text :: texts). split; [by constructor|done].
Qed.

Lemma read_turbine_files_texts (fs : filesystem) (dir : string) (texts : list string) :
  Forall2 (fun n t => fs !! (dir +:+ "/" +:+ n) = Some (Text t))
    (list_sort String.ltb false (listdir fs dir)) texts ->
  read_turbine_files fs dir = Ok (parser <$> texts).
Proof.
  unfold read_turbine_files.
  generalize (list_sort String.ltb false (listdir fs dir)).
  intros names. induction 1 as [|n t names texts Hn _ IH]; [done|].
  simpl. by rewrite Hn, IH.
Qed.

(** X2: a [TurbineArray] built from a directory alone reads every entry of the
    directory in ascending order of the names.  When the constructor
    returns, every entry was read as a text file, [array] holds the parsed
    namelists up to [num_turbines], and the turbines are built from the same
    namelists.  It does return when every entry is a text file and the
    number of turbines is not one (for one turbine it goes on to the
    [actuator_disk] group of the first namelist).  A directory without
    entries gives an array without turbines, except that with
    [num_turbines=1] the look-up of the first turbine raises
    [IndexError]. *)
Theorem TurbineArray_init_from_directory
    (fs : filesystem) (dir : string) (num_turbines : option nat)
    (ADM_type : Z) (verbose : bool) (sort : string) :
  let names := list_sort String.ltb false (listdir fs dir) in
  let init := TurbineArray_init fs (Some dir) num_turbines None None
                ADM_type verbose sort in
  (forall ta, init = Ok (Built ta) ->
     exists texts,
       Forall2 (fun n t => fs !! (dir +:+ "/" +:+ n) = Some (Text t)) names texts
       /\ ta_turb_dir ta = dir
       /\ ta_num_turbines ta = default (length names) num_turbines
       /\ ta_array ta = take (ta_num_turbines ta) (parser <$> texts)
       /\ t_input_nml <$> ta_turbines ta ≡ₚ ta_array ta)
  /\ (forall texts,
        Forall2 (fun n t => fs !! (dir +:+ "/" +:+ n) = Some (Text t)) names texts ->
        default (length names) num_turbines <> 1%nat ->
        exists ta, init = Ok (Built ta))
  /\ (listdir fs dir = [] ->
      init = if decide (num_turbines = Some 1%nat) then Raise IndexError
             else Ok (Built (mkTurbineArray verbose sort ADM_type dir
                               (default 0%nat num_turbines) [] [] []))).
Proof.
  intros names init. unfold init, TurbineArray_init. cbn [default length].
  rewrite decide_True by done. split_and!.
  - intros ta H.
    destruct (read_turbine_files fs dir) as [l|] eqn:Hread; [|done].
    apply read_turbine_files_Ok in Hread as (texts & Hall & ->).
    exists texts. split; [done|].
    assert (Hlen : length (parser <$> texts) = length names).
    { rewrite length_fmap. symmetry. by eapply Forall2_length. }
    cbn [app] in H. rewrite Hlen in H.
    set (num := default (length names) num_turbines) in *.
    assert (Hnml : t_input_nml <$> list_sort Turbine_lt false
                     (build_turbines 0 num sort (parser <$> texts))
                   ≡ₚ take num (parser <$> texts)).
    { rewrite list_sort_perm, build_turbines_nml. by rewrite Nat.sub_0_r. }
    unfold TurbineArray_sort in H. cbn [ta_turbines ta_array ta_verbose ta_sort_by
      ta_ADM_type ta_turb_dir ta_num_turbines ta_convenience] in H.
    destruct (decide (num = 1%nat)).
    + destruct (list_sort Turbine_lt _ _) eqn:E; [done|].
      destruct (actuator_disk _); [|done]. simplify_eq. simpl.
      split_and!; done.
    + simplify_eq. simpl. split_and!; done.
  - intros texts Hall Hnum.
    rewrite (read_turbine_files_texts _ _ _ Hall). cbn [app].
    assert (Hlen : length (parser <$> texts) = length names).
    { rewrite length_fmap. symmetry. by eapply Forall2_length. }
    rewrite Hlen. rewrite decide_False by done. by eexists.
  - intros Hnil. unfold read_turbine_files. rewrite Hnil. cbn.
    by destruct num_turbines as [[|[|n]]|].
Qed.

(** ** [BudgetIO]: the time indices of a directory *)

Lemma last_sorted_max (l : list Z) (t : Z) :
  StronglySorted Z.le l -> last l = Some t ->
  t ∈ l /\ forall t', t' ∈ l -> t' <= t.
Proof.
  clear set_iter. intros Hs Hl. apply last_Some in Hl as [l' ->]. split; [set_solver|].
  intros t' [Hin|Hin%list_elem_of_singleton]%elem_of_app; [|lia].
  eapply StronglySorted_app_1_elem_of; [exact Hs|exact Hin|set_solver].
Qed.

Lemma merge_sort_le_sorted (l : list Z) : StronglySorted Z.le (merge_sort Z.le l).
Proof.
  apply StronglySorted_merge_sort; [intros x y z; lia|intros x y; lia].
Qed.

Lemma last_merge_sort (l : list Z) :
  l <> [] ->
  exists t, last (merge_sort Z.le l) = Some t /\ t ∈ l /\ forall t', t' ∈ l -> t' <= t.
Proof.
  intros Hne.
  destruct (last (merge_sort Z.le l)) as [t|] eqn:E.
  - exists t. split; [done|].
    destruct (last_sorted_max _ _ (merge_sort_le_sorted l) E) as [Hin Hmax].
    split.
    + by rewrite merge_sort_Permutation in Hin.
    + intros t' Ht'. apply Hmax. by rewrite merge_sort_Permutation.
  - apply last_None in E. destruct Hne.
    apply Permutation_nil_r. by rewrite <- (merge_sort_Permutation Z.le l), E.
Qed.

(** X3: [unique_tidx] in its two modes: off the raw backend both return
    [None]; on it, a directory where no name matches raises
    [FileNotFoundError] in both, and otherwise [return_last=True] returns
    the largest captured index, which is the last element of the strictly
    ascending list of the distinct captured indices that
    [return_last=False] returns.  Neither changes anything. *)
Theorem unique_tidx_last_of_all (search : Z -> Re.regex) (w : world) :
  let found := captured (search (runid (self w)))
                 (listdir (fs w) (dir_name (self w))) in
  (associate_padeops (self w) = false ->
     unique_tidx_last search w = Ok (None, w)
     /\ unique_tidx_all search w = Ok (None, w))
  /\ (associate_padeops (self w) = true -> found = [] ->
     unique_tidx_last search w = Raise FileNotFoundError
     /\ unique_tidx_all search w = Raise FileNotFoundError)
  /\ (associate_padeops (self w) = true -> found <> [] ->
     exists t l,
       unique_tidx_last search w = Ok (Some t, w)
       /\ unique_tidx_all search w = Ok (Some l, w)
       /\ last l = Some t
       /\ StronglySorted Z.lt l
       /\ (forall x, x ∈ l <-> x ∈ found)
       /\ forall x, x ∈ found -> x <= t).
Proof.
  intros found. unfold unique_tidx_last, unique_tidx_all.
  rewrite !bind_get_self, !bind_get_fs. fold found. split_and!.
  - by intros ->.
  - intros -> Hnil. rewrite Hnil. done.
  - intros -> Hne. cbn [negb].
    destruct (last_merge_sort found Hne) as (t & Hlast & Hin & Hmax).
    rewrite Hlast. rewrite decide_False by (by destruct found).
    exists t, (Np.unique found). split_and!; try done.
    + destruct (unique_spec found) as [Hs Hel].
      assert (Hne' : Np.unique found <> []).
      { intros E. apply Hel in Hin. rewrite E in Hin. by apply not_elem_of_nil in Hin. }
      destruct (last (Np.unique found)) as [u|] eqn:Eu;
        [|by apply last_None in Eu].
      f_equal.
      assert (Hsle : StronglySorted Z.le (Np.unique found)).
      { clear -Hs. induction Hs as [|x l Hs IH Hall]; constructor; [done|].
        eapply Forall_impl; [exact Hall|]. intros; simpl in *; lia. }
      destruct (last_sorted_max _ _ Hsle Eu) as [Hu Humax].
      apply Hel in Hu. apply Hel in Hin.
      specialize (Hmax u Hu). specialize (Humax t Hin). lia.
    + apply unique_spec.
    + apply unique_spec.
Qed.

(** ** [BudgetIO]: clearing the cache *)

Lemma unique_tidx_last_run (search : Z -> Re.regex) (w : world) :
  unique_tidx_last search w
  = if negb (associate_padeops (self w)) then Ok (None, w)
    else match last (merge_sort Z.le
                       (captured (search (runid (self w)))
                          (listdir (fs w) (dir_name (self w))))) with
         | None => Raise FileNotFoundError
         | Some t => Ok (Some t, w)
         end.
Proof.
  unfold unique_tidx_last. rewrite bind_get_self, bind_get_fs.
  destruct (negb _); [done|]. by destruct (last _).
Qed.

Lemma clear_budgets_run (w : world) :
  associate_budgets (self w) = true ->
  clear_budgets w
  = match unique_tidx_last pat_budget_tidx
            (mkWorld (fs w) (set_budget ∅ (self w)) (out w)) with
    | Ok (t, _) =>
        Ok (tt, mkWorld (fs w) (set_cache ∅ t (budget_n (self w)) (self w)) (out w))
    | Raise e => Raise e
    end.
Proof.
  intros Ha. unfold clear_budgets. rewrite bind_get_self, Ha. cbn [negb].
  unfold bind at 1. unfold modify at 1. unfold bind at 1. unfold unique_budget_tidx.
  rewrite unique_tidx_last_run. cbn [self fs out].
  destruct (negb _); [done|]. by destruct (last _).
Qed.

(** X4: [clear_budgets] leaves a session without budgets alone; otherwise it
    empties the cache and moves [budget_tidx] to the largest time index of
    the budget files of the directory ([None] off the raw backend), while
    [budget_n], the files and everything else stay; on the raw backend a
    directory without budget files raises [FileNotFoundError]. *)
Theorem clear_budgets_resets (w : world) :
  let found := captured (pat_budget_tidx (runid (self w)))
                 (listdir (fs w) (dir_name (self w))) in
  (associate_budgets (self w) = false -> clear_budgets w = Ok (tt, w))
  /\ (associate_budgets (self w) = true -> associate_padeops (self w) = false ->
      clear_budgets w
      = Ok (tt, mkWorld (fs w) (set_cache ∅ None (budget_n (self w)) (self w)) (out w)))
  /\ (associate_budgets (self w) = true -> associate_padeops (self w) = true ->
      found = [] -> clear_budgets w = Raise FileNotFoundError)
  /\ (associate_budgets (self w) = true -> associate_padeops (self w) = true ->
      found <> [] ->
      exists t,
        clear_budgets w
        = Ok (tt, mkWorld (fs w) (set_cache ∅ (Some t) (budget_n (self w)) (self w)) (out w))
        /\ t ∈ found /\ forall t', t' ∈ found -> t' <= t).
Proof.
  intros found.
  assert (Hfound : captured (pat_budget_tidx (runid (set_budget ∅ (self w))))
                     (listdir (fs w) (dir_name (set_budget ∅ (self w)))) = found) by done.
  split_and!.
  - intros Ha. unfold clear_budgets. rewrite bind_get_self, Ha. by destruct w.
  - intros Ha Hp. rewrite clear_budgets_run, unique_tidx_last_run by done.
    cbn [self fs out]. change (associate_padeops (set_budget ∅ (self w)))
      with (associate_padeops (self w)). by rewrite Hp.
  - intros Ha Hp Hnil. rewrite clear_budgets_run, unique_tidx_last_run by done.
    cbn [self fs out]. change (associate_padeops (set_budget ∅ (self w)))
      with (associate_padeops (self w)). rewrite Hp, Hfound, Hnil. done.
  - intros Ha Hp Hne.
    destruct (last_merge_sort found Hne) as (t & Hlast & Hin & Hmax).
    exists t. split; [|done].
    rewrite clear_budgets_run, unique_tidx_last_run by done.
    cbn [self fs out]. change (associate_padeops (set_budget ∅ (self w)))
      with (associate_padeops (self w)). rewrite Hp, Hfound, Hlast. done.
Qed.

(** ** [BudgetIO]: reading an archive *)

Definition archive_path (fmt : format) (s : BudgetIO) : string :=
  dir_name s +:+ Os.sep +:+ filename_budgets s +:+ "." +:+ ext fmt.

Lemma load_archive_run (fmt : format) (arrs : gmap string Np.array3) (w : world) :
  fs w !! archive_path fmt (self w) = Some (Archive fmt arrs) ->
  load_archive fmt w = Ok (arrs, w).
Proof.
  intros H. unfold load_archive. rewrite bind_get_self, bind_get_fs.
  unfold archive_path in H. rewrite H. by rewrite decide_True.
Qed.

(** The loop of the archive readers over a list of keys. *)
Lemma archive_loop_run (fmt : format) (arrs : gmap string Np.array3)
    (keys : list string) (w : world) :
  fs w !! archive_path fmt (self w) = Some (Archive fmt arrs) ->
  Forall (fun k => is_Some (arrs !! k)) keys ->
  exists b,
    for_each keys (fun k =>
      arrs <- load_archive fmt ;;
      arr <- from_option KeyError (arrs !! k) ;;
      modify (fun s => set_budget (<[k := arr]> (budget s)) s)) w
    = Ok (tt, mkWorld (fs w) (set_budget b (self w)) (out w))
    /\ forall k, b !! k = if bool_decide (k ∈ keys) then arrs !! k
                          else budget (self w) !! k.
Proof.
  revert w. induction keys as [|k0 keys IH]; intros w Hfile Hall.
  - exists (budget (self w)). split.
    + simpl. unfold ret, set_budget. rewrite set_cache_id. by destruct w.
    + intros k. by rewrite bool_decide_false by set_solver.
  - inversion Hall as [|? ? [a Ha] Hall']; subst.
    set (w1 := mkWorld (fs w) (set_budget (<[k0 := a]> (budget (self w))) (self w)) (out w)).
    destruct (IH w1) as (b & Hrun & Hb); [by destruct (self w)|done|].
    exists b. split.
    + cbn [for_each].
      rewrite (bind_run _ _ w w1 tt).
      * rewrite Hrun. unfold w1. cbn [fs self out]. by destruct (self w).
      * rewrite (bind_run _ _ _ _ _ (load_archive_run _ _ _ Hfile)).
        rewrite Ha. done.
    + intros k. rewrite Hb. unfold w1. cbn [self budget set_budget set_cache].
      destruct (decide (k ∈ keys)) as [Hin|Hin].
      * rewrite !bool_decide_true by set_solver. done.
      * rewrite (bool_decide_false (k ∈ keys)) by done.
        destruct (decide (k = k0)) as [->|Hne].
        -- rewrite lookup_insert_eq, bool_decide_true by set_solver. done.
        -- rewrite lookup_insert_ne by done.
           by rewrite bool_decide_false by set_solver.
Qed.

Lemma archive_loop_KeyError (fmt : format) (arrs : gmap string Np.array3)
    (keys : list string) (w : world) :
  fs w !! archive_path fmt (self w) = Some (Archive fmt arrs) ->
  Exists (fun k => arrs !! k = None) keys ->
  for_each keys (fun k =>
    arrs <- load_archive fmt ;;
    arr <- from_option KeyError (arrs !! k) ;;
    modify (fun s => set_budget (<[k := arr]> (budget s)) s)) w
  = Raise KeyError.
Proof.
  revert w. induction keys as [|k0 keys IH]; intros w Hfile Hex.
  - by apply Exists_nil in Hex.
  - cbn [for_each]. unfold bind at 1. unfold bind at 1.
    rewrite (load_archive_run _ _ _ Hfile).
    destruct (arrs !! k0) as [a|] eqn:Ha; [|done].
    cbn [from_option]. unfold bind at 1. unfold ret at 1. unfold modify at 1.
    apply IH; [by destruct (self w)|].
    apply Exists_cons in Hex as [Hex|Hex]; [congruence|done].
Qed.

(** X5: [_read_budgets_npz] and [_read_budgets_mat] copy the requested keys
    from the archive of the session into the cache: with the archive on
    disk and every requested key in it, the readers return, the requested
    keys hold the arrays of the archive, every other cached term, the time
    index and the files are as before; a requested key that the archive
    does not hold raises [KeyError], and without the archive a request for
    any key raises [FileNotFoundError]. *)
Theorem read_budgets_archive_copies
    (fmt : format) (ks : gmap string (Z * Z)) (w : world) :
  (forall arrs,
     fs w !! archive_path fmt (self w) = Some (Archive fmt arrs) ->
     (forall k, is_Some (ks !! k) -> is_Some (arrs !! k)) ->
     exists w',
       _read_budgets_archive fmt ks w = Ok (tt, w')
       /\ fs w' = fs w /\ out w' = out w
       /\ budget_tidx (self w') = budget_tidx (self w)
       /\ (forall k, is_Some (ks !! k) -> budget (self w') !! k = arrs !! k)
       /\ (forall k, ks !! k = None -> budget (self w') !! k = budget (self w) !! k))
  /\ (forall arrs k,
        fs w !! archive_path fmt (self w) = Some (Archive fmt arrs) ->
        is_Some (ks !! k) -> arrs !! k = None ->
        _read_budgets_archive fmt ks w = Raise KeyError)
  /\ (fs w !! archive_path fmt (self w) = None -> ks <> ∅ ->
        _read_budgets_archive fmt ks w = Raise FileNotFoundError).
Proof.
  assert (Hkeys : forall k, k ∈ (map_to_list ks).*1 <-> is_Some (ks !! k)).
  { intros k. rewrite list_elem_of_fmap. split.
    - intros ([k' v] & -> & Hin). apply elem_of_map_to_list in Hin. by exists v.
    - intros [v Hv]. exists (k, v). split; [done|]. by apply elem_of_map_to_list. }
  split_and!.
  - intros arrs Hfile Hall.
    destruct (archive_loop_run fmt arrs (map_to_list ks).*1 w Hfile) as (b & Hrun & Hb).
    { apply Forall_forall. intros k Hk. by apply Hall, Hkeys. }
    eexists. split; [exact Hrun|]. cbn [fs out self].
    split_and!; try done.
    + intros k Hk. unfold set_budget. cbn [budget set_cache].
      rewrite Hb. by rewrite bool_decide_true by (by apply Hkeys).
    + intros k Hk. unfold set_budget. cbn [budget set_cache].
      rewrite Hb. rewrite bool_decide_false; [done|].
      intros Hin%Hkeys. rewrite Hk in Hin. by destruct Hin.
  - intros arrs k Hfile Hk Hnone.
    apply (archive_loop_KeyError fmt arrs); [done|].
    apply Exists_exists. exists k. split; [by apply Hkeys|done].
  - intros Hnone Hne. unfold _read_budgets_archive.
    destruct (map_to_list ks).*1 as [|k0 keys] eqn:E.
    + destruct Hne. apply map_to_list_empty_iff. by apply fmap_nil_inv in E.
    + cbn [for_each]. unfold bind at 1. unfold bind at 1.
      unfold load_archive. rewrite bind_get_self, bind_get_fs.
      unfold archive_path in Hnone. by rewrite Hnone.
Qed.

(** ** [BudgetIO]: the terms of a run directory *)

Lemma map_M_inverse_name_run (tups : list (Z * Z)) (w : world) :
  Forall (fun tup => key_inverse tup <> []) tups ->
  exists names,
    map_M inverse_name tups w = Ok (names, w)
    /\ Forall2 (fun tup n => head (key_inverse tup) = Some n) tups names.
Proof.
  induction 1 as [|tup tups Hne _ (names & Hrun & Hall)].
  - exists []. split; [done|constructor].
  - destruct (key_inverse tup) as [|n ns] eqn:E; [done|].
    exists (n :: names). split; [|constructor; [by rewrite E|done]].
    cbn [map_M]. unfold bind at 1. unfold inverse_name at 1. rewrite E.
    cbn [head from_option]. unfold ret at 1. unfold bind at 1. by rewrite Hrun.
Qed.

Lemma map_M_inverse_name_KeyError (tups : list (Z * Z)) (w : world) :
  Exists (fun tup => key_inverse tup = []) tups ->
  map_M inverse_name tups w = Raise KeyError.
Proof.
  induction tups as [|tup tups IH]; intros Hex; [by apply Exists_nil in Hex|].
  cbn [map_M]. unfold bind at 1. unfold inverse_name at 1.
  destruct (key_inverse tup) as [|n ns] eqn:E; [done|].
  cbn [head from_option]. unfold ret at 1. unfold bind at 1.
  rewrite IH; [done|]. apply Exists_cons in Hex as [Hex|Hex]; [congruence|done].
Qed.

(** The [(budget, term)] pairs that [existing_terms] finds in the names
    of a run directory for a list of budgets: budget by budget in the order
    of the list, the terms of one budget in the order in which their set
    yields them. *)
Definition found_pairs (s : BudgetIO) (filenames : list string)
    (include_wakes : bool) (budget_list : list Z) : list (Z * Z) :=
  mjoin ((fun b =>
    let terms := captured (pat_term (runid s) b) filenames in
    ((fun t => (b, t)) <$> set_iter terms)
    ++ (if include_wakes && bool_decide (b = 5) then
          let terms0 := captured (pat_term (runid s) 0) filenames in
          (fun t => (b, t)) <$> filter (fun t => t ∈ terms0) [1; 2; 3]
        else [])) <$> budget_list).

(** X6: on the raw backend, [existing_terms] for a list of budgets names every
    pair it finds in the directory by the first name the key table gives
    it, one name for each pair and in the order of the pairs, and changes
    nothing; one budget file whose pair is not in the key table makes the
    whole call raise [KeyError].  The pairs are those of the requested
    budgets whose term number is captured from a file name, and with
    [include_wakes] the wake pairs [(5, 1)], [(5, 2)], [(5, 3)] whose term
    has a file in budget 0; the order of the terms of one budget is that
    of the set, which is left open. *)
Theorem existing_terms_raw
    (budget_list : list Z) (include_wakes : bool) (w : world) :
  let filenames := listdir (fs w) (dir_name (self w)) in
  let tups := found_pairs (self w) filenames include_wakes budget_list in
  associate_padeops (self w) = true ->
  (Forall (fun tup => key_inverse tup <> []) tups ->
   exists names w',
     existing_terms (Some budget_list) include_wakes w = Ok (Name <$> names, w')
     /\ fs w' = fs w /\ self w' = self w
     /\ out w' = out w ++ (if decide (length tups = 0%nat)
                           then [WarnNoTerms (Some budget_list)] else [])
     /\ Forall2 (fun tup n => head (key_inverse tup) = Some n) tups names
     /\ Forall (fun n => is_Some (key_get n)) names)
  /\ (Exists (fun tup => key_inverse tup = []) tups ->
      existing_terms (Some budget_list) include_wakes w = Raise KeyError)
  /\ ((forall l x, x ∈ set_iter l <-> x ∈ l) ->
      forall b t, (b, t) ∈ tups <->
        b ∈ budget_list
        /\ (t ∈ captured (pat_term (runid (self w)) b) filenames
            \/ (include_wakes = true /\ b = 5 /\ t ∈ [1; 2; 3]
                /\ t ∈ captured (pat_term (runid (self w)) 0) filenames))).
Proof.
  intros filenames tups Hp. unfold existing_terms.
  rewrite (bind_run (ret budget_list) _ w w budget_list) by done.
  rewrite bind_get_self, bind_get_fs, Hp. fold filenames.
  fold (found_pairs (self w) filenames include_wakes budget_list). fold tups.
  split_and!.
  - intros Hall. destruct (map_M_inverse_name_run tups w Hall) as (names & Hrun & H2).
    rewrite (bind_run _ _ _ _ _ Hrun).
    assert (Hlen : length (Name <$> names) = length tups).
    { rewrite length_fmap. symmetry. by eapply Forall2_length. }
    rewrite Hlen.
    assert (Hreg : Forall (fun n => is_Some (key_get n)) names).
    { apply Forall_forall. intros n Hn.
      apply list_elem_of_lookup in Hn as [i Hi].
      destruct (Forall2_lookup_r _ _ _ _ _ H2 Hi) as (tup & _ & Hhead).
      apply (key_inverse_registered tup). by apply head_Some_elem_of. }
    destruct (decide (length tups = 0%nat)).
    + eexists names, _. split; [reflexivity|]. cbn [fs self out]. done.
    + eexists names, _. split; [reflexivity|]. cbn [fs self out].
      rewrite app_nil_r. done.
  - intros Hex. unfold bind at 1. by rewrite map_M_inverse_name_KeyError.
  - intros Hset b t. unfold tups, found_pairs. rewrite list_elem_of_join. split.
    + intros (l & Hin & Hl). apply list_elem_of_fmap in Hl as (b' & -> & Hb').
      apply elem_of_app in Hin as [Hin|Hin].
      * apply list_elem_of_fmap in Hin as (t' & [= -> ->] & Ht').
        apply (proj1 (Hset _ _)) in Ht'. auto.
      * destruct include_wakes; [|by apply elem_of_nil in Hin].
        cbn [andb] in Hin. case_bool_decide as Hb5; [|by apply elem_of_nil in Hin].
        apply list_elem_of_fmap in Hin as (t' & [= -> ->] & Ht').
        apply list_elem_of_filter in Ht' as [H0 H123]. auto 10.
    + intros [Hb [Ht|(-> & -> & H123 & H0)]].
      * eexists. split; [|apply list_elem_of_fmap; exists b; split; [reflexivity|done]].
        apply elem_of_app. left. apply list_elem_of_fmap. exists t.
        split; [done|]. by apply (proj2 (Hset _ _)).
      * eexists. split; [|apply list_elem_of_fmap; exists 5; split; [reflexivity|done]].
        apply elem_of_app. right. cbn [andb]. rewrite bool_decide_true by done.
        apply list_elem_of_fmap. exists t. split; [done|].
        by apply list_elem_of_filter.
Qed.

(** ** [BudgetIO]: what [read_budgets] reloads *)

Lemma filter_cached_empty (ks : gmap string (Z * Z)) (b : gmap string Np.array3) :
  (forall k, is_Some (ks !! k) -> is_Some (b !! k)) ->
  filter (fun kv : string * (Z * Z) => b !! kv.1 = None) ks = ∅.
Proof.
  intros H. apply map_empty_filter_2. intros k v Hk Hnone. simpl in Hnone.
  destruct (H k) as [a Ha]; [by exists v|]. congruence.
Qed.

(** X7: a request for terms that are all cached, at the time index of the
    cache and without [overwrite], reads no file: the call returns in the
    world the parse of the terms returned in, with the cache, the session
    and the files as they were. *)
Theorem read_budgets_cache_hit
    (budget_terms : terms_arg) (ks : gmap string (Z * Z)) (w w1 : world) :
  associate_budgets (self w) = true ->
  associate_padeops (self w) || associate_npz (self w) || associate_mat (self w) = true ->
  asks_wake budget_terms = false ->
  _parse_budget_terms budget_terms false w = Ok (ks, w1) ->
  (forall k, is_Some (ks !! k) -> is_Some (budget (self w) !! k)) ->
  (forall t, budget_tidx (self w) = Some t -> t ∈ all_budget_tidx (self w)) ->
  read_budgets budget_terms false (budget_tidx (self w)) w = Ok (tt, w1)
  /\ self w1 = self w /\ fs w1 = fs w.
Proof.
  intros Ha Hback Hwake Hparse Hcached Htidx.
  destruct (_parse_budget_terms_ro _ _ _ _ _ Hparse) as [Hfs Hself].
  split; [|done].
  unfold read_budgets. rewrite read_budgets_fuel_S, bind_get_self, Ha, Hwake.
  cbv beta iota delta [negb].
  rewrite (bind_run (ret tt) _ w w tt) by done.
  rewrite (bind_run _ _ _ _ _ Hparse).
  rewrite bind_get_self, Hself, bool_decide_true by done.
  rewrite (bind_run (ret _) _ w1 w1 _) by done.
  rewrite filter_cached_empty by done.
  unfold backend_load. rewrite bind_get_self, Hself.
  unfold _read_budgets_npz, _read_budgets_mat, _read_budgets_archive, _read_budgets_padeops.
  rewrite map_to_list_empty. cbn [fmap list_fmap for_each].
  destruct (associate_padeops (self w)) eqn:Hp.
  - unfold bind at 1. unfold resolve_tidx. rewrite bind_get_self, Hself.
    destruct (budget_tidx (self w)) as [t|] eqn:Et.
    + rewrite bool_decide_true by (by apply Htidx). done.
    + done.
  - destruct (associate_npz (self w)); [done|].
    destruct (associate_mat (self w)); [done|]. done.
Qed.

(** X8: with [overwrite], a request at the time index of the cache empties the
    cache before it loads: afterwards the cache holds the requested terms
    only, and every other term that was cached is gone. *)
Theorem read_budgets_overwrite_reloads
    (budget_terms : terms_arg) (w w' : world) :
  read_budgets budget_terms true (budget_tidx (self w)) w = Ok (tt, w') ->
  exists ks w0,
    cache_only w w0 /\ budget (self w0) = ∅
    /\ backend_load ks (budget_tidx (self w)) w0 = Ok (tt, w')
    /\ (forall k, is_Some (budget (self w') !! k) -> is_Some (ks !! k))
    /\ fs w' = fs w.
Proof.
  unfold read_budgets. rewrite read_budgets_fuel_S. intros H.
  pose proof (read_budgets_fuel_cache 2 budget_terms true (budget_tidx (self w)) _ _ _ H)
    as [Hfs' _].
  rewrite bind_get_self in H.
  destruct (associate_budgets (self w)) eqn:Hassoc; [|done].
  cbv beta iota delta [negb] in H.
  apply bind_Ok in H as ([] & w1 & Hwake & H).
  apply bind_Ok in H as (ks0 & w2 & Hparse & H).
  rewrite bind_get_self in H.
  assert (Hc1 : cache_only w w1).
  { destruct (asks_wake budget_terms).
    - eapply calc_wake_with_cache; [|done]. intros. apply read_budgets_fuel_cache.
    - unfold ret in Hwake. simplify_eq. reflexivity. }
  assert (Ht1 : budget_tidx (self w1) = budget_tidx (self w)).
  { destruct (asks_wake budget_terms).
    - eapply (calc_wake_with_stays_at (budget_tidx (self w))); [|done..].
      intros. apply read_budgets_fuel_None_stays_at.
    - unfold ret in Hwake. by simplify_eq. }
  destruct (_parse_budget_terms_ro _ _ _ _ _ Hparse) as [Hfs2 Hself2].
  rewrite Hself2, Ht1 in H.
  rewrite bool_decide_true in H by done.
  apply bind_Ok in H as (ks & w3 & Hclear & H).
  apply bind_Ok in Hclear as ([] & w4 & Hclear & Hret).
  unfold ret in Hret. simplify_eq.
  assert (Hc2 : cache_only w w2).
  { etrans; [done|]. apply read_only_cache_only. by split. }
  apply clear_budgets_Ok in Hclear as [Hc3 Hempty].
  2:{ destruct Hc2 as [_ (b & t' & n & ->)]. done. }
  assert (Hc : cache_only w w3) by (by etrans).
  exists ks, w3. split_and!; try done.
  intros k [arr Hk].
  destruct (decide (k ∈ (map_to_list ks).*1)) as [Hin|Hnin].
  - apply list_elem_of_fmap in Hin as ([k' bt] & -> & Hin).
    apply elem_of_map_to_list in Hin. by exists bt.
  - pose proof (backend_load_only_terms ks _ _ _ _ H k Hnin) as Hsame.
    rewrite Hempty, lookup_empty in Hsame. congruence.
Qed.

(** ** [BudgetIO]: what the readers leave alone *)

(** X9: the methods that discover, parse and load never write, delete or
    change a file.  Those that discover and parse ([existing_budgets],
    [existing_terms], [_parse_budget_terms], [unique_tidx]) leave the
    session as it is; those that load ([clear_budgets], the three backends,
    and [read_budgets] for a request without a wake term, which stays clear
    of the inflow) change nothing of the session but its cache: the grid,
    the axes, the origin, the flags and the names stay. *)
Theorem readers_frame :
  preserves read_only existing_budgets
  /\ (forall b iw, preserves read_only (existing_terms b iw))
  /\ (forall bt iw, preserves read_only (_parse_budget_terms bt iw))
  /\ (forall search, preserves read_only (unique_tidx_last search))
  /\ (forall bt ow t, asks_wake bt = false ->
        preserves cache_only (read_budgets bt ow t))
  /\ preserves cache_only clear_budgets
  /\ (forall ks t, preserves cache_only (_read_budgets_padeops ks t))
  /\ (forall fmt ks, preserves cache_only (_read_budgets_archive fmt ks)).
Proof.
  split_and!; intros.
  - apply existing_budgets_ro.
  - apply existing_terms_ro.
  - apply _parse_budget_terms_ro.
  - apply unique_tidx_last_ro.
  - unfold read_budgets. rewrite read_budgets_fuel_S.
    match goal with H : asks_wake _ = false |- _ => rewrite H end.
    pose proof clear_budgets_cache.
    pose proof (preserves_weaken _ (_parse_budget_terms_ro bt false)).
    unfold _read_budgets_npz, _read_budgets_mat.
    repeat first
      [ assumption
      | apply _read_budgets_padeops_cache
      | apply _read_budgets_archive_cache
      | apply preserves_ret | apply preserves_raise | apply preserves_get_self
      | apply preserves_bind
      | match goal with
        | |- PreOrder _ => apply _
        | |- forall _, preserves _ _ => intros ?
        | |- preserves _ (if ?b then _ else _) => destruct b
        | |- preserves _ (match ?x with _ => _ end) => destruct x
        end ].
  - apply clear_budgets_cache.
  - apply _read_budgets_padeops_cache.
  - apply _read_budgets_archive_cache.
Qed.

(** ** [BudgetIO]: a grid from explicit axes *)

Lemma axis_of_line_Ok (xi : list float) :
  xi <> [] ->
  exists hi lo,
    Np.amax xi = Some hi /\ Np.amin xi = Some lo
    /\ axis_of_line xi
       = Ok (xi, (hi - lo)%float,
             match xi with x0 :: x1 :: _ => Some (x1 - x0)%float | _ => None end,
             length xi).
Proof.
  intros Hne. destruct xi as [|x0 [|x1 xi]]; [done| |].
  - eexists _, _. split_and!; reflexivity.
  - eexists _, _. split_and!; reflexivity.
Qed.

(** X10: [_load_grid] with the three axes given: a session that has a grid and
    is verbose is left alone, whatever the arguments; otherwise the axes
    become the ones given, each count is the length of its axis, each
    extent is the largest less the smallest coordinate, each spacing is
    the difference of the first two coordinates (none on a single point),
    the origin is the one given, the cache and the files stay; and an
    empty axis raises [ValueError]. *)
Theorem load_grid_explicit_axes
    (x y z : list float) (origin0 : float * float * float) (w : world) :
  (associate_grid (self w) && verbose (self w) = true ->
     forall x' y' z' n, _load_grid x' y' z' origin0 n w = Ok (tt, w))
  /\ (associate_grid (self w) && verbose (self w) = false ->
      x <> [] -> y <> [] -> z <> [] ->
      exists w',
        _load_grid (Some x) (Some y) (Some z) origin0 NormOff w = Ok (tt, w')
        /\ fs w' = fs w /\ out w' = out w
        /\ budget (self w') = budget (self w)
        /\ associate_grid (self w') = true
        /\ origin (self w') = origin0
        /\ xLine (self w') = x /\ yLine (self w') = y /\ zLine (self w') = z
        /\ nx (self w') = length x /\ ny (self w') = length y
        /\ nz (self w') = length z
        /\ dx (self w') = match x with x0 :: x1 :: _ => Some (x1 - x0)%float | _ => None end
        /\ dy (self w') = match y with y0 :: y1 :: _ => Some (y1 - y0)%float | _ => None end
        /\ dz (self w') = match z with z0 :: z1 :: _ => Some (z1 - z0)%float | _ => None end
        /\ (exists hi lo, Np.amax x = Some hi /\ Np.amin x = Some lo
              /\ Lx (self w') = (hi - lo)%float)
        /\ (exists hi lo, Np.amax y = Some hi /\ Np.amin y = Some lo
              /\ Ly (self w') = (hi - lo)%float)
        /\ (exists hi lo, Np.amax z = Some hi /\ Np.amin z = Some lo
              /\ Lz (self w') = (hi - lo)%float))
  /\ (associate_grid (self w) && verbose (self w) = false ->
      x = [] \/ y = [] \/ z = [] ->
      _load_grid (Some x) (Some y) (Some z) origin0 NormOff w = Raise ValueError).
Proof.
  split_and!.
  - intros Hg x' y' z' n. unfold _load_grid. rewrite bind_get_self, Hg. done.
  - intros Hg Hx Hy Hz. unfold _load_grid. rewrite bind_get_self, Hg.
    destruct (axis_of_line_Ok x Hx) as (hx & lx & Hhx & Hlx & Ex).
    destruct (axis_of_line_Ok y Hy) as (hy & ly & Hhy & Hly & Ey).
    destruct (axis_of_line_Ok z Hz) as (hz & lz & Hhz & Hlz & Ez).
    unfold bind, lift, modify, ret. rewrite Ex, Ey, Ez. cbn [fst snd fs self out].
    eexists. split; [reflexivity|]. cbn [fs self out].
    split_and!; try reflexivity; eauto.
  - intros Hg Hnil. unfold _load_grid. rewrite bind_get_self, Hg.
    unfold bind, lift.
    destruct x as [|x0 x]; [done|].
    destruct (axis_of_line_Ok (x0 :: x)) as (? & ? & _ & _ & ->); [done|].
    destruct y as [|y0 y]; [done|].
    destruct (axis_of_line_Ok (y0 :: y)) as (? & ? & _ & _ & ->); [done|].
    destruct z as [|z0 z]; [done|].
    destruct Hnil as [?|[?|?]]; done.
Qed.

(** ** The wake deficit in the vertical *)

Lemma zip_with_zeros_sub (row : list float) :
  zip_with (fun x y => (y - x)%float) (replicate (length row) 0%float) row = row.
Proof.
  induction row as [|r row IH]; [done|]. simpl. by rewrite IH, float_sub_zero.
Qed.

Lemma mapM_id_Forall {A} (f : A -> option A) (l : list A) :
  Forall (fun x => f x = Some x) l -> mapM f l = Some l.
Proof.
  induction 1 as [|x l Hx _ IH]; [done|]. simpl. rewrite Hx. simpl. by rewrite IH.
Qed.

(** An array less a profile of zeros of its height is the array itself. *)
Lemma minus_profile_zeros (a : Np.array3) (n1 n2 n3 : nat) :
  Np.dims a = (n1, n2, n3) ->
  Forall (Forall (fun col => length col = n3)) (Np.cells a) ->
  Np.minus_profile a (replicate n3 0%float) = Some a.
Proof.
  intros Hd Hcols. unfold Np.minus_profile, Np.profile_op. rewrite Hd.
  rewrite length_replicate. unfold Np.bcast_dim. rewrite decide_True by done.
  cbn [mbind option_bind].
  rewrite (mapM_id_Forall _ (Np.cells a)).
  - cbn [mbind option_bind]. destruct a as [d c]. simpl in *. by subst.
  - eapply Forall_impl; [exact Hcols|]. intros plane Hplane. simpl.
    apply mapM_id_Forall. eapply Forall_impl; [exact Hplane|].
    intros col Hcol. simpl. unfold Np.bcast_last.
    rewrite length_replicate, decide_True by done.
    rewrite <- Hcol. by rewrite zip_with_zeros_sub.
Qed.

(** X11: with [wInflow], the inflow in the vertical is a profile of zeros, and
    [wwake] is the mean field less the inflow, the other way round than
    [uwake] and [vwake]: when the three mean velocities are cached and the
    call returns, [wwake] is [wbar] itself, bit for bit. *)
Theorem calc_wake_vertical
    (offline overwrite : bool) (wbar : Np.array3) (n1 n2 : nat) (w w' : world) :
  calc_wake offline true overwrite w = Ok (tt, w') ->
  is_Some (budget (self w) !! "ubar") ->
  is_Some (budget (self w) !! "vbar") ->
  budget (self w) !! "wbar" = Some wbar ->
  Np.dims wbar = (n1, n2, length (zLine (self w))) ->
  Forall (Forall (fun col => length col = length (zLine (self w)))) (Np.cells wbar) ->
  budget (self w) !! "wwake" = None \/ overwrite = true ->
  budget (self w') !! "wwake" = Some wbar
  /\ budget (self w') !! "wbar" = Some wbar.
Proof.
  intros H [ub Hu] [vb Hv] Hw Hd Hcols Hfresh.
  unfold calc_wake, calc_wake_with in H. rewrite bind_get_self in H.
  cbn [forallb app] in H.
  assert (Hc : bool_decide (is_Some (budget (self w) !! "uwake"))
               && (bool_decide (is_Some (budget (self w) !! "vwake"))
                   && (bool_decide (is_Some (budget (self w) !! "wwake")) && true))
               && negb overwrite = false).
  { destruct Hfresh as [Hn| ->]; [|by rewrite andb_false_r].
    rewrite Hn. rewrite (bool_decide_false (is_Some None)) by (by intros [? ?]).
    by rewrite !andb_false_r. }
  rewrite Hc, Hu, Hv, Hw in H.
  rewrite !bool_decide_true in H by done. cbn [andb] in H.
  rewrite (bind_run (ret tt) _ w w tt) in H by done.
  apply bind_Ok in H as ([[Iu Iv] Iw] & w1 & Hin & H).
  destruct (_get_inflow_ro _ _ _ _ _ Hin) as [Hfs1 Hself1].
  assert (HIw : Iw = Some (replicate (length (zLine (self w))) 0%float)).
  { unfold _get_inflow in Hin. rewrite bind_get_self, bind_get_fs in Hin.
    apply bind_Ok in Hin as (uv & w2 & _ & Hin). cbv zeta in Hin.
    apply bind_Ok in Hin as ([] & w3 & _ & Hin). unfold ret in Hin. by simplify_eq. }
  subst Iw. cbn [fst snd] in H.
  assert (Hw1 : budget (self w1) !! "wbar" = Some wbar) by (by rewrite Hself1).
  apply bind_Ok in H as ([] & w2 & Hww & H).
  rewrite (bind_run _ _ _ _ _ (cached_run _ _ _ Hw1)) in Hww.
  rewrite (minus_profile_zeros wbar n1 n2) in Hww by done.
  rewrite (bind_run (from_option _ (Some _)) _ w1 w1 _) in Hww by done.
  rewrite store_run in Hww. simplify_eq.
  apply bind_Ok in H as (ubar' & w3 & Hcu & H).
  unfold cached in Hcu. rewrite bind_get_self in Hcu.
  apply from_option_Ok in Hcu as [_ Hw3]. simpl in Hw3. subst w3.
  apply bind_Ok in H as (au & w3 & Hau & H).
  apply from_option_Ok in Hau as [_ Hw3]. simpl in Hw3. subst w3.
  apply bind_Ok in H as ([] & w3 & Hsu & H). apply store_Ok in Hsu. subst w3.
  apply bind_Ok in H as (vbar' & w3 & Hcv & H).
  unfold cached in Hcv. rewrite bind_get_self in Hcv.
  apply from_option_Ok in Hcv as [_ Hw3]. simpl in Hw3. subst w3.
  apply bind_Ok in H as (av & w3 & Hav & H).
  apply from_option_Ok in Hav as [_ Hw3]. simpl in Hw3. subst w3.
  apply store_Ok in H. subst w'.
  cbn [self budget set_budget set_cache]. rewrite Hself1.
  rewrite !lookup_insert_ne by done. rewrite lookup_insert_eq.
  rewrite !lookup_insert_ne by done. done.
Qed.

(** ** Writing an archive and reading it back *)

Lemma chars_app (a b : string) :
  Py.chars (a +:+ b) = Py.chars a ++ Py.chars b.
Proof. induction a as [|c a IH]; [done|]. simpl. by rewrite IH. Qed.

Lemma string_app_assoc (a b c : string) : (a +:+ b) +:+ c = a +:+ (b +:+ c).
Proof.
  induction a as [|x a IH]; [done|].
  change (String x ((a +:+ b) +:+ c) = String x (a +:+ (b +:+ c))). by f_equal.
Qed.

(** The name of the budgets container and the name of the metadata record
    end differently: no two of them are one path. *)
Lemma budgets_name_not_metadata (a b : string) (fmt : format) :
  a +:+ "_budgets." +:+ ext fmt <> b +:+ "_metadata." +:+ ext fmt.
Proof.
  intros H.
  assert (Hb : b +:+ "_metadata." +:+ ext fmt = (b +:+ "_") +:+ "metadata." +:+ ext fmt).
  { by rewrite string_app_assoc. }
  rewrite Hb in H. apply (f_equal Py.chars) in H.
  rewrite !chars_app in H.
  apply app_inj_2 in H as [_ H]; [|by destruct fmt].
  by destruct fmt.
Qed.

Lemma path_join_ends (a b : string) :
  exists c, path_join a b = c +:+ b.
Proof.
  unfold path_join.
  assert (Hdef : exists c,
             match rev (Py.chars a) with
             | [] => b
             | c0 :: _ => if ascii_dec c0 "/"%char then a +:+ b else a +:+ "/" +:+ b
             end = c +:+ b).
  { destruct (rev (Py.chars a)) as [|c0 ?]; [by exists ""|].
    destruct (ascii_dec c0 "/"%char); [by exists a|].
    exists (a +:+ "/"). by rewrite string_app_assoc. }
  destruct b as [|c0 b]; [done|].
  destruct c0 as [[] [] [] [] [] [] [] []]; try done. by exists "".
Qed.

Lemma destination_not_meta (fmt : format) (write_dir filename_arg : option string)
    (s : BudgetIO) :
  destination fmt write_dir filename_arg s <> destination_meta fmt write_dir filename_arg s.
Proof.
  unfold destination, destination_meta.
  destruct (path_join_ends (default (dir_name s) write_dir)
              (default (filename s) filename_arg +:+ "_metadata." +:+ ext fmt))
    as [c ->].
  intros H.
  apply (budgets_name_not_metadata
           (default (dir_name s) write_dir +:+ Os.sep +:+ default (filename s) filename_arg)
           (c +:+ default (filename s) filename_arg) fmt).
  rewrite !string_app_assoc. exact H.
Qed.

(** The readers on an archive that holds every requested key. *)
Lemma read_budgets_archive_copies_aux
    (fmt : format) (ks : gmap string (Z * Z)) (w : world) :
  (forall arrs,
     fs w !! archive_path fmt (self w) = Some (Archive fmt arrs) ->
     (forall k, is_Some (ks !! k) -> is_Some (arrs !! k)) ->
     exists w',
       _read_budgets_archive fmt ks w = Ok (tt, w')
       /\ forall k, is_Some (ks !! k) -> budget (self w') !! k = arrs !! k).
Proof.
  intros arrs Hfile Hall.
  assert (Hkeys : forall k, k ∈ (map_to_list ks).*1 <-> is_Some (ks !! k)).
  { intros k. rewrite list_elem_of_fmap. split.
    - intros ([k' v] & -> & Hin). apply elem_of_map_to_list in Hin. by exists v.
    - intros [v Hv]. exists (k, v). split; [done|]. by apply elem_of_map_to_list. }
  destruct (archive_loop_run fmt arrs (map_to_list ks).*1 w Hfile) as (b & Hrun & Hb).
  { apply Forall_forall. intros k Hk. by apply Hall, Hkeys. }
  eexists. split; [exact Hrun|]. cbn [self].
  intros k Hk. unfold set_budget. cbn [budget set_cache].
  rewrite Hb. by rewrite bool_decide_true by (by apply Hkeys).
Qed.

(** An array that [np.squeeze] returns as it is: none of its axes has
    length one. *)
Definition no_unit_axis (a : Np.array3) : bool :=
  let '(n1, n2, n3) := Np.dims a in
  negb (n1 =? 1)%nat && negb (n2 =? 1)%nat && negb (n3 =? 1)%nat.

(** X12: what [write_npz] writes is where [_read_budgets_npz] looks for it:
    after a write that returns, the container is at the path a session on
    the directory and the name written to reads from; the metadata record,
    written after it, has not replaced it; and the session loads, for every
    saved key it asks for, the slice that was saved.  The slices are taken
    to have no axis of length one, so that they are stored with the three
    axes they were cut with. *)
Theorem write_then_read_archive
    (write_dir : option string) (budget_terms : terms_arg)
    (filename_arg : option string) (overwrite : bool)
    (xlim ylim zlim : option lim) (w w1 w' : world)
    (keys : list string) (sl : slices)
    (ks : gmap string (Z * Z)) (r : world) :
  associate_budgets (self w) = true ->
  path_exists (fs w) (destination npz write_dir filename_arg (self w)) = false
    \/ overwrite = true ->
  selection npz budget_terms xlim ylim zlim w = Ok ((keys, sl), w1) ->
  map_Forall (fun _ a => no_unit_axis a = true) (sl_fields sl) ->
  write_npz write_dir budget_terms filename_arg overwrite xlim ylim zlim w
    = Ok (tt, w') ->
  fs r = fs w' ->
  dir_name (self r) = default (dir_name (self w)) write_dir ->
  filename (self r) = default (filename (self w)) filename_arg ->
  (forall k, is_Some (ks !! k) -> k ∈ keys) ->
  archive_path npz (self r) = destination npz write_dir filename_arg (self w)
  /\ (exists arrs,
        fs r !! archive_path npz (self r) = Some (Archive npz arrs)
        /\ forall k, arrs !! k = if bool_decide (k ∈ keys) then sl_fields sl !! k
                                 else None)
  /\ exists r',
       _read_budgets_npz ks r = Ok (tt, r')
       /\ forall k, is_Some (ks !! k) ->
            is_Some (sl_fields sl !! k)
            /\ budget (self r') !! k = sl_fields sl !! k.
Proof.
  intros Hb Hgo Hsel _ Hw Hfs Hdir Hname Hks.
  change (writer npz write_dir budget_terms filename_arg overwrite xlim ylim zlim w
          = Ok (tt, w')) in Hw.
  rewrite writer_selection in Hw by done.
  rewrite (bind_run _ _ _ _ _ Hsel) in Hw.
  pose proof Hsel as Hc.
  apply selection_cache, cache_only_fields in Hc as (Hfs1 & Hd & Hf & _ & _).
  unfold finish in Hw. rewrite bind_get_self, bind_get_fs in Hw. cbv zeta in Hw.
  rewrite Hfs1, Hf in Hw. fold (destination npz write_dir filename_arg (self w)) in Hw.
  set (dest := destination npz write_dir filename_arg (self w)) in *.
  assert (Hsave : exists w2, fs w2 = fs w
            /\ save_budgets npz (default (dir_name (self w)) write_dir)
                 (default (filename (self w)) filename_arg) dest keys sl w2
               = Ok (tt, w')).
  { destruct (path_exists (fs w) dest) eqn:Hex; cbn [negb] in Hw.
    - destruct Hgo as [?| ->]; [done|].
      apply bind_Ok in Hw as ([] & w2 & Hemit & Hw). unfold emit in Hemit.
      simplify_eq. eexists. split; [|exact Hw]. done.
    - exists w1. done. }
  destruct Hsave as (w2 & Hfs2 & Hsave).
  apply save_budgets_Ok in Hsave as (arrs & md & Hfs' & _ & Hall & Hlk & _).
  assert (Hp : archive_path npz (self r) = dest).
  { unfold archive_path, filename_budgets, dest, destination.
    rewrite Hdir, Hname. unfold Os.sep. by rewrite !string_app_assoc. }
  assert (Hfile : fs r !! archive_path npz (self r) = Some (Archive npz arrs)).
  { rewrite Hp, Hfs, Hfs', Hfs2.
    rewrite lookup_insert_ne by (symmetry; apply destination_not_meta).
    by rewrite lookup_insert_eq. }
  rewrite Forall_forall in Hall.
  split; [exact Hp|]. split; [by exists arrs|].
  destruct (read_budgets_archive_copies_aux npz ks r arrs Hfile)
    as (r' & Hrun & Hkeys).
  { intros k Hk. rewrite Hlk, bool_decide_true by (by apply Hks). by apply Hall, Hks. }
  exists r'. split; [done|]. intros k Hk. split; [by apply Hall, Hks|].
  rewrite (Hkeys k Hk), Hlk, bool_decide_true by (by apply Hks). done.
Qed.

(** ** The metadata record *)

(** X13: [write_metadata] writes one file and nothing else: the record beside
    the archive, with the namelist, the three axes given and the origin of
    the session; a session without turbines writes no turbine entry, and
    the session itself is not changed. *)
Theorem write_metadata_one_file
    (write_dir fname : string) (src : format) (x y z : list float) (w : world) :
  let path := path_join write_dir (fname +:+ "_metadata." +:+ ext src) in
  (associate_turbines (self w) = false ->
     write_metadata write_dir fname src x y z w
     = Ok (tt, mkWorld
                 (<[path := Metadata src
                              (mkMetadata (input_nml (self w)) x y z
                                 (origin (self w)) None [])]> (fs w))
                 (self w) (out w)))
  /\ (forall w', write_metadata write_dir fname src x y z w = Ok (tt, w') ->
        self w' = self w
        /\ (forall p, p <> path -> fs w' !! p = fs w !! p)
        /\ exists md, fs w' !! path = Some (Metadata src md)
             /\ md_input_nml md = input_nml (self w)
             /\ md_x md = x /\ md_y md = y /\ md_z md = z
             /\ md_origin md = origin (self w)
             /\ (associate_turbines (self w) = true ->
                 exists ta, turbineArray (self w) = Some ta
                   /\ md_turbineArray md = Some (TurbineArray_todict ta))).
Proof.
  intros path. split.
  - intros Ht. unfold write_metadata. rewrite bind_get_self, Ht. done.
  - intros w' H. unfold write_metadata in H. rewrite bind_get_self in H.
    apply bind_Ok in H as ([ta series] & w1 & Ht & H).
    assert (Hro : read_only w w1).
    { match type of Ht with ?m w = _ => assert (Hp : preserves read_only m) end.
      { pose proof turbine_series_ro. frame. }
      by eapply Hp. }
    destruct Hro as [Hfs Hself].
    unfold write_file in H. simplify_eq. cbn [fs self out fst snd].
    fold path. split; [done|]. split.
    + intros p Hp. rewrite lookup_insert_ne by done. by rewrite Hfs.
    + eexists. rewrite lookup_insert_eq. split; [reflexivity|].
      cbn [md_input_nml md_x md_y md_z md_origin md_turbineArray].
      split_and!; try done.
      intros Hat. rewrite Hat in Ht.
      apply bind_Ok in Ht as (ta' & w2 & [Hta _]%from_option_Ok & Ht).
      apply bind_Ok in Ht as (ser & w3 & _ & Ht). unfold ret in Ht. simplify_eq.
      simpl in Hta. eauto.
Qed.

(** ** [BudgetIO]: what the raw backend refuses *)

(** X14: a request for one term at a time index of the directory, on the
    raw backend: a name that the key table does not hold raises
    [KeyError]; a term without a budget file at that index raises
    [IndexError]; and a file whose size is not [nx*ny*nz] raises
    [ValueError]: a stream of another size is never reshaped into the
    cache. *)
Theorem read_budgets_padeops_refuses
    (k : string) (bt0 : Z * Z) (t : Z) (w : world) :
  let files bt := glob (fs w) (dir_name (self w))
                    (budget_file_prefix (runid (self w)) bt.1 bt.2 t) ".s3D" in
  let load := _read_budgets_padeops {[k := bt0]} (Some t) w in
  t ∈ all_budget_tidx (self w) ->
  (key_get k = None -> load = Raise KeyError)
  /\ (forall bt, key_get k = Some bt -> files bt = [] -> load = Raise IndexError)
  /\ (forall bt path n,
        key_get k = Some bt -> head (files bt) = Some path ->
        Py.int_of <$> Re.first_group pat_fname_n path = Some n ->
        forall flat, fs w !! path = Some (Doubles flat) ->
          length flat <> (nx (self w) * ny (self w) * nz (self w))%nat ->
          load = Raise ValueError).
Proof.
  intros files load Ht. unfold load, _read_budgets_padeops.
  assert (Hres : resolve_tidx (Some t) w = Ok (Some t, w)).
  { unfold resolve_tidx. rewrite bind_get_self. by rewrite bool_decide_true. }
  rewrite (bind_run _ _ _ _ _ Hres).
  rewrite map_to_list_singleton. cbn [fmap list_fmap fst for_each].
  unfold load_term, bind, get_self, get_fs, from_option, ret, raise, modify, lift, fromfile.
  split_and!.
  - intros ->. done.
  - intros bt -> Hnil. unfold files in Hnil. cbn [fst snd fs self out].
    rewrite Hnil. done.
  - intros bt path n -> Hpath Hn. unfold files in Hpath. cbn [fst snd fs self out].
    rewrite Hpath. cbn [fst snd fs self out head]. rewrite Hn. cbn [fst snd fs self out].
    intros flat -> Hlen. unfold Np.reshape_F. cbn [nx ny nz set_cache].
    by rewrite decide_False.
Qed.

(** ** [TurbineArray]: rebuilding from the namelists of [todict] *)

Lemma sort_insert_front {A} (lt : A -> A -> bool) (x : A) (l : list A) :
  Forall (fun y => lt y x = false) l -> sort_insert lt x l = x :: l.
Proof. intros H. destruct H as [|y l Hy _]; [done|]. simpl. by rewrite Hy. Qed.

(** A list in which no element is less than an earlier one is left as it
    is by the sort. *)
Lemma stable_sort_sorted_id {A} (lt : A -> A -> bool) (l : list A) :
  StronglySorted (fun a b => lt b a = false) l -> stable_sort lt l = l.
Proof.
  induction 1 as [|x l Hs IH Hall]; [done|].
  simpl. rewrite IH. by apply sort_insert_front.
Qed.

Lemma build_turbines_all (i : nat) (sort : string) (l : list nml) (num : nat) :
  (i + length l <= num)%nat ->
  build_turbines i num sort l
  = imap (fun j n => mkTurbine n (i + j + 1) sort) l.
Proof.
  revert i. induction l as [|x l IH]; intros i Hn; [done|].
  simpl in *. rewrite decide_False by lia. rewrite Nat.add_0_r. f_equal.
  rewrite IH by lia. apply imap_ext. intros j y _. simpl. f_equal. lia.
Qed.

Lemma imap_turbines_nml (f : nat -> nat) (sort : string) (l : list nml) :
  t_input_nml <$> imap (fun j n => mkTurbine n (f j) sort) l = l.
Proof.
  revert f. induction l as [|x l IH]; intros f; [done|].
  simpl. f_equal. apply (IH (f ∘ S)).
Qed.

(** X15: the namelists that [todict] stores build the same array again, as
    [_init_npz] and [_init_mat] do: for an array in ascending order of its
    sort field, a [TurbineArray] built from [todict()['turbines']] with
    that field has the same namelists in the same order, each turbine
    numbered by its place. *)
Theorem TurbineArray_rebuilt_from_todict
    (ta ta' : TurbineArray) (fs : filesystem) (ADM_type : Z) (verbose : bool) :
  let sort := ta_sort_by ta in
  Forall (fun t => t_sort_by t = sort) (ta_turbines ta) ->
  StronglySorted (fun a b => key_lt (Turbine_key b) (Turbine_key a) = false)
    (ta_turbines ta) ->
  TurbineArray_init fs None None (Some (td_turbines (TurbineArray_todict ta))) None
    ADM_type verbose sort = Ok (Built ta') ->
  ta_turbines ta'
    = imap (fun j n => mkTurbine n (j + 1) sort) (t_input_nml <$> ta_turbines ta)
  /\ t_input_nml <$> ta_turbines ta' = t_input_nml <$> ta_turbines ta
  /\ ta_array ta' = t_input_nml <$> ta_turbines ta
  /\ ta_num_turbines ta' = length (ta_turbines ta)
  /\ ta_sort_by ta' = sort.
Proof.
  intros sort Hfield Hsorted H.
  unfold TurbineArray_init, TurbineArray_todict in H.
  cbn [td_turbines default from_option] in H. unfold id in H.
  set (l := t_input_nml <$> ta_turbines ta) in *.
  rewrite build_turbines_all in H by (cbn; lia).
  rewrite firstn_all in H.
  set (built := imap (fun j n => mkTurbine n (0 + j + 1) sort) l) in *.
  assert (Hkeys : Turbine_key <$> built = Turbine_key <$> ta_turbines ta).
  { unfold built, l. rewrite fmap_imap.
    rewrite imap_fmap. rewrite <- (imap_const Turbine_key (ta_turbines ta)).
    apply imap_ext. intros j t Hj. unfold compose, Turbine_key. cbn.
    rewrite Forall_forall in Hfield. rewrite Hfield; [done|].
    by eapply list_elem_of_lookup_2. }
  assert (Hbs : StronglySorted (fun a b => Turbine_lt b a = false) built).
  { unfold Turbine_lt.
    assert (Hgen : forall l1 l2 : list Turbine,
               Turbine_key <$> l1 = Turbine_key <$> l2 ->
               StronglySorted (fun a b => key_lt (Turbine_key b) (Turbine_key a) = false) l2 ->
               StronglySorted (fun a b => key_lt (Turbine_key b) (Turbine_key a) = false) l1).
    { clear. intros l1. induction l1 as [|a l1 IH]; intros l2 Heq Hs; [constructor|].
      destruct l2 as [|b l2]; [done|].
      injection Heq as Hab Heq0.
      assert (Heq : Turbine_key <$> l1 = Turbine_key <$> l2) by exact Heq0.
      clear Heq0. inversion Hs as [|? ? Hs' Hall]; subst.
      constructor; [by eapply IH|].
      apply Forall_forall. intros c Hc.
      apply (list_elem_of_fmap_2 Turbine_key) in Hc. rewrite Heq in Hc.
      apply list_elem_of_fmap in Hc as (d & Hd & Hin).
      rewrite Forall_forall in Hall. rewrite Hab, Hd. by apply Hall. }
    by apply (Hgen _ _ Hkeys). }
  unfold TurbineArray_sort, list_sort in H.
  cbn [ta_turbines ta_array ta_verbose ta_sort_by ta_ADM_type ta_turb_dir
       ta_num_turbines ta_convenience] in H.
  rewrite (stable_sort_sorted_id Turbine_lt built Hbs) in H.
  assert (Hres : ta_turbines ta' = built /\ ta_array ta' = l
                 /\ ta_num_turbines ta' = length l /\ ta_sort_by ta' = sort).
  { destruct (decide (length l = 1%nat)).
    - destruct built eqn:E; [done|].
      destruct (actuator_disk _); [|done]. by simplify_eq.
    - by simplify_eq. }
  destruct Hres as (Ht & Ha & Hn & Hs).
  assert (Hb : built = imap (fun j n => mkTurbine n (j + 1) sort) l) by done.
  split_and!.
  - by rewrite Ht.
  - rewrite Ht, Hb. apply imap_turbines_nml.
  - done.
  - rewrite Hn. unfold l. by rewrite length_fmap.
  - done.
Qed.

(** ** [BudgetIO]: a grid centred on the first turbine *)


(** The array after [set_sort(sort_by, sort=True)]. *)
Lemma TurbineArray_set_sort_sorted_aux (sort_by : string) (ta : TurbineArray) :
  (forall a b, key_lt a b = true -> key_lt b a = false) ->
  (forall a b c, key_lt b a = false -> key_lt c b = false -> key_lt c a = false) ->
  let ta' := TurbineArray_set_sort sort_by true false ta in
  Forall (fun t => t_sort_by t = sort_by) (ta_turbines ta')
  /\ StronglySorted (fun a b => key_lt (Turbine_key b) (Turbine_key a) = false)
       (ta_turbines ta').
Proof.
  intros Hasym Htrans ta'. unfold ta', TurbineArray_set_sort, TurbineArray_sort.
  cbn [ta_turbines]. split.
  - rewrite list_sort_perm. apply Forall_fmap, Forall_forall. done.
  - apply (stable_sort_sorted Turbine_lt); unfold not_after, Turbine_lt.
    + intros a b. apply Hasym.
    + intros a b c. apply Htrans.
Qed.

(** X16: [_load_grid] with the three axes and [normalize_origin='turb'] (or
    ['turbine']): on a session without turbines the string is taken for a
    point and the call raises [TypeError]; with turbines, the array is
    sorted by [xloc] for good, the origin becomes the position of its
    first turbine, which no other turbine precedes in [xloc], every axis
    is shifted by that position less the origin given, and the flag is
    set; an array without turbines raises [IndexError]. *)
Theorem load_grid_turbine_origin
    (x y z : list float) (origin0 : float * float * float) (str : string)
    (w : world) :
  associate_grid (self w) && verbose (self w) = false ->
  x <> [] -> y <> [] -> z <> [] ->
  str = "turb" \/ str = "turbine" ->
  let load := _load_grid (Some x) (Some y) (Some z) origin0 (NormStr str) w in
  (associate_turbines (self w) = false -> load = Raise TypeError)
  /\ (forall ta,
        associate_turbines (self w) = true -> turbineArray (self w) = Some ta ->
        let ta' := TurbineArray_set_sort "xloc" true false ta in
        (ta_turbines ta = [] -> load = Raise IndexError)
        /\ (forall t0 rest,
              ta_turbines ta' = t0 :: rest ->
              (forall a b, key_lt a b = true -> key_lt b a = false) ->
              (forall a b c, key_lt b a = false -> key_lt c b = false -> key_lt c a = false) ->
              exists w',
                load = Ok (tt, w')
                /\ fs w' = fs w /\ budget (self w') = budget (self w)
                /\ turbineArray (self w') = Some ta'
                /\ origin (self w') = Turbine_pos t0
                /\ normalized_xyz (self w') = true
                /\ xLine (self w') = Np.isub x ((Turbine_pos t0).1.1 - origin0.1.1)
                /\ yLine (self w') = Np.isub y ((Turbine_pos t0).1.2 - origin0.1.2)
                /\ zLine (self w') = Np.isub z ((Turbine_pos t0).2 - origin0.2)
                /\ t_sort_by t0 = "xloc"
                /\ Forall (fun t => key_lt (Turbine_key t) (Turbine_key t0) = false) rest)).
Proof.
  intros Hg Hx Hy Hz Hstr load.
  destruct (axis_of_line_Ok x Hx) as (hx & lx & Hhx & Hlx & Ex).
  destruct (axis_of_line_Ok y Hy) as (hy & ly & Hhy & Hly & Ey).
  destruct (axis_of_line_Ok z Hz) as (hz & lz & Hhz & Hlz & Ez).
  assert (Hb : bool_decide (str = "turb" \/ str = "turbine") = true)
    by (by apply bool_decide_eq_true).
  unfold load, _load_grid. rewrite bind_get_self, Hg.
  unfold bind, lift, modify, ret, get_self. rewrite Ex, Ey, Ez.
  cbn [fst snd fs self out]. rewrite Hb.
  cbn [associate_turbines set_grid set_origin set_axes set_associate_grid
       turbineArray andb].
  split.
  - intros ->. done.
  - intros ta -> Hta. rewrite Hta. cbv zeta.
    set (ta' := TurbineArray_set_sort "xloc" true false ta). split.
    + intros Hnil. unfold ta', TurbineArray_set_sort, TurbineArray_sort.
      cbn [ta_turbines]. rewrite Hnil. done.
    + intros t0 rest Ht0 Hasym Htrans. rewrite Ht0.
      eexists. split; [reflexivity|]. cbn [fs self out].
      destruct (TurbineArray_set_sort_sorted_aux "xloc" ta Hasym Htrans) as [Hall Hs].
      fold ta' in Hall, Hs. rewrite Ht0 in Hall, Hs.
      inversion Hall; subst. inversion Hs; subst.
      split_and!; try done.
Qed.

End PadeOpsIO.

(** * A sample run *)

Module Sample.

(** A namelist: its entries by name. *)
Definition nml : Type := list (string * pyval).

Definition lookup_nml (n : nml) (name : string) : pyval :=
  default PNone (snd <$> list_find (fun kv => kv.1 = name) n ≫= (fun r => Some r.2)).

Definition key_search_r : nml -> string -> pyval := lookup_nml.
Definition parser (path : string) : nml := [].
Definition actuator_disk (n : nml) : option (list (string * pyval)) := Some n.
Definition turbine_field (n : nml) (field : string) : Z :=
  match lookup_nml n field with PInt z => z | _ => 0 end.
Definition turbine_pos (n : nml) : float * float * float :=
  (0%float, 0%float, 0%float).

(** Six entries of the key table: the mean velocities and their wakes. *)
Definition key : list (string * (Z * Z)) :=
  [("ubar", (0, 1)); ("vbar", (0, 2)); ("wbar", (0, 3));
   ("uwake", (5, 1)); ("vwake", (5, 2)); ("wwake", (5, 3))].

(** The term numbers of a set, in ascending order. *)
Definition set_iter (l : list Z) : list Z := merge_sort Z.le (remove_dups l).

Definition inflow_offline (n : nml) (z : list float)
  : result (list float * list float) :=
  Ok ((fun _ => 1%float) <$> z, (fun _ => 0%float) <$> z).
Definition inflow_budgets (fs : gmap string (file nml)) (s : BudgetIO nml)
  : result (list float * list float) :=
  Ok ([1%float; 2%float], [0%float; 0.5%float]).
Definition get_xids_util (xlim ylim zlim : option lim) (x y z : list float)
  : result (Np.index * Np.index * Np.index) :=
  Ok (Np.Full, Np.Full, Np.Full).
Definition read_turb_property (fs : gmap string (file nml)) (s : BudgetIO nml)
    (prop : string) (turb : nat) : result (list float) :=
  Raise KeyError.

Definition ramp (n : nat) : list float := Np.of_nat <$> seq 0 n.

(** A run directory with [ubar] and [vbar] at the time indices 5 and 9. *)
Definition run_dir : gmap string (file nml) :=
  list_to_map
    [("run/Run01_budget0_term01_t000005_n000010.s3D", Doubles nml (ramp 12));
     ("run/Run01_budget0_term02_t000005_n000010.s3D", Doubles nml (ramp 12));
     ("run/Run01_budget0_term01_t000009_n000020.s3D", Doubles nml (ramp 12));
     ("run/Run01_budget0_term02_t000009_n000020.s3D", Doubles nml (ramp 12))].

Definition grid_nml : nml :=
  [("nx", PInt 2); ("ny", PInt 3); ("nz", PInt 2);
   ("lx", PFloat 4); ("ly", PFloat 6); ("lz", PFloat 2)].

(** A session on the raw backend, with the 2 x 3 x 2 grid; as the
    constructor leaves it, at the last time index of the directory. *)
Definition session : BudgetIO nml :=
  mkBudgetIO nml "run" "sample" false 1 grid_nml
    true false false true true true false false None
    4 6 2 2 3 2 (Some 2%float) (Some 2%float) (Some 1%float)
    [0%float; 2%float] [0%float; 2%float; 4%float] [0.5%float; 1.5%float]
    (0%float, 0%float, 0%float)
    ∅ (Some 9) (Some 20) [5; 9].

Definition world0 : world nml := mkWorld nml run_dir session [].

(** The same session with constant mean velocities in its cache. *)
Definition world_means : world nml :=
  mkWorld nml run_dir
    (set_budget nml
       (<["ubar" := Np.full 2 3 2 0.25]> (<["vbar" := Np.full 2 3 2 0.5]> ∅))
       session) [].

(** The session before its grid is loaded. *)
Definition session_bare : BudgetIO nml :=
  mkBudgetIO nml "run" "sample" false 1 grid_nml
    true false false true true false false false None
    0 0 0 0 0 0 None None None [] [] []
    (0%float, 0%float, 0%float)
    ∅ None None [5; 9].
Definition world_bare : world nml := mkWorld nml run_dir session_bare [].

(** The double nearest to 0.1, and a session whose x axis is that point. *)
Definition tenth : float := 0x1.999999999999ap-4.
Definition session_tenth : BudgetIO nml :=
  set_axes nml [tenth] [0%float] [0%float] (0%float, 0%float, 0%float) false session.

(** A session that is bound to no budgets. *)
Definition session_no_budgets : BudgetIO nml :=
  mkBudgetIO nml "run" "sample" false 1 grid_nml
    false false false true false true false false None
    4 6 2 2 3 2 (Some 2%float) (Some 2%float) (Some 1%float)
    [0%float; 2%float] [0%float; 2%float; 4%float] [0.5%float; 1.5%float]
    (0%float, 0%float, 0%float)
    ∅ None None [].
Definition world_no_budgets : world nml := mkWorld nml ∅ session_no_budgets [].


(** The sample run with one more budget file, of the term 4 of budget 0,
    which the key table does not hold. *)
Definition unregistered_dir : gmap string (file nml) :=
  <["run/Run01_budget0_term04_t000005_n000010.s3D" := Doubles nml (ramp 12)]> run_dir.
Definition world_unregistered : world nml :=
  mkWorld nml unregistered_dir session [].

(** The world a call returns in ([world0] when it raises). *)
Definition after {A} (r : result (A * world nml)) : world nml :=
  match r with Ok (_, w) => w | Raise _ => world0 end.

(** [read_budgets(['ubar'], tidx=5)], then [read_budgets(['vbar'], tidx=9)]. *)
Definition world5 : world nml :=
  after (read_budgets nml key set_iter inflow_offline inflow_budgets
           (Terms [Name "ubar"]) false (Some 5) world0).
Definition world9 : world nml :=
  after (read_budgets nml key set_iter inflow_offline inflow_budgets
           (Terms [Name "vbar"]) false (Some 9) world5).

Definition world_grid : world nml :=
  after (_load_grid nml Z Z.ltb turbine_field turbine_pos key_search_r
           None None None (0%float, 0%float, 0%float) NormOff world_bare).
Definition world_wake : world nml :=
  after (calc_wake nml key set_iter inflow_offline inflow_budgets false false false world_means).
(** [write_npz(budget_terms=['ubar'])] *)
Definition world_written : world nml :=
  after (write_npz nml key set_iter inflow_offline inflow_budgets get_xids_util read_turb_property
           None (Terms [Name "ubar"]) None false None None None world0).

End Sample.

Import Sample.

(** ** The claims on the sample run *)

(** C10 on three namelists and [num_turbines = 2]: two turbines, in
    ascending [xloc]. *)
Lemma TurbineArray_init_turbines_witness :
  exists ta,
    TurbineArray_init nml parser actuator_disk Z Z.ltb turbine_field ∅ None (Some 2%nat)
      (Some [[("xloc", PInt 30)]; [("xloc", PInt 10)]; [("xloc", PInt 20)]])
      None 5 false "xloc" = Ok (Built nml ta)
    /\ (forall a b : Z, Z.ltb a b = true -> Z.ltb b a = false)
    /\ (forall a b c : Z, Z.ltb b a = false -> Z.ltb c b = false -> Z.ltb c a = false)
    /\ length (ta_turbines nml ta) = 2%nat
    /\ Forall (fun t => t_sort_by nml t = "xloc") (ta_turbines nml ta)
    /\ StronglySorted
         (fun a b => Z.ltb (Turbine_key nml Z turbine_field b) (Turbine_key nml Z turbine_field a) = false)
         (ta_turbines nml ta).
Proof.
  eexists. split; [vm_compute; reflexivity|].
  assert (Hasym : forall a b : Z, Z.ltb a b = true -> Z.ltb b a = false) by lia.
  assert (Htrans : forall a b c : Z,
             Z.ltb b a = false -> Z.ltb c b = false -> Z.ltb c a = false) by lia.
  split; [exact Hasym|]. split; [exact Htrans|].
  match goal with
  | |- context [ta_turbines nml ?t] =>
      exact (TurbineArray_init_turbines nml parser actuator_disk Z Z.ltb turbine_field
               ∅ None (Some 2%nat)
               [[("xloc", PInt 30)]; [("xloc", PInt 10)]; [("xloc", PInt 20)]]
               5 false "xloc" t Hasym Htrans (or_introl eq_refl) eq_refl)
  end.
Defined.

(** C1 on the sample run: [ubar] at the time index 5. *)
Lemma read_budgets_padeops_fortran_order_witness :
  exists w',
    _read_budgets_padeops nml key {["ubar" := (0, 1)]} (Some 5) world0 = Ok (tt, w')
    /\ is_Some (({["ubar" := (0, 1)]} : gmap string (Z * Z)) !! "ubar")
    /\ exists tv path flat arr,
         is_budget_file nml key world0 "ubar" tv path
         /\ fs nml world0 !! path = Some (Doubles nml flat)
         /\ budget nml (self nml w') !! "ubar" = Some arr
         /\ length flat = (2 * 3 * 2)%nat
         /\ Np.dims arr = (2, 3, 2)%nat
         /\ forall i j l, (i < 2)%nat -> (j < 3)%nat -> (l < 2)%nat ->
              exists v, Np.get3 arr i j l = Some v
                /\ flat !! (i + 2 * j + 2 * 3 * l)%nat = Some v.
Proof.
  eexists. split; [vm_compute; reflexivity|].
  assert (Hk : is_Some (({["ubar" := (0, 1)]} : gmap string (Z * Z)) !! "ubar"))
    by (vm_compute; eauto).
  split; [exact Hk|].
  refine (read_budgets_padeops_fortran_order nml key _ (Some 5) world0 _ "ubar" _ Hk).
  vm_compute. reflexivity.
Defined.



(** C2 on the sample run: [ubar] at the time index 5, then [vbar] at 9. *)
Lemma read_budgets_single_tidx_witness :
  read_budgets nml key set_iter inflow_offline inflow_budgets
    (Terms [Name "ubar"]) false (Some 5) world0 = Ok (tt, world5)
  /\ is_Some (budget nml (self nml world5) !! "ubar")
  /\ read_budgets nml key set_iter inflow_offline inflow_budgets
       (Terms [Name "vbar"]) false (Some 9) world5 = Ok (tt, world9)
  /\ budget_tidx nml (self nml world5) <> Some 9
  /\ budget nml (self nml world9) !! "ubar" = None
  /\ is_Some (budget nml (self nml world9) !! "vbar")
  /\ exists ks w0,
       cache_only nml world5 w0
       /\ budget nml (self nml w0) = ∅
       /\ backend_load nml key ks (Some 9) w0 = Ok (tt, world9)
       /\ forall k, is_Some (budget nml (self nml world9) !! k) -> is_Some (ks !! k).
Proof.
  assert (Hrun : read_budgets nml key set_iter inflow_offline inflow_budgets
            (Terms [Name "vbar"]) false (Some 9) world5 = Ok (tt, world9))
    by (vm_compute; reflexivity).
  assert (Hne : budget_tidx nml (self nml world5) <> Some 9)
    by (vm_compute; discriminate).
  split; [vm_compute; reflexivity|].
  split; [vm_compute; eauto|].
  split; [exact Hrun|].
  split; [exact Hne|].
  split; [vm_compute; reflexivity|].
  split; [vm_compute; eauto|].
  destruct (read_budgets_single_tidx nml key set_iter inflow_offline inflow_budgets
              _ _ _ _ _ Hrun Hne) as (ks & w0 & H1 & H2 & H3 & H4 & _).
  exists ks, w0. split_and!; [exact H1|exact H2|exact H3|exact H4].
Defined.


(** C8 on the sample run: [ubar] is there, [wbar] is registered and has no
    file, [bogus] is not registered. *)
Lemma parse_budget_terms_partition_witness :
  existing_terms nml key set_iter None false world0
    = Ok ([Name "ubar"; Name "vbar"], world0)
  /\ Forall (fun t => in_key key t = true) [Name "ubar"; Name "vbar"]
  /\ exists ks w',
       _parse_budget_terms nml key set_iter (Terms (Name <$> ["ubar"; "wbar"; "bogus"])) false world0
         = Ok (ks, w')
       /\ fs nml w' = fs nml world0 /\ self nml w' = self nml world0
       /\ (forall n, is_Some (ks !! n)
             <-> n ∈ ["ubar"; "wbar"; "bogus"] /\ is_Some (key_get key n)
                 /\ Name n ∈ [Name "ubar"; Name "vbar"])
       /\ out nml w' = [WarnMissing ["wbar"]; WarnInvalid [Name "bogus"]].
Proof.
  assert (Hex : existing_terms nml key set_iter None false world0
                = Ok ([Name "ubar"; Name "vbar"], world0))
    by (vm_compute; reflexivity).
  assert (Hall : Forall (fun t => in_key key t = true) [Name "ubar"; Name "vbar"])
    by (repeat constructor).
  split; [exact Hex|]. split; [exact Hall|].
  destruct (parse_budget_terms_partition nml parser actuator_disk Z Z.ltb turbine_field
              turbine_pos key key_search_r set_iter inflow_offline
              ["ubar"; "wbar"; "bogus"] false world0 world0 _ Hex Hall)
    as (ks & w' & Hrun & Hfs & Hself & Hks & _ & Hout & _).
  exists ks, w'. split_and!; [exact Hrun|exact Hfs|exact Hself|exact Hks|].
  rewrite Hout.
  assert (Hu : is_Some (ks !! "ubar")).
  { apply Hks. split_and!; [constructor|vm_compute; eauto|constructor]. }
  rewrite decide_False.
  2:{ intros Hz. apply map_size_empty_iff in Hz. rewrite Hz in Hu.
      rewrite lookup_empty in Hu. by destruct Hu. }
  vm_compute. reflexivity.
Defined.

(** C8 does not hold for every run directory: with one budget file whose
    pair [(0, 4)] is not in the key table, the look-up of the found pairs
    in [existing_terms] raises [KeyError], and [_parse_budget_terms]
    raises it for every list of names, the empty list and a list of
    registered names with files among them. *)
Lemma parse_budget_terms_unregistered_file :
  key_inverse key (0, 4) = []
  /\ (0, 4) ∈ found_pairs nml set_iter (self nml world_unregistered)
                (listdir nml unregistered_dir "run") false [0; 5]
  /\ existing_terms nml key set_iter None false world_unregistered = Raise KeyError
  /\ _parse_budget_terms nml key set_iter (Terms [Name "ubar"]) false world_unregistered
     = Raise KeyError
  /\ _parse_budget_terms nml key set_iter (Terms []) false world_unregistered
     = Raise KeyError
  /\ _parse_budget_terms nml key set_iter (Terms [Name "ubar"; Name "bogus"]) false
       world_unregistered
     = Raise KeyError.
Proof.
  split_and!; try (vm_compute; reflexivity).
  assert (Hf : found_pairs nml set_iter (self nml world_unregistered)
                 (listdir nml unregistered_dir "run") false [0; 5]
               = [(0, 1); (0, 2); (0, 4)]) by (vm_compute; reflexivity).
  rewrite Hf. do 2 right. left.
Defined.

(** C5 on the sample run: mean velocities 0.25 and 0.5, inflow profiles
    [[1; 2]] and [[0; 0.5]]. *)
Lemma calc_wake_deficit_witness :
  budget nml (self nml world_means) !! "ubar" = Some (Np.full 2 3 2 0.25)
  /\ budget nml (self nml world_means) !! "vbar" = Some (Np.full 2 3 2 0.5)
  /\ _get_inflow nml inflow_offline inflow_budgets false false world_means
     = Ok (([1; 2]%float, [0; 0.5]%float, None), world_means)
  /\ budget nml (self nml world_means) !! "uwake" = None
  /\ (exists w' uwake vwake,
        calc_wake nml key set_iter inflow_offline inflow_budgets false false false world_means
          = Ok (tt, w')
        /\ budget nml (self nml w') !! "uwake" = Some uwake
        /\ budget nml (self nml w') !! "vwake" = Some vwake
        /\ forall i j k, (i < 2)%nat -> (j < 3)%nat -> (k < 2)%nat ->
             exists iu iv, [1; 2]%float !! k = Some iu /\ [0; 0.5]%float !! k = Some iv
               /\ Np.get3 uwake i j k = Some (iu - 0.25)%float
               /\ Np.get3 vwake i j k = Some (iv - 0.5)%float)
  /\ is_Some (budget nml (self nml world_wake) !! "uwake")
  /\ is_Some (budget nml (self nml world_wake) !! "vwake")
  /\ calc_wake nml key set_iter inflow_offline inflow_budgets false false false world_wake
     = Ok (tt, mkWorld nml (fs nml world_wake) (self nml world_wake)
                 (out nml world_wake ++ [WarnWakeComputed])).
Proof.
  assert (Hu : budget nml (self nml world_means) !! "ubar" = Some (Np.full 2 3 2 0.25))
    by (vm_compute; reflexivity).
  assert (Hv : budget nml (self nml world_means) !! "vbar" = Some (Np.full 2 3 2 0.5))
    by (vm_compute; reflexivity).
  assert (Hin : _get_inflow nml inflow_offline inflow_budgets false false world_means
                = Ok (([1; 2]%float, [0; 0.5]%float, None), world_means))
    by (vm_compute; reflexivity).
  assert (Hn : budget nml (self nml world_means) !! "uwake" = None)
    by (vm_compute; reflexivity).
  assert (Huw : is_Some (budget nml (self nml world_wake) !! "uwake"))
    by (vm_compute; eauto).
  assert (Hvw : is_Some (budget nml (self nml world_wake) !! "vwake"))
    by (vm_compute; eauto).
  split_and!; [exact Hu|exact Hv|exact Hin|exact Hn| |exact Huw|exact Hvw|].
  - destruct (proj1 (calc_wake_deficit nml key set_iter inflow_offline inflow_budgets
                       false false false 0.25 0.5 [1; 2]%float [0; 0.5]%float 2 3
                       world_means world_means) Hu Hv Hin (or_introl Hn))
      as (w' & uwake & vwake & Hrun & H1 & H2 & _ & _ & Hall).
    exists w', uwake, vwake. split_and!; [exact Hrun|exact H1|exact H2|exact Hall].
  - apply (proj2 (calc_wake_deficit nml key set_iter inflow_offline inflow_budgets
                    false false false 0.25 0.5 [1; 2]%float [0; 0.5]%float 2 3
                    world_wake world_wake) Huw Hvw).
    discriminate.
Defined.

(** C7 on the sample namelist: 2 x 3 x 2 cells over 4 x 6 x 2. *)
Lemma load_grid_staggering_witness :
  _load_grid nml Z Z.ltb turbine_field turbine_pos key_search_r
    None None None (0, 0, 0)%float NormOff world_bare = Ok (tt, world_grid)
  /\ associate_grid nml (self nml world_bare) && verbose nml (self nml world_bare) = false
  /\ regular_axis 0 (4 - 4 / 2) 2
  /\ regular_axis 0 (6 - 6 / 3) 3
  /\ regular_axis (2 / 2 / 2) (2 - 2 / 2 / 2) 2
  /\ xLine nml (self nml world_grid) = [0; 2]%float
  /\ yLine nml (self nml world_grid) = [0; 2; 4]%float
  /\ zLine nml (self nml world_grid) = [0.5; 1.5]%float
  /\ dx nml (self nml world_grid) = Some 2%float
  /\ dz nml (self nml world_grid) = Some 1%float
  /\ head (zLine nml (self nml world_grid)) = Some (1 / 2)%float
  /\ last (zLine nml (self nml world_grid)) = Some (2 - 1 / 2)%float
  /\ head (xLine nml (self nml world_grid)) = Some 0%float
  /\ last (xLine nml (self nml world_grid)) = Some (4 - 2)%float.
Proof.
  assert (Hrun : _load_grid nml Z Z.ltb turbine_field turbine_pos key_search_r
            None None None (0, 0, 0)%float NormOff world_bare = Ok (tt, world_grid))
    by (vm_compute; reflexivity).
  assert (Hx : regular_axis 0 (4 - 4 / 2) 2) by (split; [lia|vm_compute; done]).
  assert (Hy : regular_axis 0 (6 - 6 / 3) 3) by (split; [lia|vm_compute; done]).
  assert (Hz : regular_axis (2 / 2 / 2) (2 - 2 / 2 / 2) 2)
    by (split; [lia|vm_compute; done]).
  pose proof (load_grid_staggering nml Z Z.ltb turbine_field turbine_pos key_search_r
                (0, 0, 0)%float world_bare world_grid Hrun eq_refl Hx Hy Hz eq_refl)
    as (Hdx & _ & Hdz & _ & _ & _ & Hx0 & Hx1 & _ & _ & Hz0 & Hz1).
  split_and!;
    [exact Hrun|reflexivity|exact Hx|exact Hy|exact Hz
    |vm_compute; reflexivity|vm_compute; reflexivity|vm_compute; reflexivity
    |exact Hdx|exact Hdz|exact Hz0|exact Hz1|exact Hx0|exact Hx1].
Defined.

(** C6 on a session of one point: re-centering twice on (10, 0, 0). *)
Lemma normalize_origin_twice_and_reset_witness :
  finite_point (10, 0, 0)%float
  /\ origin nml session_tenth = (0, 0, 0)%float
  /\ normalize_origin nml (Some (10, 0, 0)%float)
       (normalize_origin nml (Some (10, 0, 0)%float) session_tenth)
     = normalize_origin nml (Some (10, 0, 0)%float) session_tenth
  /\ xLine nml (normalize_origin nml None
                  (normalize_origin nml (Some (10, 0, 0)%float) session_tenth))
     = there_and_back 10 <$> xLine nml session_tenth.
Proof.
  assert (Hp : finite_point (10, 0, 0)%float) by (split_and!; reflexivity).
  destruct (normalize_origin_twice_and_reset nml (10, 0, 0)%float session_tenth Hp)
    as [Htwice Hreset].
  destruct (Hreset eq_refl) as (_ & _ & Hx & _).
  split_and!; [exact Hp|reflexivity|exact Htwice|exact Hx].
Defined.

(** C6 does not hold bit for bit: from the origin, the point 0.1 shifted
    by 10 and shifted back is 0.099999999999999645. *)
Lemma normalize_origin_reset_not_bitwise :
  origin nml session_tenth = (0, 0, 0)%float
  /\ xLine nml session_tenth = [tenth]
  /\ xLine nml (normalize_origin nml None
                  (normalize_origin nml (Some (10, 0, 0)%float) session_tenth))
     = [(tenth - 10 + 10)%float]
  /\ PrimFloat.eqb (tenth - 10 + 10) tenth = false
  /\ (tenth - 10 + 10)%float <> tenth.
Proof.
  split_and!; try reflexivity.
  intros H. apply (f_equal (fun x => PrimFloat.eqb x tenth)) in H.
  vm_compute in H. discriminate H.
Defined.

(** C4 on the sample run: the first [write_npz] writes both files, the
    second is refused, and a session without budgets is left alone. *)
Lemma write_whole_or_nothing_witness :
  associate_budgets nml (self nml world0) = true
  /\ path_exists nml (fs nml world0) "run/sample_budgets.npz" = false
  /\ write_npz nml key set_iter inflow_offline inflow_budgets get_xids_util read_turb_property
       None (Terms [Name "ubar"]) None false None None None world0
     = Ok (tt, world_written)
  /\ (exists arrs md,
        fs nml world_written
          = <["run/sample_metadata.npz" := Metadata nml npz md]>
              (<["run/sample_budgets.npz" := Archive nml npz arrs]> (fs nml world0))
        /\ is_Some (arrs !! "ubar")
        /\ md_origin nml md = (0, 0, 0)%float)
  /\ path_exists nml (fs nml world_written) "run/sample_budgets.npz" = true
  /\ (exists w',
        write_npz nml key set_iter inflow_offline inflow_budgets get_xids_util read_turb_property
          None (Terms [Name "ubar"]) None false None None None world_written
        = Ok (tt, w')
        /\ fs nml w' = fs nml world_written)
  /\ associate_budgets nml (self nml world_no_budgets) = false
  /\ write_npz nml key set_iter inflow_offline inflow_budgets get_xids_util read_turb_property
       None (Terms [Name "ubar"]) None false None None None world_no_budgets
     = Ok (tt, mkWorld nml (fs nml world_no_budgets) (self nml world_no_budgets)
                 [WarnNoBudgetsAssociated npz]).
Proof.
  assert (Hrun : write_npz nml key set_iter inflow_offline inflow_budgets get_xids_util
            read_turb_property None (Terms [Name "ubar"]) None false None None None world0
          = Ok (tt, world_written)) by (vm_compute; reflexivity).
  assert (Hex : path_exists nml (fs nml world_written) "run/sample_budgets.npz" = true)
    by (vm_compute; reflexivity).
  pose proof (write_whole_or_nothing nml parser actuator_disk Z Z.ltb turbine_field
                turbine_pos key key_search_r set_iter inflow_offline inflow_budgets get_xids_util
                read_turb_property npz None (Terms [Name "ubar"]) None false None None None)
    as Hthm.
  split_and!;
    [reflexivity|vm_compute; reflexivity|exact Hrun| |exact Hex| |reflexivity|].
  - destruct (proj2 (proj2 (Hthm world0)) world_written eq_refl (or_introl eq_refl) Hrun)
      as (keys & sl & w1 & arrs & md & Hsel & Hfs & Hall & Hlk & _ & _ & _ & _ & Ho).
    exists arrs, md. split_and!; [exact Hfs| |exact Ho].
    assert (Hkeys : keys = ["ubar"]).
    { apply (f_equal (fun r => match r with Ok (k, _, _) => k | Raise _ => [] end)) in Hsel.
      vm_compute in Hsel. by symmetry. }
    subst keys. rewrite Hlk, bool_decide_true by constructor.
    by inversion Hall.
  - assert (Hsel : exists ksl,
        selection nml key set_iter inflow_offline inflow_budgets get_xids_util npz
          (Terms [Name "ubar"]) None None None world_written = Ok ksl).
    { vm_compute. eauto. }
    destruct Hsel as ([[keys sl] w1] & Hsel).
    eexists. split.
    + exact (proj1 (proj2 (Hthm world_written)) keys sl w1 eq_refl Hsel Hex eq_refl).
    + reflexivity.
  - exact (proj1 (Hthm world_no_budgets) eq_refl).
Defined.

(** C4 does not hold for a session that is bound to no budgets: with no
    destination on disk, the writers return and write nothing. *)
Lemma write_without_budgets_writes_nothing :
  associate_budgets nml (self nml world_no_budgets) = false
  /\ path_exists nml (fs nml world_no_budgets) "run/sample_budgets.npz" = false
  /\ path_exists nml (fs nml world_no_budgets) "run/sample_budgets.mat" = false
  /\ write_npz nml key set_iter inflow_offline inflow_budgets get_xids_util read_turb_property
       None (Terms [Name "ubar"]) None false None None None world_no_budgets
     = Ok (tt, mkWorld nml ∅ session_no_budgets [WarnNoBudgetsAssociated npz])
  /\ write_mat nml key set_iter inflow_offline inflow_budgets get_xids_util read_turb_property
       None (Terms [Name "ubar"]) None true None None None world_no_budgets
     = Ok (tt, mkWorld nml ∅ session_no_budgets [WarnNoBudgetsAssociated mat]).
Proof. split_and!; vm_compute; reflexivity. Defined.

(** ** The further properties on the sample run *)

Module More.

Definition nml30 : nml := [("xloc", PInt 30); ("yloc", PInt 1)].
Definition nml10 : nml := [("xloc", PInt 10); ("yloc", PInt 3)].
Definition nml20 : nml := [("xloc", PInt 20); ("yloc", PInt 2)].

(** Three turbines, in ascending [xloc]. *)
Definition turbines3 : TurbineArray nml :=
  mkTurbineArray nml false "xloc" 5 "" 3 [nml30; nml10; nml20]
    [mkTurbine nml nml10 2 "xloc"; mkTurbine nml nml20 3 "xloc";
     mkTurbine nml nml30 1 "xloc"] [].

(** The three mean velocities in the cache. *)
Definition world_three : world nml :=
  mkWorld nml run_dir
    (set_budget nml
       (<["ubar" := Np.full 2 3 2 0.25]>
          (<["vbar" := Np.full 2 3 2 0.5]>
             (<["wbar" := Np.full 2 3 2 0.125]> ∅)))
       session) [].
Definition world_three_wake : world nml :=
  after (calc_wake nml key set_iter inflow_offline inflow_budgets false true false world_three).

(** A session on the archive that [write_npz] left in [world_written]. *)
Definition session_npz : BudgetIO nml :=
  mkBudgetIO nml "run" "sample" false 1 grid_nml
    false true false true true true false false None
    4 6 2 2 3 2 (Some 2%float) (Some 2%float) (Some 1%float)
    [0%float; 2%float] [0%float; 2%float; 4%float] [0.5%float; 1.5%float]
    (0%float, 0%float, 0%float)
    ∅ None None [].
Definition world_reader : world nml := mkWorld nml (fs nml world_written) session_npz [].

(** A turbine directory with two input files. *)
Definition turbs_dir : gmap string (file nml) :=
  list_to_map
    [("turbs/ActuatorDisk_0002_input.inp", Text nml "two");
     ("turbs/ActuatorDisk_0001_input.inp", Text nml "one")].

Definition world5_again : world nml :=
  after (_parse_budget_terms nml key set_iter (Terms [Name "ubar"]) false world5).
Definition world5_over : world nml :=
  after (read_budgets nml key set_iter inflow_offline inflow_budgets
           (Terms [Name "vbar"]) true (Some 5) world5).

End More.

Import More.

(** [set_sort('yloc')] on three turbines sorted by [xloc]. *)
Lemma TurbineArray_set_sort_sorted_witness :
  (forall a b : Z, Z.ltb a b = true -> Z.ltb b a = false)
  /\ (forall a b c : Z, Z.ltb b a = false -> Z.ltb c b = false -> Z.ltb c a = false)
  /\ t_input_nml nml <$> ta_turbines nml (TurbineArray_set_sort nml Z Z.ltb turbine_field
                                             "yloc" true false turbines3)
     = [nml30; nml20; nml10]
  /\ t_input_nml nml <$> ta_turbines nml (TurbineArray_set_sort nml Z Z.ltb turbine_field
                                             "yloc" true true turbines3)
     = [nml10; nml20; nml30]
  /\ StronglySorted
       (fun a b => Z.ltb (Turbine_key nml Z turbine_field b)
                         (Turbine_key nml Z turbine_field a) = false)
       (ta_turbines nml (TurbineArray_set_sort nml Z Z.ltb turbine_field
                           "yloc" true false turbines3))
  /\ Forall (fun t => t_sort_by nml t = "yloc")
       (ta_turbines nml (TurbineArray_set_sort nml Z Z.ltb turbine_field
                           "yloc" true false turbines3)).
Proof.
  assert (Hasym : forall a b : Z, Z.ltb a b = true -> Z.ltb b a = false) by lia.
  assert (Htrans : forall a b c : Z,
             Z.ltb b a = false -> Z.ltb c b = false -> Z.ltb c a = false) by lia.
  destruct (TurbineArray_set_sort_sorted nml Z Z.ltb turbine_field "yloc" true false
              turbines3 Hasym Htrans) as (_ & _ & _ & Hall & _ & Hs).
  split_and!; [exact Hasym|exact Htrans|reflexivity|reflexivity|exact Hs|exact Hall].
Defined.

Lemma set_iter_elem_of (l : list Z) (x : Z) : x ∈ set_iter l <-> x ∈ l.
Proof. unfold set_iter. rewrite merge_sort_Permutation. apply elem_of_remove_dups. Qed.

(** [TurbineArray('turbs')] on a directory with two input files, and on a
    directory without entries when one turbine is asked for. *)
Lemma TurbineArray_init_from_directory_witness :
  list_sort String.ltb false (listdir nml turbs_dir "turbs")
  = ["ActuatorDisk_0001_input.inp"; "ActuatorDisk_0002_input.inp"]
  /\ (exists ta,
        TurbineArray_init nml parser actuator_disk Z Z.ltb turbine_field turbs_dir
          (Some "turbs") None None None 5 false "xloc" = Ok (Built nml ta)
        /\ ta_turb_dir nml ta = "turbs"
        /\ ta_num_turbines nml ta = 2%nat
        /\ length (ta_array nml ta) = 2%nat)
  /\ TurbineArray_init nml parser actuator_disk Z Z.ltb turbine_field ∅
       (Some "turbs") (Some 1%nat) None None 5 false "xloc" = Raise IndexError.
Proof.
  assert (Hn : list_sort String.ltb false (listdir nml turbs_dir "turbs")
               = ["ActuatorDisk_0001_input.inp"; "ActuatorDisk_0002_input.inp"])
    by (vm_compute; reflexivity).
  split; [exact Hn|]. split.
  - destruct (TurbineArray_init_from_directory nml parser actuator_disk Z Z.ltb
                turbine_field turbs_dir "turbs" None 5 false "xloc")
      as (Hret & Htotal & _).
    cbv zeta in Hret, Htotal. rewrite Hn in Hret, Htotal.
    destruct (Htotal ["one"; "two"]) as [ta Hta].
    { repeat constructor. }
    { simpl. lia. }
    destruct (Hret ta Hta) as (texts & Hall & Hdir & Hnum & Harr & _).
    exists ta. split_and!; [exact Hta|exact Hdir|exact Hnum|].
    rewrite Harr, Hnum. simpl.
    apply Forall2_length in Hall. simpl in Hall.
    rewrite length_take, length_fmap. lia.
  - exact (proj2 (proj2 (TurbineArray_init_from_directory nml parser actuator_disk
                           Z Z.ltb turbine_field ∅ "turbs" (Some 1%nat) 5 false "xloc"))
             eq_refl).
Defined.

(** [existing_terms(budget=0)] on the sample run. *)
Lemma existing_terms_raw_witness :
  associate_padeops nml (self nml world0) = true
  /\ found_pairs nml set_iter (self nml world0) (listdir nml run_dir "run") false [0]
     = [(0, 1); (0, 2)]
  /\ (exists names w',
        existing_terms nml key set_iter (Some [0]) false world0 = Ok (Name <$> names, w')
        /\ Forall2 (fun tup n => head (key_inverse key tup) = Some n)
             [(0, 1); (0, 2)] names
        /\ out nml w' = [])
  /\ (forall b t,
        (b, t) ∈ found_pairs nml set_iter (self nml world0)
                   (listdir nml run_dir "run") false [0]
        <-> b ∈ [0]
            /\ (t ∈ captured (pat_term 1 b) (listdir nml run_dir "run")
                \/ (false = true /\ b = 5 /\ t ∈ [1; 2; 3]
                    /\ t ∈ captured (pat_term 1 0) (listdir nml run_dir "run")))).
Proof.
  assert (Hf : found_pairs nml set_iter (self nml world0) (listdir nml run_dir "run")
                 false [0]
               = [(0, 1); (0, 2)]) by (vm_compute; reflexivity).
  split; [reflexivity|]. split; [exact Hf|].
  destruct (existing_terms_raw nml key set_iter [0] false world0 eq_refl)
    as (Hok & _ & Hin).
  split; [|exact (Hin set_iter_elem_of)].
  destruct Hok as (names & w' & Hrun & _ & _ & Hout & Hall & _).
  { change (Forall (fun tup => key_inverse key tup <> [])
              (found_pairs nml set_iter (self nml world0) (listdir nml run_dir "run")
                 false [0])).
    rewrite Hf. repeat constructor; discriminate. }
  exists names, w'. split; [exact Hrun|].
  change (found_pairs nml set_iter (self nml world0)
            (listdir nml (fs nml world0) (dir_name nml (self nml world0))) false [0])
    with (found_pairs nml set_iter (self nml world0) (listdir nml run_dir "run") false [0])
    in Hall, Hout.
  rewrite Hf in Hall, Hout. split; [exact Hall|exact Hout].
Defined.

(** [read_budgets(['ubar'], tidx=5)] a second time. *)
Lemma read_budgets_cache_hit_witness :
  associate_budgets nml (self nml world5) = true
  /\ budget_tidx nml (self nml world5) = Some 5
  /\ _parse_budget_terms nml key set_iter (Terms [Name "ubar"]) false world5
     = Ok ({["ubar" := (0, 1)]}, world5_again)
  /\ is_Some (budget nml (self nml world5) !! "ubar")
  /\ read_budgets nml key set_iter inflow_offline inflow_budgets
       (Terms [Name "ubar"]) false (Some 5) world5 = Ok (tt, world5_again)
  /\ self nml world5_again = self nml world5
  /\ fs nml world5_again = fs nml world5.
Proof.
  assert (Hparse : _parse_budget_terms nml key set_iter (Terms [Name "ubar"]) false world5
                   = Ok ({["ubar" := (0, 1)]}, world5_again))
    by (vm_compute; reflexivity).
  assert (Hu : is_Some (budget nml (self nml world5) !! "ubar"))
    by (vm_compute; eauto).
  assert (Ht : budget_tidx nml (self nml world5) = Some 5) by (vm_compute; reflexivity).
  destruct (read_budgets_cache_hit nml key set_iter inflow_offline inflow_budgets
              (Terms [Name "ubar"]) {["ubar" := (0, 1)]} world5 world5_again)
    as (Hrun & Hself & Hfs).
  - reflexivity.
  - reflexivity.
  - reflexivity.
  - exact Hparse.
  - intros k [bt Hk]. apply lookup_singleton_Some in Hk as [<- _]. exact Hu.
  - intros t Et. rewrite Ht in Et. injection Et as <-.
    change (5 ∈ [5; 9]). constructor.
  - rewrite Ht in Hrun.
    split_and!; [reflexivity|exact Ht|exact Hparse|exact Hu|exact Hrun|exact Hself|exact Hfs].
Defined.

(** [read_budgets(['vbar'], overwrite=True, tidx=5)] with [ubar] cached at 5. *)
Lemma read_budgets_overwrite_reloads_witness :
  budget_tidx nml (self nml world5) = Some 5
  /\ is_Some (budget nml (self nml world5) !! "ubar")
  /\ read_budgets nml key set_iter inflow_offline inflow_budgets
       (Terms [Name "vbar"]) true (Some 5) world5 = Ok (tt, world5_over)
  /\ budget nml (self nml world5_over) !! "ubar" = None
  /\ is_Some (budget nml (self nml world5_over) !! "vbar")
  /\ exists ks w0,
       budget nml (self nml w0) = ∅
       /\ backend_load nml key ks (Some 5) w0 = Ok (tt, world5_over)
       /\ forall k, is_Some (budget nml (self nml world5_over) !! k) -> is_Some (ks !! k).
Proof.
  assert (Ht : budget_tidx nml (self nml world5) = Some 5) by (vm_compute; reflexivity).
  assert (Hrun : read_budgets nml key set_iter inflow_offline inflow_budgets
            (Terms [Name "vbar"]) true (budget_tidx nml (self nml world5)) world5
          = Ok (tt, world5_over)) by (vm_compute; reflexivity).
  destruct (read_budgets_overwrite_reloads nml key set_iter inflow_offline inflow_budgets
              (Terms [Name "vbar"]) world5 world5_over Hrun)
    as (ks & w0 & _ & Hempty & Hload & Hks & _).
  rewrite Ht in Hrun, Hload.
  split_and!; [exact Ht|vm_compute; eauto|exact Hrun|vm_compute; reflexivity
              |vm_compute; eauto|].
  exists ks, w0. split_and!; [exact Hempty|exact Hload|exact Hks].
Defined.

(** [calc_wake(wInflow=True)] with the three mean velocities cached. *)
Lemma calc_wake_vertical_witness :
  calc_wake nml key set_iter inflow_offline inflow_budgets false true false world_three
    = Ok (tt, world_three_wake)
  /\ budget nml (self nml world_three) !! "wbar" = Some (Np.full 2 3 2 0.125)
  /\ budget nml (self nml world_three) !! "wwake" = None
  /\ budget nml (self nml world_three_wake) !! "wwake" = Some (Np.full 2 3 2 0.125)
  /\ budget nml (self nml world_three_wake) !! "wbar" = Some (Np.full 2 3 2 0.125).
Proof.
  assert (Hrun : calc_wake nml key set_iter inflow_offline inflow_budgets false true false world_three
                 = Ok (tt, world_three_wake)) by (vm_compute; reflexivity).
  assert (Hw : budget nml (self nml world_three) !! "wbar" = Some (Np.full 2 3 2 0.125))
    by (vm_compute; reflexivity).
  assert (Hn : budget nml (self nml world_three) !! "wwake" = None)
    by (vm_compute; reflexivity).
  destruct (calc_wake_vertical nml key set_iter inflow_offline inflow_budgets false false
              (Np.full 2 3 2 0.125) 2 3 world_three world_three_wake Hrun)
    as [H1 H2].
  - vm_compute. eauto.
  - vm_compute. eauto.
  - exact Hw.
  - reflexivity.
  - repeat constructor.
  - left. exact Hn.
  - split_and!; [exact Hrun|exact Hw|exact Hn|exact H1|exact H2].
Defined.

(** [write_npz(budget_terms=['ubar'])], then a session on the archive that
    reads [ubar]. *)
Lemma write_then_read_archive_witness :
  associate_budgets nml (self nml world0) = true
  /\ path_exists nml (fs nml world0)
       (destination nml npz None None (self nml world0)) = false
  /\ write_npz nml key set_iter inflow_offline inflow_budgets get_xids_util
       read_turb_property None (Terms [Name "ubar"]) None false None None None world0
     = Ok (tt, world_written)
  /\ fs nml world_reader = fs nml world_written
  /\ archive_path nml npz (self nml world_reader) = "run/sample_budgets.npz"
  /\ exists sl w1 r',
       selection nml key set_iter inflow_offline inflow_budgets get_xids_util
         npz (Terms [Name "ubar"]) None None None world0 = Ok ((["ubar"], sl), w1)
       /\ map_Forall (fun _ a => no_unit_axis a = true) (sl_fields sl)
       /\ _read_budgets_npz nml {["ubar" := (0, 1)]} world_reader = Ok (tt, r')
       /\ is_Some (sl_fields sl !! "ubar")
       /\ budget nml (self nml r') !! "ubar" = sl_fields sl !! "ubar".
Proof.
  assert (Hex : path_exists nml (fs nml world0)
                  (destination nml npz None None (self nml world0)) = false)
    by (vm_compute; reflexivity).
  assert (Hrun : write_npz nml key set_iter inflow_offline inflow_budgets get_xids_util
            read_turb_property None (Terms [Name "ubar"]) None false None None None
            world0 = Ok (tt, world_written)) by (vm_compute; reflexivity).
  assert (Hsel : exists keys sl w1,
            selection nml key set_iter inflow_offline inflow_budgets get_xids_util
              npz (Terms [Name "ubar"]) None None None world0 = Ok ((keys, sl), w1)
            /\ keys = ["ubar"]
            /\ map_Forall (fun _ a => no_unit_axis a = true) (sl_fields sl)).
  { eexists _, _, _. split_and!; [vm_compute; reflexivity|reflexivity|].
    apply map_Forall_to_list. vm_compute. repeat constructor. }
  destruct Hsel as (keys & sl & w1 & Hsel & -> & Hnu).
  destruct (write_then_read_archive nml parser actuator_disk Z Z.ltb turbine_field
              turbine_pos key key_search_r set_iter inflow_offline inflow_budgets
              get_xids_util read_turb_property None (Terms [Name "ubar"]) None false
              None None None world0 w1 world_written ["ubar"] sl
              {["ubar" := (0, 1)]} world_reader
              eq_refl (or_introl Hex) Hsel Hnu Hrun eq_refl eq_refl eq_refl)
    as (Hp & _ & r' & Hr & Hk).
  { intros k [bt Hk]. apply lookup_singleton_Some in Hk as [<- _]. constructor. }
  destruct (Hk "ubar") as [Hs Hb].
  { exists (0, 1). apply lookup_singleton_eq. }
  split_and!; [reflexivity|exact Hex|exact Hrun|reflexivity|exact Hp|].
  exists sl, w1, r'. split_and!; [exact Hsel|exact Hnu|exact Hr|exact Hs|exact Hb].
Defined.

Module Refused.

(** The sample run with a file of [wbar] that is too short. *)
Definition world_short : world nml :=
  mkWorld nml
    (<["run/Run01_budget0_term03_t000005_n000010.s3D" := Doubles nml (ramp 5)]> run_dir)
    session [].

Definition rebuilt : TurbineArray nml :=
  match TurbineArray_init nml parser actuator_disk Z Z.ltb turbine_field ∅ None None
          (Some (td_turbines nml (TurbineArray_todict nml turbines3))) None 5 false "xloc" with
  | Ok (Built _ ta) => ta
  | _ => turbines3
  end.

End Refused.

Import Refused.

(** Requests that the raw backend refuses on the sample run: a name that
    is not in the key table, a term without a file, a file too short. *)
Lemma read_budgets_padeops_refuses_witness :
  5 ∈ all_budget_tidx nml (self nml world0)
  /\ _read_budgets_padeops nml key {["bogus" := (0, 1)]} (Some 5) world0 = Raise KeyError
  /\ _read_budgets_padeops nml key {["wbar" := (0, 3)]} (Some 5) world0 = Raise IndexError
  /\ _read_budgets_padeops nml key {["wbar" := (0, 3)]} (Some 5) world_short
     = Raise ValueError.
Proof.
  assert (H5 : 5 ∈ all_budget_tidx nml (self nml world0)) by constructor.
  split_and!; [exact H5| | |].
  - apply (proj1 (read_budgets_padeops_refuses nml key "bogus" (0, 1) 5 world0 H5)).
    reflexivity.
  - apply (proj1 (proj2 (read_budgets_padeops_refuses nml key "wbar" (0, 3) 5 world0 H5))
             (0, 3)); vm_compute; reflexivity.
  - apply (proj2 (proj2 (read_budgets_padeops_refuses nml key "wbar" (0, 3) 5
                           world_short H5))
             (0, 3) "run/Run01_budget0_term03_t000005_n000010.s3D" 10
             ltac:(vm_compute; reflexivity) ltac:(vm_compute; reflexivity)
             ltac:(vm_compute; reflexivity)
             (ramp 5)).
    + vm_compute. reflexivity.
    + vm_compute. lia.
Defined.

(** The three turbines rebuilt from the namelists of their [todict]. *)
Lemma TurbineArray_rebuilt_from_todict_witness :
  Forall (fun t => t_sort_by nml t = "xloc") (ta_turbines nml turbines3)
  /\ StronglySorted
       (fun a b => Z.ltb (Turbine_key nml Z turbine_field b)
                         (Turbine_key nml Z turbine_field a) = false)
       (ta_turbines nml turbines3)
  /\ TurbineArray_init nml parser actuator_disk Z Z.ltb turbine_field ∅ None None
       (Some (td_turbines nml (TurbineArray_todict nml turbines3))) None 5 false "xloc"
     = Ok (Built nml rebuilt)
  /\ t_input_nml nml <$> ta_turbines nml rebuilt = [nml10; nml20; nml30]
  /\ t_n nml <$> ta_turbines nml rebuilt = [1; 2; 3]%nat.
Proof.
  assert (Hf : Forall (fun t => t_sort_by nml t = "xloc") (ta_turbines nml turbines3))
    by (repeat constructor).
  assert (Hs : StronglySorted
                 (fun a b => Z.ltb (Turbine_key nml Z turbine_field b)
                                   (Turbine_key nml Z turbine_field a) = false)
                 (ta_turbines nml turbines3)) by (repeat constructor).
  assert (Hrun : TurbineArray_init nml parser actuator_disk Z Z.ltb turbine_field ∅ None None
                   (Some (td_turbines nml (TurbineArray_todict nml turbines3))) None 5 false
                   "xloc" = Ok (Built nml rebuilt)) by (vm_compute; reflexivity).
  destruct (TurbineArray_rebuilt_from_todict nml parser actuator_disk Z Z.ltb turbine_field
              turbines3 rebuilt ∅ 5 false Hf Hs Hrun) as (Ht & Hn & _).
  split_and!; [exact Hf|exact Hs|exact Hrun|exact Hn|].
  rewrite Ht. reflexivity.
Defined.

Module Centred.

(** The three turbines in ascending [yloc], and a session that holds them
    and has no grid yet. *)
Definition turbines_by_y : TurbineArray nml :=
  TurbineArray_set_sort nml Z Z.ltb turbine_field "yloc" true false turbines3.

Definition session_turbines : BudgetIO nml :=
  mkBudgetIO nml "run" "sample" false 1 grid_nml
    true false false true true false true false (Some turbines_by_y)
    0 0 0 0 0 0 None None None [] [] []
    (0%float, 0%float, 0%float)
    ∅ None None [5; 9].
Definition world_turbines : world nml := mkWorld nml run_dir session_turbines [].

End Centred.

Import Centred.

(** [_load_grid(x, y, z, origin=(1, 0, 0), normalize_origin='turb')] on the
    session with three turbines, and on the sample session, which has none. *)
Lemma load_grid_turbine_origin_witness :
  associate_grid nml (self nml world_turbines) && verbose nml (self nml world_turbines) = false
  /\ t_input_nml nml <$> ta_turbines nml turbines_by_y = [nml30; nml20; nml10]
  /\ (exists w' ta',
        _load_grid nml Z Z.ltb turbine_field turbine_pos key_search_r
          (Some [0; 2]%float) (Some [0; 2; 4]%float) (Some [0.5; 1.5]%float)
          (1, 0, 0)%float (NormStr "turb") world_turbines = Ok (tt, w')
        /\ turbineArray nml (self nml w') = Some ta'
        /\ t_input_nml nml <$> ta_turbines nml ta' = [nml10; nml20; nml30]
        /\ origin nml (self nml w') = turbine_pos nml10
        /\ normalized_xyz nml (self nml w') = true
        /\ xLine nml (self nml w') = Np.isub [0; 2]%float (0 - 1)%float)
  /\ _load_grid nml Z Z.ltb turbine_field turbine_pos key_search_r
       (Some [0; 2]%float) (Some [0; 2; 4]%float) (Some [0.5; 1.5]%float)
       (1, 0, 0)%float (NormStr "turb") world_bare = Raise TypeError.
Proof.
  assert (Hasym : forall a b : Z, Z.ltb a b = true -> Z.ltb b a = false) by lia.
  assert (Htrans : forall a b c : Z,
             Z.ltb b a = false -> Z.ltb c b = false -> Z.ltb c a = false) by lia.
  split; [reflexivity|]. split; [reflexivity|]. split.
  - destruct (proj2 (load_grid_turbine_origin nml Z Z.ltb turbine_field turbine_pos
                       key_search_r [0; 2]%float [0; 2; 4]%float [0.5; 1.5]%float
                       (1, 0, 0)%float "turb" world_turbines eq_refl
                       ltac:(discriminate) ltac:(discriminate) ltac:(discriminate)
                       (or_introl eq_refl))
                turbines_by_y eq_refl eq_refl) as [_ Hok].
    destruct (Hok (mkTurbine nml nml10 2 "xloc")
                [mkTurbine nml nml20 3 "xloc"; mkTurbine nml nml30 1 "xloc"]
                eq_refl Hasym Htrans)
      as (w' & Hrun & _ & _ & Hta & Ho & Hn & Hxl & _).
    exists w', (TurbineArray_set_sort nml Z Z.ltb turbine_field "xloc" true false
                  turbines_by_y).
    split_and!; [exact Hrun|exact Hta|reflexivity|exact Ho|exact Hn|exact Hxl].
  - apply (proj1 (load_grid_turbine_origin nml Z Z.ltb turbine_field turbine_pos
                    key_search_r [0; 2]%float [0; 2; 4]%float [0.5; 1.5]%float
                    (1, 0, 0)%float "turb" world_bare eq_refl
                    ltac:(discriminate) ltac:(discriminate) ltac:(discriminate)
                    (or_introl eq_refl))).
    reflexivity.
Defined.
